(* ===== verification/_CoqProject ===== *)
-Q . S2P
Prelude.v
PyString.v
Monad.v
Http.v
Login.v
Store.v
Heap.v
Prompt.v
PromptRead.v
World.v
Genai.v
Chat.v
TestKey.v
App.v
Secrecy.v
PyChat.v
Concurrent.v
Refine.v
