(* ===== verification/Prelude.v ===== *)
(** * Heart Health Chatbot backend (src/main.py): verification development

    ** The program

    [src/main.py] is a FastAPI application of one module: a login check
    against a fixed pair, a chat route that relays a message to a generative
    model together with the transcript of the session and stores the
    exchange in a process-wide dict, a route that tests the API key, three
    page routes and a global exception handler.  Its parts, leaves first, and
    the file of this development that models each:

    - [PyString.v]: the operations of Python's [str] the handlers use:
      truthiness ([x or y], [not x]), the slice [s[:n]], [s.strip()],
      [sep.join(xs)].
    - [Monad.v]: the handler monad, state of the process plus a raised
      exception, with [catch] for [try]/[except].
    - [Http.v]: exceptions ([HTTPException] and all others, by type name and
      text), responses, and the flat JSON bodies the handlers build, with the
      types of their fields.
    - [Login.v]: [DEFAULT_USERNAME], [DEFAULT_PASSWORD], [LoginRequest],
      [login] (lines 47-54, 103-107).
    - [Store.v]: the dict [chat_histories] (line 78) as a finite map from
      session id to list of entries, and the statements of [chat] that touch
      it (lines 130, 149-151); the well-formedness of a transcript.
    - [Heap.v]: the same statements on Python's objects, a dict of references
      to list objects that [append] changes in place.
    - [Prompt.v]: [SYSTEM_PROMPT] (lines 57-65), the comprehension, the join
      and the f-string of lines 133-138.
    - [PromptRead.v]: the reader of a composed prompt, which the source does
      not have: the inverse the composer would need for its output to be
      unambiguous.
    - [World.v]: the state of the process ([WorldOf S]: the dict in the
      representation [S], the log, the trace of external calls; [World] is
      [WorldOf] of the map of [Store.v]), the configuration read at import
      ([Config]), what the outside answers during a request ([Env]), and the
      module body ([startup], lines 23-27 and 78).
    - [Genai.v]: [configure_genai] (lines 81-87) and the calls into [uuid] and
      [google.generativeai].
    - [Chat.v]: [ChatRequest], [ChatResponse], [chat] (lines 68-75, 117-159).
    - [TestKey.v]: [test_key] (lines 161-180), whole and cut in two at the
      call of the service ([test_key_begin], [test_key_resume]).
    - [App.v]: the page routes (lines 89-101), [global_exception_handler]
      (lines 109-115), the dispatch of a request to its handler and of an
      exception to its exception handler, which is the framework's doing and
      is modelled from its documented behaviour, the shapes of the responses,
      runs of requests and the reachable states.  The application is generic in
      the handler of chat (class [ChatHandler]), which is the only handler
      that touches the dict.
    - [Secrecy.v]: where the API key goes, as noninterference over states
      compared up to the argument of [genai.configure]; it models no code of
      its own.
    - [PyChat.v]: [chat] on the store of [Heap.v], whole ([py_chat]) and cut
      in two at the call of the service ([chat_begin], [chat_resume]), and
      the application built on it.
    - [Concurrent.v]: the server of section 5 of the specification, where
      the handlers of chat and of the key test yield at the call of the
      service and waiting handlers resume in any order.
    - [Refine.v]: the session store of the specification as a class with
      laws, the program's dict as an instance of it, and the simulation of
      the abstract store by the application.

    ** How state and effects are modelled

    A handler is a computation in the monad [M World Exn A]: a function from
    the state to an outcome ([Return a] or [Raise e]) and the state after it.
    What was written before an exception is raised stays written, as in
    Python.  Every [logger] call appends a record to [log], every call that
    leaves the program appends to [calls], so the theorems can say what was
    logged and which calls were made, in which order.

    The environment is an oracle per request: [Env] gives the string
    [uuid.uuid4()] returns, the exception [genai.configure] raises if any,
    and for each model name and prompt what [generate_content] returns or
    raises, including a response whose [.text] raises.  No theorem assumes
    anything about these answers unless it says so, so each holds for every
    behaviour of the service.  A run is a list of pairs of a request and an
    environment; [reachable] is the set of states runs lead to from
    [startup].  The answer of [generate_content] is a function of the model
    name and the prompt only: that the service answers differently to
    different keys is expressed by different environments, which is how
    [Secrecy.v] states its assumption.

    The dict is modelled twice.  [Store.v] treats it as a map to values,
    which is what [Chat.v] uses.  [Heap.v] treats it as Python does, a map to
    references into a heap of list objects, where [.get(session_id, [])]
    allocates a fresh list and returns the stored reference when there is
    one, and [append] mutates; [PyChat.v] runs the whole handler on it.  The
    code before and around the store statements (logging, the session id,
    the calls of the library, the exception handlers) is written once, for
    every representation.  [py_run_refines] shows that the two applications
    answer every sequence of requests alike and that the program never makes
    two sessions share a list object.

    Requests are served one at a time in [run], because that is what the
    code does: [chat] is declared [async] but contains no [await], so a
    handler never yields.  [Concurrent.v] gives the model the specification
    describes instead, in which the call of the service is a suspension
    point: a step of the scheduler either takes a request and runs its
    handler to its end or to the call ([arrive]), or resumes a waiting
    handler with the answer ([resume]); a schedule is a list of such steps.
    What a waiting handler holds is a reference, which is why this model
    stands on [Heap.v].

    All definitions are structurally recursive or not recursive at all: there
    is no fuel, and every example is evaluated by [vm_compute].  The program
    has no loop but the comprehension of line 134, and every handler of the
    model is a total function, so no theorem is about termination.  The
    server of [Concurrent.v] is a function of the schedule.  Status codes
    are integers ([Z]); lengths and positions are natural numbers.  Python
    strings are Rocq [string]s: one [ascii] stands for one code point, so the
    model covers strings over code points below 256, and [isspace] is
    Python's [str.isspace] on that range.

    ** What the theorems show

    - Chat ([Chat.v]): the outcome and final state on each branch: success
      ([chat_success], with [chat_Return_inv] its converse), failure of the
      generation ([chat_generation_failure]), failure of the configuration,
      which is outside the [try] block ([chat_configure_failure]); a failed
      call leaves the store as it was ([chat_failure_keeps_store]); only the
      served session changes ([chat_frame]); transcripts stay well formed
      ([chat_preserves_wf]); on a well-formed store nothing but these
      exceptions can be raised ([chat_raises_only]); the request's [history]
      is ignored; which id a request is served under ([chat_given_session],
      [chat_minted_session]); which external calls are made, as the exact
      list appended to the trace ([chat_calls], [chat_trace]); the reply is
      stripped, and a blank reply is a success ([chat_response_trimmed],
      [chat_blank_reply]).
    - Application ([App.v]): responses to chat requests on each branch
      ([serve_chat_success], [serve_chat_generation_failure],
      [serve_chat_configure_failure]); every response has the fields and
      types of its route ([serve_well_typed]); every reachable store is well formed
      ([reachable_wf_store]); after any run the transcript of a session has
      two entries per chat call answered with 200 under its id
      ([transcript_length]); a login changes nothing that a later request
      can see ([login_carries_nothing]).
    - Refinement ([Refine.v], [Heap.v], [PyChat.v]): the application
      simulates the abstract store of the specification ([serve_simulates]);
      the store update of [chat] is the contract's two appends
      ([store_exchange_record]); the contract's clients keep the invariant
      in every implementation ([record_exchange_ok]); reading a stored
      transcript as turns drops an entry that is not a one-part user or
      model dict, which no well-formed transcript has, so for the reachable
      states ([reachable_wf_store]) nothing is lost ([turns_of_wf]); the
      store statements
      on references implement those on values ([py_exchange_refines]), and so
      do the handler ([py_chat_refines]) and the application
      ([py_run_refines]).
    - Requests in flight together ([Concurrent.v]): on the schedule of the
      code the server is the application ([one_at_a_time_is_app]); under
      every schedule transcripts stay well formed ([interleaved_wf]), no list
      object is shared between sessions ([interleaved_owned]), and a
      transcript has at most two entries per successful call
      ([interleaved_length_le]), but it has fewer whenever two first
      requests of a session overlap ([lost_update], for every state,
      message and reply), though never for a session the dict knows and
      whose waiting handlers hold the dict's list object
      ([settled_keeps_all]); what a chat request holds when it starts to
      wait ([arrive_chat_waits]) and what it stores and answers when it
      resumes ([resume_chat_success]).  These theorems are about the
      scheduler of the specification: the code runs only the schedule
      [one_at_a_time].
    - Prompt ([Prompt.v], [PromptRead.v]): rendering a well-formed transcript
      never raises ([render_history_wf]); what an exchange adds to the
      rendered history ([conversation_history_extend]); the prompt does not
      separate the message from the transcript ([build_prompt_forge], for a
      transcript with an exchange before the forged one), except
      when no text contains a newline: then the prompt reads back as what it
      was composed from ([read_prompt_build]) and determines it
      ([build_prompt_inj]).
    - The API key ([Secrecy.v]): two processes with two keys that the
      outside answers alike send the same responses and write the same log
      and prompts ([run_key_independent]).
    - Login, key test, strings: [login_success_iff], [login_mismatch];
      [test_key_never_raises], [test_key_success_iff], [test_key_no_key],
      [test_key_keeps_store]; what [strip] returns, as an equivalence
      ([strip_iff]).

    ** Where the code and its specification differ

    The theorems make these visible: an unknown session id is kept, not
    replaced ([chat_given_session]); the empty string counts as no id
    ([chat_minted_session]); a blank reply is stored and returned
    ([chat_blank_reply]); a generation failure is answered with [detail] only,
    the type of the exception is sent only for failures outside the [try]
    block ([serve_chat_generation_failure], [serve_chat_configure_failure]);
    [chat] contains no suspension point, so within the process requests do
    not interleave and each step of [run] is one whole request
    ([one_at_a_time_is_app]); and if they did interleave as the specification
    says, transcripts would not be corrupted ([interleaved_wf]) but the
    promise of two entries per successful call would fail ([lost_update]).

    ** Not modelled

    Validation of request bodies by pydantic, the CORS middleware, static
    files, the rendering of the two templates (a page is the constructor
    [TemplateResponse] with the template's name, so a template that is
    missing or fails to render is outside the model), uvicorn, and the
    Gemini service itself, of which only the interface is modelled.  The
    set-up of logging (lines 16-17) and [load_dotenv()] (line 20) are not
    translated: the log is the list of records written through [logger],
    and the key is what [os.getenv] returned, whatever put it there.
    Requests that match no route never reach the program's code.
    [BaseException]s that are not [Exception]s are outside the model.

    Of the framework's handling of an exception that reaches the handler
    registered at line 109, the model keeps the response that handler
    returns; that Starlette then raises the exception again for the server
    to log is not modelled.  The [Raise] branch of [serve], the answer of
    the server when an exception handler itself raises, is never taken
    ([app_never_raises]): neither exception handler of the program can
    raise.

    Python's [str] is Unicode; the model's strings have one [ascii] per code
    point below 256, so [s[:30]], [s[:50]] and [strip()] are modelled on
    that range only.

    ** This file

    The prelude: the libraries every file loads, the bridge between [string]
    and [list ascii] with its rewrite database [pystr], and small tactics. *)

From stdpp Require Export gmap strings list.
From Stdlib Require Export Ascii.
From Stdlib Require String.

(** stdpp's solvers clear hypotheses that may be gone already. *)
#[export] Set Warnings "-clear-no-such-hyp".

Declare Scope py_scope.
Delimit Scope py_scope with py.

Create Rewrite HintDb pystr.

(** ** Strings as lists of characters *)

Definition chars (s : string) : list ascii := String.list_ascii_of_string s.

Definition str (l : list ascii) : string := String.string_of_list_ascii l.

Lemma str_chars (s : string) : str (chars s) = s.
Proof. apply String.string_of_list_ascii_of_string. Qed.

Lemma chars_str (l : list ascii) : chars (str l) = l.
Proof. apply String.list_ascii_of_string_of_list_ascii. Qed.

#[export] Instance chars_inj : Inj (=) (=) chars.
Proof. intros s1 s2 H. by rewrite <-(str_chars s1), H, str_chars. Qed.

#[export] Instance str_inj : Inj (=) (=) str.
Proof. intros l1 l2 H. by rewrite <-(chars_str l1), H, chars_str. Qed.

Lemma chars_nil : chars "" = [].
Proof. done. Qed.

Lemma chars_cons (c : ascii) (s : string) : chars (String c s) = c :: chars s.
Proof. done. Qed.

Lemma chars_app (s t : string) : chars (s +:+ t) = chars s ++ chars t.
Proof.
  induction s as [|c s IH]; [done|].
  change (String c s +:+ t) with (String c (s +:+ t)).
  by rewrite !chars_cons, IH.
Qed.

Lemma str_app (k l : list ascii) : str (k ++ l) = str k +:+ str l.
Proof. apply (inj chars). by rewrite chars_app, !chars_str. Qed.

Lemma chars_length (s : string) : length (chars s) = String.length s.
Proof. induction s as [|c s IH]; [done|]. rewrite chars_cons. cbn. by rewrite IH. Qed.

#[export] Hint Rewrite chars_nil chars_cons chars_app chars_str str_chars : pystr.

(** Transfer a goal between strings to one between lists of characters. *)
Ltac by_chars := apply (inj chars); autorewrite with pystr.

Lemma string_app_assoc (s t u : string) : (s +:+ t) +:+ u = s +:+ t +:+ u.
Proof. by_chars. by rewrite (assoc_L (++)). Qed.

Lemma string_app_nil_r (s : string) : s +:+ "" = s.
Proof. by_chars. by rewrite (right_id_L [] (++)). Qed.

Lemma string_app_nil_l (s : string) : "" +:+ s = s.
Proof. done. Qed.

Lemma string_length_app (s t : string) :
  String.length (s +:+ t) = String.length s + String.length t.
Proof. by rewrite <-!chars_length, chars_app, length_app. Qed.

Lemma string_app_inv_r (s t u : string) : t +:+ s = u +:+ s → t = u.
Proof.
  intros H. apply (inj chars). apply (f_equal chars) in H.
  rewrite !chars_app in H. by apply (inj (.++ chars s)) in H.
Qed.

Lemma string_nonempty_length (s : string) : s ≠ "" ↔ 0 < String.length s.
Proof. destruct s; cbn; split; (done || lia). Qed.

#[export] Hint Rewrite string_app_assoc string_app_nil_r string_length_app : pystr.

(** ** Small tactics *)

(** Case on the first [match] or [if] scrutinee of the goal, keeping the equation. *)
Ltac case_scrut :=
  match goal with
  | |- context [match ?x with _ => _ end] =>
      let E := fresh "E" in destruct x eqn:E
  end.
