(* ===== verification/PyString.v ===== *)
(** * Python string operations used by src/main.py

    The handlers use four operations of Python's [str]: truthiness
    ([x or y], [not x], [a if x else b]), the slice [s[:n]], [s.strip()] and
    [sep.join(xs)].  This file defines each on Rocq strings and proves the
    facts the handlers' theorems rest on.  One [ascii] stands for one code
    point; [isspace] is Python's [str.isspace] on code points below 256. *)

From S2P Require Import Prelude.

(** ** Truthiness *)

(** [bool(s)] of a [str]: the empty string is falsy. *)
Definition truthy_str (s : string) : bool := bool_decide (s ≠ "").

(** [bool(x)] of an [Optional[str]]: [None] and the empty string are falsy. *)
Definition truthy (x : option string) : bool :=
  match x with
  | Some s => truthy_str s
  | None => false
  end.

(** [x or y] where [x : Optional[str]] and [y : str]. *)
Definition py_or (x : option string) (y : string) : string :=
  match x with
  | Some s => if truthy_str s then s else y
  | None => y
  end.

(** ** Slices *)

(** [s[:n]]: the first [n] code points, the whole string when it is shorter. *)
Definition slice_to (n : nat) (s : string) : string := str (take n (chars s)).

(** ** Whitespace and strip *)

(** [c.isspace()] for a code point below 256: TAB..CR, FS..US, SPACE, NEL, NBSP. *)
Definition isspace (c : ascii) : bool :=
  let n := nat_of_ascii c in
  bool_decide (9 ≤ n ≤ 13) || bool_decide (28 ≤ n ≤ 32)
  || bool_decide (n = 133) || bool_decide (n = 160).

(** Drop the leading whitespace. *)
Fixpoint lstrip_chars (l : list ascii) : list ascii :=
  match l with
  | [] => []
  | c :: l' => if isspace c then lstrip_chars l' else l
  end.

(** Drop the trailing whitespace. *)
Definition rstrip_chars (l : list ascii) : list ascii :=
  reverse (lstrip_chars (reverse l)).

Definition strip_chars (l : list ascii) : list ascii :=
  rstrip_chars (lstrip_chars l).

(** [s.strip()]. *)
Definition strip (s : string) : string := str (strip_chars (chars s)).

(** A string with no whitespace at either end, as a test. *)
Definition trimmedb (l : list ascii) : bool :=
  match head l, last l with
  | Some a, Some b => negb (isspace a) && negb (isspace b)
  | _, _ => true
  end.

(** ** join *)

(** [sep.join(xs)]. *)
Definition join (sep : string) (xs : list string) : string := String.concat sep xs.

(** The newline character and the one-character string ["\n"]. *)
Definition nl_char : ascii := ascii_of_nat 10.
Definition nl : string := String nl_char "".

(** * Properties *)

(** ** Truthiness and slices *)

Lemma truthy_str_true (s : string) : truthy_str s = true ↔ s ≠ "".
Proof. unfold truthy_str. by rewrite bool_decide_eq_true. Qed.

Lemma truthy_true (x : option string) :
  truthy x = true ↔ ∃ s, x = Some s ∧ s ≠ "".
Proof.
  destruct x as [s|]; cbn.
  - rewrite truthy_str_true. split; [eauto|by intros (? & [= <-] & ?)].
  - split; [done|by intros (? & ? & ?)].
Qed.

Lemma py_or_truthy (x : option string) (y : string) :
  py_or x y = match x with Some s => if truthy x then s else y | None => y end.
Proof. by destruct x. Qed.

Lemma py_or_Some (s y : string) : s ≠ "" → py_or (Some s) y = s.
Proof. intros H. cbn. by rewrite (proj2 (truthy_str_true s) H). Qed.

Lemma py_or_falsy (x : option string) (y : string) : truthy x = false → py_or x y = y.
Proof. destruct x; cbn; [|done]. by intros ->. Qed.

Lemma py_or_nonempty (x : option string) (y : string) : y ≠ "" → py_or x y ≠ "".
Proof.
  intros Hy. destruct x as [s|]; cbn; [|done].
  destruct (truthy_str s) eqn:E; [by apply truthy_str_true|done].
Qed.

Lemma slice_to_length (n : nat) (s : string) :
  String.length (slice_to n s) = n `min` String.length s.
Proof. unfold slice_to. by rewrite <-!chars_length, chars_str, length_take. Qed.

Lemma slice_to_ge (n : nat) (s : string) : String.length s ≤ n → slice_to n s = s.
Proof.
  intros H. unfold slice_to. rewrite take_ge, str_chars; [done|].
  by rewrite chars_length.
Qed.

Lemma slice_to_prefix (n : nat) (s : string) :
  s = slice_to n s +:+ str (drop n (chars s)).
Proof. unfold slice_to. by rewrite <-str_app, take_drop, str_chars. Qed.

(** ** strip, on lists of characters *)

Section strip_chars.
Implicit Types (c : ascii) (l k p q m : list ascii).

(** [l] is all whitespace. *)
Definition blank (l : list ascii) : Prop := Forall (λ c, isspace c = true) l.

(** [l] has no whitespace at either end. *)
Definition trimmed (l : list ascii) : Prop :=
  (∀ c, head l = Some c → isspace c = false) ∧
  (∀ c, last l = Some c → isspace c = false).

Lemma trimmedb_spec l : trimmedb l = true ↔ trimmed l.
Proof.
  unfold trimmedb, trimmed. destruct l as [|a l]; [done|].
  destruct (last (a :: l)) as [b|] eqn:Hb; [|by apply last_None in Hb].
  cbn [head]. rewrite andb_true_iff, !negb_true_iff. split.
  - intros [??]. split; by intros ? [= <-].
  - intros [??]. auto.
Qed.

Lemma blank_nil : blank [].
Proof. constructor. Qed.

Lemma blank_cons c l : isspace c = true → blank l → blank (c :: l).
Proof. by constructor. Qed.

Lemma blank_app l k : blank (l ++ k) ↔ blank l ∧ blank k.
Proof. apply Forall_app. Qed.

Lemma blank_reverse l : blank l → blank (reverse l).
Proof. unfold blank. by rewrite Forall_reverse. Qed.

Lemma lstrip_chars_blank l k : blank l → lstrip_chars (l ++ k) = lstrip_chars k.
Proof. induction 1 as [|c l Hc _ IH]; [done|]. cbn. by rewrite Hc. Qed.

Lemma lstrip_chars_head l c : head l = Some c → isspace c = false → lstrip_chars l = l.
Proof. destruct l; intros [= ->] Hc. cbn. by rewrite Hc. Qed.

Lemma lstrip_chars_decomp l :
  ∃ p, l = p ++ lstrip_chars l ∧ blank p ∧
       ∀ c, head (lstrip_chars l) = Some c → isspace c = false.
Proof.
  induction l as [|a l (p & Hl & Hp & Hh)].
  { exists []. split_and!; [done|apply blank_nil|done]. }
  cbn. destruct (isspace a) eqn:Ha.
  - exists (a :: p). split_and!; [by cbn; f_equal|by apply blank_cons|done].
  - exists []. split_and!; [done|apply blank_nil|]. by intros ? [= <-].
Qed.

Lemma lstrip_chars_snoc l c :
  isspace c = false → lstrip_chars (l ++ [c]) = lstrip_chars l ++ [c].
Proof.
  intros Hc. induction l as [|a l IH]; cbn; [by rewrite Hc|].
  by destruct (isspace a).
Qed.

Lemma lstrip_chars_last l c :
  last l = Some c → isspace c = false → last (lstrip_chars l) = Some c.
Proof.
  intros Hl Hc. apply last_Some in Hl as [l' ->].
  by rewrite lstrip_chars_snoc, last_snoc.
Qed.

Lemma rstrip_chars_blank l k : blank k → rstrip_chars (l ++ k) = rstrip_chars l.
Proof.
  intros Hk. unfold rstrip_chars.
  by rewrite reverse_app, lstrip_chars_blank by by apply blank_reverse.
Qed.

Lemma rstrip_chars_last l c : last l = Some c → isspace c = false → rstrip_chars l = l.
Proof.
  intros Hl Hc. unfold rstrip_chars.
  rewrite (lstrip_chars_head _ c), reverse_involutive; [done| |done].
  by rewrite head_reverse.
Qed.

Lemma rstrip_chars_decomp l :
  ∃ q, l = rstrip_chars l ++ q ∧ blank q ∧
       ∀ c, last (rstrip_chars l) = Some c → isspace c = false.
Proof.
  destruct (lstrip_chars_decomp (reverse l)) as (p & Hl & Hp & Hh).
  exists (reverse p). unfold rstrip_chars. split_and!.
  - by rewrite <-reverse_app, <-Hl, reverse_involutive.
  - by apply blank_reverse.
  - intros c. rewrite last_reverse. apply Hh.
Qed.

Lemma rstrip_chars_cons l c :
  isspace c = false → rstrip_chars (c :: l) = c :: rstrip_chars l.
Proof.
  intros Hc. unfold rstrip_chars.
  by rewrite reverse_cons, lstrip_chars_snoc, reverse_snoc.
Qed.

Lemma rstrip_chars_head l c :
  head l = Some c → isspace c = false → head (rstrip_chars l) = Some c.
Proof. destruct l; intros [= ->] Hc. by rewrite rstrip_chars_cons. Qed.

(** What [strip] returns: the middle part of a decomposition of its argument
    into whitespace, a trimmed string and whitespace. *)
Lemma strip_chars_decomp l :
  ∃ p q, l = p ++ strip_chars l ++ q ∧ blank p ∧ blank q ∧ trimmed (strip_chars l).
Proof.
  destruct (lstrip_chars_decomp l) as (p & Hl & Hp & Hh).
  destruct (rstrip_chars_decomp (lstrip_chars l)) as (q & Hr & Hq & Ht).
  exists p, q. unfold strip_chars. split_and!; [by rewrite <-Hr|done..|].
  split; [|done]. intros c Hc. destruct (lstrip_chars l) as [|a k] eqn:E; [done|].
  specialize (Hh a eq_refl). rewrite rstrip_chars_cons in Hc by done.
  by injection Hc as <-.
Qed.

(** ... and that decomposition is unique. *)
Lemma strip_chars_unique p m q :
  blank p → blank q → trimmed m → strip_chars (p ++ m ++ q) = m.
Proof.
  intros Hp Hq [Hh Ht]. unfold strip_chars. rewrite lstrip_chars_blank by done.
  destruct m as [|a m].
  - cbn [app]. rewrite <-(app_nil_r q), lstrip_chars_blank by done. done.
  - rewrite (lstrip_chars_head _ a), rstrip_chars_blank by eauto.
    destruct (last (a :: m)) as [b|] eqn:Hb; [|by apply last_None in Hb].
    eapply rstrip_chars_last; eauto.
Qed.

Lemma strip_chars_trimmed l : trimmed l → strip_chars l = l.
Proof.
  intros H. rewrite <-(app_nil_r l) at 1.
  by apply (strip_chars_unique [] l []); [apply blank_nil..|].
Qed.

End strip_chars.

(** ** strip, on strings *)

(** [s.strip()] only removes whitespace from the two ends of [s], and what
    it returns has no whitespace at either end. *)
Theorem strip_spec (s : string) :
  ∃ p q, s = str p +:+ strip s +:+ str q ∧
         blank p ∧ blank q ∧ trimmed (chars (strip s)).
Proof.
  destruct (strip_chars_decomp (chars s)) as (p & q & Hs & Hp & Hq & Ht).
  exists p, q. unfold strip. rewrite chars_str. split_and!; [|done..].
  by rewrite <-!str_app, <-Hs, str_chars.
Qed.

(** Whitespace around a string that has none at its ends is exactly what
    [strip] removes. *)
Theorem strip_unique (p q : list ascii) (m : string) :
  blank p → blank q → trimmed (chars m) → strip (str p +:+ m +:+ str q) = m.
Proof.
  intros Hp Hq Hm. unfold strip. autorewrite with pystr.
  by rewrite strip_chars_unique, str_chars.
Qed.

Lemma strip_unique_witness :
  strip (str (chars "  ") +:+ "chest pain" +:+ str (chars " " ++ [nl_char])) = "chest pain".
Proof.
  apply strip_unique;
    [repeat (apply blank_cons; [done|]); apply blank_nil ..|by apply trimmedb_spec].
Defined.

(** C36. [s.strip()] is [m] exactly when [s] is [m] between two runs of
    whitespace and [m] has no whitespace at either end: [strip] removes the
    whitespace at the two ends of [s] and nothing else. *)
Theorem strip_iff (s m : string) :
  strip s = m ↔
  ∃ p q, blank p ∧ blank q ∧ trimmed (chars m) ∧ s = str p +:+ m +:+ str q.
Proof.
  split.
  - intros <-. destruct (strip_spec s) as (p & q & Hs & Hp & Hq & Ht). by exists p, q.
  - intros (p & q & Hp & Hq & Hm & ->). by apply strip_unique.
Qed.

Lemma strip_trimmed (s : string) : trimmed (chars s) → strip s = s.
Proof. intros H. unfold strip. by rewrite strip_chars_trimmed, str_chars. Qed.

(** Stripping twice is stripping once. *)
Theorem strip_idemp (s : string) : strip (strip s) = strip s.
Proof.
  destruct (strip_spec s) as (p & q & _ & _ & _ & Ht). by apply strip_trimmed.
Qed.

Lemma strip_length_le (s : string) : String.length (strip s) ≤ String.length s.
Proof.
  destruct (strip_spec s) as (p & q & Hs & _). rewrite Hs at 2.
  rewrite !string_length_app. lia.
Qed.

Lemma strip_blank (s : string) : blank (chars s) → strip s = "".
Proof.
  intros H. rewrite <-(str_chars s), <-(string_app_nil_r (str (chars s))).
  by apply (strip_unique (chars s) [] ""); [|apply blank_nil|].
Qed.

(** ** join *)

Section join.
Implicit Types (sep x y : string) (xs ys : list string).

Lemma join_nil sep : join sep [] = "".
Proof. done. Qed.

Lemma join_singleton sep x : join sep [x] = x.
Proof. done. Qed.

Lemma join_cons sep x xs :
  xs ≠ [] → join sep (x :: xs) = x +:+ sep +:+ join sep xs.
Proof. by destruct xs. Qed.

Lemma join_app sep xs ys :
  xs ≠ [] → ys ≠ [] →
  join sep (xs ++ ys) = join sep xs +:+ sep +:+ join sep ys.
Proof.
  intros Hxs Hys. induction xs as [|x xs IH]; [done|].
  destruct xs as [|x' xs].
  - cbn [app]. by rewrite join_cons.
  - rewrite <-app_comm_cons, !join_cons, IH by (done || by destruct xs).
    by rewrite !string_app_assoc.
Qed.

Lemma join_snoc sep xs y :
  xs ≠ [] → join sep (xs ++ [y]) = join sep xs +:+ sep +:+ y.
Proof. intros H. by rewrite join_app. Qed.

End join.
