(* ===== verification/Monad.v ===== *)
(** * The handler monad

    A handler of src/main.py reads and writes the state of the process and
    may raise.  [M S E A] is the type of such a computation: from a state to
    an outcome (a returned value or a raised exception) and the state after
    it.  State changes made before the exception persist, as in Python.
    [catch] is [try: .. except Exception as e: ..].

    Computations are compared pointwise ([≡]); the monad laws and the
    [Proper] instances make [≡] usable by rewriting.  The lemmas [run_*]
    evaluate one construct on a state and form the rewrite database [run]. *)

From S2P Require Import Prelude.

Inductive outcome (E A : Type) : Type :=
  | Return (a : A)
  | Raise (e : E).
Arguments Return {E A} a.
Arguments Raise {E A} e.

Definition M (S E A : Type) : Type := S → outcome E A * S.

Section monad.
Context {S E : Type}.

Definition ret {A} (a : A) : M S E A := λ s, (Return a, s).

Definition bind {A B} (m : M S E A) (k : A → M S E B) : M S E B :=
  λ s, match m s with
       | (Return a, s') => k a s'
       | (Raise e, s') => (Raise e, s')
       end.

Definition raise {A} (e : E) : M S E A := λ s, (Raise e, s).

(** [try: m except Exception as e: h e]. *)
Definition catch {A} (m : M S E A) (h : E → M S E A) : M S E A :=
  λ s, match m s with
       | (Return a, s') => (Return a, s')
       | (Raise e, s') => h e s'
       end.

Definition get : M S E S := λ s, (Return s, s).
Definition gets {A} (f : S → A) : M S E A := λ s, (Return (f s), s).
Definition put (s : S) : M S E unit := λ _, (Return tt, s).
Definition modify (f : S → S) : M S E unit := λ s, (Return tt, f s).

(** Lift a pure result: return the value or raise the error. *)
Definition lift_sum {A} (r : E + A) : M S E A :=
  match r with
  | inl e => raise e
  | inr a => ret a
  end.

#[export] Instance M_ret : MRet (M S E) := @ret.
#[export] Instance M_bind : MBind (M S E) := λ A B k m, bind m k.

(** Pointwise equality of computations. *)
#[export] Instance M_equiv {A} : Equiv (M S E A) := λ m1 m2, ∀ s, m1 s = m2 s.

#[export] Instance M_equivalence {A} : Equivalence (≡@{M S E A}).
Proof.
  split; [by intros ??|by intros ????|].
  intros m1 m2 m3 H1 H2 s. by rewrite H1, H2.
Qed.

#[export] Instance bind_proper {A B} :
  Proper ((≡) ==> pointwise_relation A (≡) ==> (≡)) (@bind A B).
Proof.
  intros m1 m2 Hm k1 k2 Hk s. unfold bind. rewrite Hm.
  destruct (m2 s) as [[a|e] s']; [apply Hk|done].
Qed.

#[export] Instance catch_proper {A} :
  Proper ((≡) ==> pointwise_relation E (≡) ==> (≡)) (@catch A).
Proof.
  intros m1 m2 Hm h1 h2 Hh s. unfold catch. rewrite Hm.
  destruct (m2 s) as [[a|e] s']; [done|apply Hh].
Qed.

(** ** Evaluation lemmas *)

Lemma run_ret {A} (a : A) s : ret a s = (Return a, s).
Proof. done. Qed.

Lemma run_raise {A} (e : E) s : raise (A:=A) e s = (Raise e, s).
Proof. done. Qed.

Lemma run_get s : get s = (Return s, s).
Proof. done. Qed.

Lemma run_gets {A} (f : S → A) s : gets f s = (Return (f s), s).
Proof. done. Qed.

Lemma run_put s' s : put s' s = (Return tt, s').
Proof. done. Qed.

Lemma run_modify f s : modify f s = (Return tt, f s).
Proof. done. Qed.

Lemma run_bind_Return {A B} (m : M S E A) (k : A → M S E B) s a s' :
  m s = (Return a, s') → bind m k s = k a s'.
Proof. unfold bind. by intros ->. Qed.

Lemma run_bind_Raise {A B} (m : M S E A) (k : A → M S E B) s e s' :
  m s = (Raise e, s') → bind m k s = (Raise e, s').
Proof. unfold bind. by intros ->. Qed.

Lemma run_catch_Return {A} (m : M S E A) h s a s' :
  m s = (Return a, s') → catch m h s = (Return a, s').
Proof. unfold catch. by intros ->. Qed.

Lemma run_catch_Raise {A} (m : M S E A) h s e s' :
  m s = (Raise e, s') → catch m h s = h e s'.
Proof. unfold catch. by intros ->. Qed.

(** A bind that returns did so through both of its parts. *)
Lemma bind_Return_inv {A B} (m : M S E A) (k : A → M S E B) s b s2 :
  bind m k s = (Return b, s2) →
  ∃ a s1, m s = (Return a, s1) ∧ k a s1 = (Return b, s2).
Proof. unfold bind. destruct (m s) as [[a|e] s1]; [eauto|done]. Qed.

(** A bind that raises did so in its first part or in its second. *)
Lemma bind_Raise_inv {A B} (m : M S E A) (k : A → M S E B) s e s2 :
  bind m k s = (Raise e, s2) →
  m s = (Raise e, s2) ∨ ∃ a s1, m s = (Return a, s1) ∧ k a s1 = (Raise e, s2).
Proof. unfold bind. destruct (m s) as [[a|e'] s1]; [eauto|]. intros [= -> ->]. eauto. Qed.

(** ** The monad laws, pointwise *)

Lemma bind_ret_l {A B} (a : A) (k : A → M S E B) : bind (ret a) k ≡ k a.
Proof. done. Qed.

Lemma bind_ret_r {A} (m : M S E A) : bind m ret ≡ m.
Proof. intros s. unfold bind. by destruct (m s) as [[a|e] s']. Qed.

Lemma bind_assoc {A B C} (m : M S E A) (k : A → M S E B) (h : B → M S E C) :
  bind (bind m k) h ≡ bind m (λ a, bind (k a) h).
Proof. intros s. unfold bind. by destruct (m s) as [[a|e] s']. Qed.

Lemma bind_raise {A B} (e : E) (k : A → M S E B) : bind (raise e) k ≡ raise e.
Proof. done. Qed.

Lemma catch_ret {A} (a : A) (h : E → M S E A) : catch (ret a) h ≡ ret a.
Proof. done. Qed.

Lemma catch_raise {A} (e : E) (h : E → M S E A) : catch (raise e) h ≡ h e.
Proof. done. Qed.

Lemma catch_reraise {A} (m : M S E A) : catch m raise ≡ m.
Proof. intros s. unfold catch. by destruct (m s) as [[a|e] s']. Qed.

End monad.

Arguments M : clear implicits.

Create Rewrite HintDb run.
#[export] Hint Rewrite @run_ret @run_raise @run_get @run_gets @run_put @run_modify : run.

(** Unfold the monad's operations in the goal and evaluate. *)
Ltac run_monad :=
  repeat (progress (cbv [mbind mret M_bind M_ret bind ret raise catch get gets put
                         modify lift_sum]; cbn beta iota)).
