(* ===== verification/Http.v ===== *)
(** * Values that cross the HTTP boundary

    The JSON bodies the handlers build (Python dict literals and the
    [ChatResponse] model), the exceptions a handler can raise, and the
    responses of the application.  A dict is an association list in insertion
    order, which is the order FastAPI serialises it in. *)

From stdpp Require Import pretty.
From S2P Require Import Prelude PyString.

(** ** JSON values built by the handlers *)

(** A value of a dict the handlers build: a string or a boolean. *)
Inductive jvalue : Type :=
  | JStr (s : string)
  | JBool (b : bool).

(** A JSON object: every body the application sends is a flat dict. *)
Definition json : Type := list (string * jvalue).

(** The first binding of key [k] in an association list. *)
Fixpoint assoc_get {A} (k : string) (kvs : list (string * A)) : option A :=
  match kvs with
  | [] => None
  | (k', v) :: kvs' => if String.eqb k k' then Some v else assoc_get k kvs'
  end.

(** [j.get(k)] of a JSON object. *)
Definition json_get (k : string) (j : json) : option jvalue := assoc_get k j.

(** The keys of a JSON object, in order. *)
Definition json_keys (j : json) : list string := j.*1.

(** The type of a value, as a response model declares it: [str] or [bool]. *)
Inductive jtype : Type := TStr | TBool.

Definition type_of (v : jvalue) : jtype :=
  match v with
  | JStr _ => TStr
  | JBool _ => TBool
  end.

(** The fields of a JSON object with their types, in order. *)
Definition schema_of (j : json) : list (string * jtype) := prod_map id type_of <$> j.

(** ** Exceptions *)

(** An exception as the handlers see it: [HTTPException(status_code, detail)]
    raised by [chat] (line 159), or any other [Exception], of which the code
    only uses [type(e).__name__] and [str(e)]. *)
Inductive Exn : Type :=
  | Exception (type_name : string) (msg : string)
  | HTTPException (status_code : Z) (detail : string).
Arguments HTTPException status_code%_Z detail.

(** [str(e)]; for an [HTTPException] Starlette prints ["<status>: <detail>"]. *)
Definition exn_str (e : Exn) : string :=
  match e with
  | Exception _ msg => msg
  | HTTPException c d => pretty c +:+ ": " +:+ d
  end.

(** [type(e).__name__]. *)
Definition exn_type_name (e : Exn) : string :=
  match e with
  | Exception t _ => t
  | HTTPException _ _ => "HTTPException"
  end.

(** ** Responses *)

Inductive Response : Type :=
  | RedirectResponse (url : string)
  | TemplateResponse (name : string)
  | JSONResponse (status_code : Z) (content : json).
Arguments JSONResponse status_code%_Z content.

(** The status line of a response: a redirect is 307, a rendered page 200. *)
Definition status_of (r : Response) : Z :=
  match r with
  | RedirectResponse _ => 307%Z
  | TemplateResponse _ => 200%Z
  | JSONResponse c _ => c
  end.

(** The JSON body of a response, when it has one. *)
Definition body_of (r : Response) : option json :=
  match r with
  | JSONResponse _ j => Some j
  | _ => None
  end.

#[export] Instance jtype_eq_dec : EqDecision jtype.
Proof. solve_decision. Defined.
#[export] Instance jvalue_eq_dec : EqDecision jvalue.
Proof. solve_decision. Defined.
#[export] Instance Exn_eq_dec : EqDecision Exn.
Proof. solve_decision. Defined.
#[export] Instance Response_inhabited : Inhabited Response :=
  populate (JSONResponse 200 []).

(** ** Lemmas *)

Lemma assoc_get_cons_eq {A} k (v : A) kvs : assoc_get k ((k, v) :: kvs) = Some v.
Proof. cbn. by rewrite String.eqb_refl. Qed.

Lemma assoc_get_cons_ne {A} k k' (v : A) kvs :
  k ≠ k' → assoc_get k ((k', v) :: kvs) = assoc_get k kvs.
Proof. intros H. cbn. by rewrite (proj2 (String.eqb_neq k k') H). Qed.

Lemma assoc_get_Some_elem {A} k (v : A) kvs : assoc_get k kvs = Some v → (k, v) ∈ kvs.
Proof.
  induction kvs as [|[k' v'] kvs IH]; [done|]. cbn.
  destruct (String.eqb_spec k k') as [->|].
  - intros [= ->]. by left.
  - intros H'. right. auto.
Qed.

Lemma exn_str_Exception t m : exn_str (Exception t m) = m.
Proof. done. Qed.
