(* ===== verification/Login.v ===== *)
(** * The login check

    [POST /api/login] (src/main.py lines 47-54 and 103-107): the request's
    pair is compared with the fixed pair by string equality; the answer is a
    dict, which FastAPI sends with status 200 in both cases. *)

From S2P Require Import Prelude PyString Http.

(** Lines 48-49. *)
Definition DEFAULT_USERNAME : string := "linsija".
Definition DEFAULT_PASSWORD : string := "linsi123".

(** Lines 52-54. *)
Record LoginRequest : Type := {
  username : string;
  password : string;
}.

(** What [login] returns on failure (line 107). *)
Definition login_failure : json :=
  [("success", JBool false); ("message", JStr "Incorrect username or password")].

(** Lines 103-107. *)
Definition login (request : LoginRequest) : json :=
  if bool_decide (username request = DEFAULT_USERNAME)
     && bool_decide (password request = DEFAULT_PASSWORD)
  then [("success", JBool true)]
  else login_failure.

(** Whether a body reports success: its ["success"] field is [True]. *)
Definition succeeded (j : json) : bool :=
  match json_get "success" j with
  | Some (JBool true) => true
  | _ => false
  end.

(** * Properties *)

(** C32. [login] reports success exactly when both fields equal the fixed pair,
    character for character. *)
Theorem login_success_iff (request : LoginRequest) :
  succeeded (login request) = true ↔
  username request = "linsija" ∧ password request = "linsi123".
Proof.
  unfold login. destruct (bool_decide _ && bool_decide _) eqn:E; cbn.
  - apply andb_true_iff in E as [?%bool_decide_eq_true ?%bool_decide_eq_true]. done.
  - split; [done|]. intros [Hu Hp].
    apply andb_false_iff in E as [E|E]; by apply bool_decide_eq_false in E.
Qed.

(** Any other pair gets the fixed failure body: [success] false and the
    message, under two keys in this order. *)
Theorem login_mismatch (request : LoginRequest) :
  username request ≠ DEFAULT_USERNAME ∨ password request ≠ DEFAULT_PASSWORD →
  login request =
    [("success", JBool false); ("message", JStr "Incorrect username or password")].
Proof.
  intros H. unfold login.
  destruct H as [H|H]; rewrite (bool_decide_eq_false_2 _ H);
    by rewrite ?andb_false_r.
Qed.

Lemma login_mismatch_witness :
  login {| username := "linsija"; password := "Linsi123" |} = login_failure.
Proof. apply login_mismatch. right. done. Defined.

Lemma login_match (request : LoginRequest) :
  username request = DEFAULT_USERNAME → password request = DEFAULT_PASSWORD →
  login request = [("success", JBool true)].
Proof. intros Hu Hp. unfold login. by rewrite !bool_decide_eq_true_2. Qed.

(** The answer always carries a boolean [success] field. *)
Lemma login_has_success (request : LoginRequest) :
  ∃ b, json_get "success" (login request) = Some (JBool b).
Proof. unfold login. case_match; eauto. Qed.

(** The comparison does no normalisation: case and surrounding blanks matter. *)
Example login_case_sensitive :
  succeeded (login {| username := "Linsija"; password := "linsi123" |}) = false.
Proof. reflexivity. Qed.

Example login_no_strip :
  succeeded (login {| username := "linsija "; password := "linsi123" |}) = false.
Proof. reflexivity. Qed.
