(* ===== verification/Store.v ===== *)
(** * The session store

    [chat_histories] (src/main.py line 78) is a dict from session id to the
    transcript of that session, a list of dicts [{"role": r, "parts": [t]}].
    [chat] reads it with [.get(session_id, [])] (line 130), appends the user
    entry and the model entry (lines 149-150) and binds the result to the
    session id (line 151).

    This file has the entries, the three store operations, the
    well-formedness of a transcript (complete user/model exchanges, one part
    per entry) with a boolean test for it, and the lemmas on how the
    operations act on lookups and preserve well-formedness. *)

From S2P Require Import Prelude PyString.

(** An entry of a transcript: the dict [{"role": .., "parts": [..]}]. *)
Record Entry : Type := {
  role : string;
  parts : list string;
}.

#[export] Instance Entry_eq_dec : EqDecision Entry.
Proof. solve_decision. Defined.

(** The type of [chat_histories]. *)
Abbreviation Histories := (gmap string (list Entry)).

(** Line 78: [chat_histories = {}]. *)
Definition chat_histories_init : Histories := ∅.

(** Line 130: [chat_histories.get(session_id, [])]. *)
Definition histories_get (session_id : string) (hs : Histories) : list Entry :=
  default [] (hs !! session_id).

(** Line 149: the dict appended for the user's message. *)
Definition user_entry (user_message : string) : Entry :=
  {| role := "user"; parts := [user_message] |}.

(** Line 150: the dict appended for the model's reply. *)
Definition model_entry (response_text : string) : Entry :=
  {| role := "model"; parts := [response_text] |}.

(** Lines 149-150: the two appends, in this order. *)
Definition append_exchange (history : list Entry) (user_message response_text : string)
    : list Entry :=
  (history ++ [user_entry user_message]) ++ [model_entry response_text].

(** Line 151: [chat_histories[session_id] = history]. *)
Definition histories_set (session_id : string) (history : list Entry) (hs : Histories)
    : Histories :=
  <[session_id := history]> hs.

(** Lines 130 and 149-151 together: what a successful [chat] does to the store. *)
Definition store_exchange (session_id user_message response_text : string)
    (hs : Histories) : Histories :=
  histories_set session_id
    (append_exchange (histories_get session_id hs) user_message response_text) hs.

(** ** Well-formed transcripts *)

(** The transcript of a list of exchanges (message, reply). *)
Fixpoint of_exchanges (xs : list (string * string)) : list Entry :=
  match xs with
  | [] => []
  | (m, r) :: xs' =>
      {| role := "user"; parts := [m] |} :: {| role := "model"; parts := [r] |}
      :: of_exchanges xs'
  end.

(** A transcript is well formed when it consists of complete exchanges. *)
Definition wf_history (h : list Entry) : Prop := ∃ xs, h = of_exchanges xs.

(** The same, as a test: entries come in pairs, a ["user"] entry then a
    ["model"] entry, each with exactly one part. *)
Fixpoint wf_historyb (h : list Entry) : bool :=
  match h with
  | [] => true
  | u :: m :: h' =>
      bool_decide (role u = "user") && bool_decide (length (parts u) = 1)
      && bool_decide (role m = "model") && bool_decide (length (parts m) = 1)
      && wf_historyb h'
  | [_] => false
  end.

(** Every stored transcript is well formed. *)
Definition wf_store (hs : Histories) : Prop :=
  map_Forall (λ _ h, wf_history h) hs.

(** The exchanges of a transcript: the inverse of [of_exchanges]. *)
Fixpoint exchanges_of (h : list Entry) : list (string * string) :=
  match h with
  | u :: m :: h' => (default "" (head (parts u)), default "" (head (parts m))) :: exchanges_of h'
  | _ => []
  end.

(** * Properties *)

Section store.
Implicit Types (h : list Entry) (hs : Histories) (sid msg reply : string).
Implicit Types (xs : list (string * string)).

Lemma of_exchanges_app xs ys :
  of_exchanges (xs ++ ys) = of_exchanges xs ++ of_exchanges ys.
Proof. induction xs as [|[m r] xs IH]; [done|]. cbn. by rewrite IH. Qed.

Lemma of_exchanges_length xs : length (of_exchanges xs) = 2 * length xs.
Proof. induction xs as [|[m r] xs IH]; [done|]. cbn. rewrite IH. lia. Qed.

Lemma exchanges_of_exchanges xs : exchanges_of (of_exchanges xs) = xs.
Proof. induction xs as [|[m r] xs IH]; [done|]. cbn. by rewrite IH. Qed.

#[export] Instance of_exchanges_inj : Inj (=) (=) of_exchanges.
Proof.
  intros xs ys H. by rewrite <-(exchanges_of_exchanges xs), H, exchanges_of_exchanges.
Qed.

Lemma append_exchange_eq h msg reply :
  append_exchange h msg reply = h ++ of_exchanges [(msg, reply)].
Proof. unfold append_exchange. by rewrite <-(assoc_L (++)). Qed.

Lemma append_exchange_length h msg reply :
  length (append_exchange h msg reply) = length h + 2.
Proof. rewrite append_exchange_eq, length_app. done. Qed.

(** ** Well-formedness *)

Lemma wf_history_nil : wf_history [].
Proof. by exists []. Qed.

Lemma wf_history_cons2 m r h :
  wf_history h → wf_history (user_entry m :: model_entry r :: h).
Proof. intros [xs ->]. by exists ((m, r) :: xs). Qed.

Lemma wf_history_app h1 h2 : wf_history h1 → wf_history h2 → wf_history (h1 ++ h2).
Proof. intros [xs ->] [ys ->]. exists (xs ++ ys). by rewrite of_exchanges_app. Qed.

Lemma wf_history_even h : wf_history h → Nat.Even (length h).
Proof. intros [xs ->]. exists (length xs). apply of_exchanges_length. Qed.

Lemma entry_eta (e : Entry) r p : role e = r → parts e = p → e = {| role := r; parts := p |}.
Proof. destruct e. cbn. by intros -> ->. Qed.

Lemma wf_historyb_cons2 u m h :
  wf_historyb (u :: m :: h) = true ↔
  (∃ a b, u = user_entry a ∧ m = model_entry b) ∧ wf_historyb h = true.
Proof.
  cbn [wf_historyb]. rewrite !andb_true_iff, !bool_decide_eq_true. split.
  - intros [[[[Hu Hpu] Hm] Hpm] Hh]. split; [|done].
    destruct (parts u) as [|a [|??]] eqn:Eu; try done.
    destruct (parts m) as [|b [|??]] eqn:Em; try done.
    exists a, b. split; by apply entry_eta.
  - by intros [(a & b & -> & ->) ?].
Qed.

(** Induction over a list two elements at a time. *)
Lemma list_pair_ind {A} (P : list A → Prop) :
  P [] → (∀ a, P [a]) → (∀ a b l, P l → P (a :: b :: l)) → ∀ l, P l.
Proof.
  intros Hnil Hone Hcons l. cut (P l ∧ ∀ a, P (a :: l)); [by intros []|].
  induction l as [|b l [IH1 IH2]]; [done|]. split; [apply IH2|]. intros a. by apply Hcons.
Qed.

(** The test decides well-formedness. *)
Lemma wf_historyb_spec h : wf_historyb h = true ↔ wf_history h.
Proof.
  induction h as [|e|u m h IH] using list_pair_ind.
  - split; [intros _; apply wf_history_nil|done].
  - split; [done|]. intros [[|[??] ?] ?]; done.
  - rewrite wf_historyb_cons2, IH. split.
    + intros [(a & b & -> & ->) ?]. by apply wf_history_cons2.
    + intros [[|[a b] xs] [= -> -> ->]]. split; [by eauto|by exists xs].
Qed.

#[export] Instance wf_history_dec h : Decision (wf_history h).
Proof.
  refine (cast_if (decide (wf_historyb h = true))); by rewrite <-wf_historyb_spec.
Defined.

(** In a well-formed transcript the entry at an even position is a
    ["user"] entry and the entry at an odd position a ["model"] entry, each
    with exactly one part: the turns alternate, starting with the user. *)
Theorem wf_history_alternates h i e :
  wf_history h → h !! i = Some e →
  role e = (if Nat.even i then "user" else "model") ∧ length (parts e) = 1.
Proof.
  intros [xs ->]. revert i. induction xs as [|[m r] xs IH]; intros i; [done|].
  destruct i as [|[|i]]; cbn [of_exchanges lookup list_lookup];
    [by intros [= <-]..|].
  intros H. by apply IH in H.
Qed.

Lemma wf_history_alternates_witness :
  role (model_entry "Rest.") = "model" ∧ length (parts (model_entry "Rest.")) = 1.
Proof.
  apply (wf_history_alternates (of_exchanges [("I have chest pain", "Rest.")]) 1);
    [by eexists|done].
Defined.

(** ** The store operations *)

Lemma histories_get_Some hs sid h : hs !! sid = Some h → histories_get sid hs = h.
Proof. unfold histories_get. by intros ->. Qed.

Lemma histories_get_None hs sid : hs !! sid = None → histories_get sid hs = [].
Proof. unfold histories_get. by intros ->. Qed.

Lemma histories_get_init sid : histories_get sid chat_histories_init = [].
Proof. done. Qed.

Lemma histories_get_set sid h hs : histories_get sid (histories_set sid h hs) = h.
Proof. unfold histories_get, histories_set. by rewrite lookup_insert_eq. Qed.

Lemma histories_get_set_ne sid sid' h hs :
  sid ≠ sid' → histories_get sid' (histories_set sid h hs) = histories_get sid' hs.
Proof. intros. unfold histories_get, histories_set. by rewrite lookup_insert_ne. Qed.

Lemma store_exchange_get sid msg reply hs :
  histories_get sid (store_exchange sid msg reply hs) =
  histories_get sid hs ++ [user_entry msg; model_entry reply].
Proof.
  unfold store_exchange. by rewrite histories_get_set, append_exchange_eq.
Qed.

Lemma store_exchange_lookup_ne sid sid' msg reply hs :
  sid ≠ sid' → store_exchange sid msg reply hs !! sid' = hs !! sid'.
Proof. intros. unfold store_exchange, histories_set. by rewrite lookup_insert_ne. Qed.

Lemma store_exchange_get_ne sid sid' msg reply hs :
  sid ≠ sid' →
  histories_get sid' (store_exchange sid msg reply hs) = histories_get sid' hs.
Proof. intros. unfold histories_get. by rewrite store_exchange_lookup_ne. Qed.

Lemma store_exchange_dom sid msg reply hs :
  dom (store_exchange sid msg reply hs) = {[sid]} ∪ dom hs.
Proof. unfold store_exchange, histories_set. by rewrite dom_insert_L. Qed.

Lemma wf_store_init : wf_store chat_histories_init.
Proof. apply map_Forall_empty. Qed.

Lemma wf_store_get hs sid : wf_store hs → wf_history (histories_get sid hs).
Proof.
  intros H. unfold histories_get. destruct (hs !! sid) as [h|] eqn:E; cbn.
  - by apply (H sid).
  - apply wf_history_nil.
Qed.

Lemma wf_history_append_exchange h msg reply :
  wf_history h → wf_history (append_exchange h msg reply).
Proof.
  intros H. rewrite append_exchange_eq. apply wf_history_app; [done|by eexists].
Qed.

Lemma wf_store_set hs sid h : wf_store hs → wf_history h → wf_store (histories_set sid h hs).
Proof. intros Hs Hh. by apply map_Forall_insert_2. Qed.

(** The store update of a successful [chat] keeps every transcript well
    formed. *)
Theorem store_exchange_wf sid msg reply hs :
  wf_store hs → wf_store (store_exchange sid msg reply hs).
Proof.
  intros H. apply wf_store_set; [done|].
  by apply wf_history_append_exchange, wf_store_get.
Qed.

Lemma store_exchange_wf_witness :
  wf_store (store_exchange "s1" "I have chest pain" "Rest." chat_histories_init).
Proof. apply store_exchange_wf, wf_store_init. Defined.

End store.
