(* ===== verification/Heap.v ===== *)
(** * The store as Python keeps it: a dict of references to list objects

    In Python [chat_histories] maps a session id to a reference to a list
    object, and the three store statements of [chat] act on references:
    [chat_histories.get(session_id, [])] (line 130) evaluates [[]] to a fresh
    list object and returns the stored reference when the key is present;
    [history.append(..)] (lines 149-150) changes the list object in place, for
    a known session the very object the dict refers to; and
    [chat_histories[session_id] = history] (line 151) binds the reference.

    This file models the dict and the heap of list objects, proves that the
    program never makes two sessions share a list object, and that under this
    invariant the reference-level statements implement the functional
    operations of [Store.v], on which the rest of the development is built.
    It also shows what the functional view hides: for a known session the
    first append is visible in the store before line 151 runs.  [heap_wf]
    is the transcript invariant on list objects, whether the dict refers to
    them or not. *)

From S2P Require Import Prelude PyString Store.

(** A reference to a list object. *)
Abbreviation loc := positive.

Record PyStore : Type := {
  dict : gmap string loc;
  heap : gmap loc (list Entry);
}.

(** Line 78: [chat_histories = {}]. *)
Definition py_init : PyStore := {| dict := ∅; heap := ∅ |}.

(** The list object behind a reference. *)
Definition deref (l : loc) (st : PyStore) : list Entry := default [] (heap st !! l).

(** The expression [[]]: a fresh, empty list object. *)
Definition alloc_list (st : PyStore) : loc * PyStore :=
  let l := fresh (dom (heap st)) in
  (l, {| dict := dict st; heap := <[l := []]> (heap st) |}).

(** [chat_histories.get(session_id, d)]. *)
Definition dict_get (session_id : string) (d : loc) (st : PyStore) : loc :=
  default d (dict st !! session_id).

(** Line 130: the default is evaluated first, then the lookup. *)
Definition py_get (session_id : string) (st : PyStore) : loc * PyStore :=
  let '(d, st') := alloc_list st in (dict_get session_id d st', st').

(** [history.append(e)]: in place. *)
Definition list_append (l : loc) (e : Entry) (st : PyStore) : PyStore :=
  {| dict := dict st; heap := alter (λ h, h ++ [e]) l (heap st) |}.

(** Line 151: [chat_histories[session_id] = history]. *)
Definition dict_set (session_id : string) (l : loc) (st : PyStore) : PyStore :=
  {| dict := <[session_id := l]> (dict st); heap := heap st |}.

(** Lines 130 and 149-151, as [chat] runs them. *)
Definition py_exchange (session_id user_message response_text : string) (st : PyStore)
    : PyStore :=
  let '(history, st1) := py_get session_id st in
  let st2 := list_append history (user_entry user_message) st1 in
  let st3 := list_append history (model_entry response_text) st2 in
  dict_set session_id history st3.

(** What the dict holds, as values: every key with the list behind its reference. *)
Definition contents (st : PyStore) : Histories := (λ l, deref l st) <$> dict st.

(** No two session ids refer to the same list object, and every reference of
    the dict is a list object of the heap. *)
Definition separated (st : PyStore) : Prop :=
  (∀ s1 s2 l, dict st !! s1 = Some l → dict st !! s2 = Some l → s1 = s2) ∧
  (∀ s l, dict st !! s = Some l → l ∈ dom (heap st)).

(** Every list object holds complete exchanges. *)
Definition heap_wf (st : PyStore) : Prop :=
  ∀ l h, heap st !! l = Some h → wf_history h.

(** The stores the program can build. *)
Inductive py_reachable : PyStore → Prop :=
  | py_reachable_init : py_reachable py_init
  | py_reachable_exchange sid msg reply st :
      py_reachable st → py_reachable (py_exchange sid msg reply st).

#[global] Arguments py_get : simpl never.
#[global] Arguments py_exchange : simpl never.
#[global] Arguments deref : simpl never.

(** * Properties *)

Section heap.
Implicit Types (st : PyStore) (l : loc) (sid msg reply : string) (e : Entry).

Lemma alloc_list_fresh st : (alloc_list st).1 ∉ dom (heap st).
Proof. apply is_fresh. Qed.

Lemma contents_lookup st sid :
  contents st !! sid = (λ l, deref l st) <$> dict st !! sid.
Proof. apply lookup_fmap. Qed.

Lemma deref_list_append_eq l e st :
  l ∈ dom (heap st) → deref l (list_append l e st) = deref l st ++ [e].
Proof.
  intros [h Hh]%elem_of_dom. unfold deref, list_append. cbn.
  by rewrite lookup_alter_eq, Hh.
Qed.

Lemma deref_list_append_ne l l' e st :
  l ≠ l' → deref l' (list_append l e st) = deref l' st.
Proof. intros. unfold deref, list_append. cbn. by rewrite lookup_alter_ne. Qed.

Lemma dict_list_append l e st : dict (list_append l e st) = dict st.
Proof. done. Qed.

Lemma dom_list_append l e st : dom (heap (list_append l e st)) = dom (heap st).
Proof. unfold list_append. cbn. apply dom_alter_L. Qed.

(** The reference [py_get] returns, and the list behind it. *)
Lemma py_get_spec sid st :
  separated st →
  let l := (py_get sid st).1 in
  let st' := (py_get sid st).2 in
  dict st' = dict st ∧ l ∈ dom (heap st') ∧
  deref l st' = histories_get sid (contents st) ∧
  (∀ l', l' ∈ dom (heap st) → deref l' st' = deref l' st) ∧
  dom (heap st) ⊆ dom (heap st') ∧
  match dict st !! sid with
  | Some l0 => l = l0
  | None => l ∉ dom (heap st)
  end.
Proof.
  intros [_ Hdom]. unfold py_get, alloc_list, dict_get, histories_get. cbn.
  set (d := fresh (dom (heap st))). pose proof (is_fresh (dom (heap st))) as Hd.
  fold d in Hd. rewrite contents_lookup.
  assert (∀ l', l' ∈ dom (heap st) → deref l' {| dict := dict st; heap := <[d:=[]]> (heap st) |}
                                      = deref l' st) as Hkeep.
  { intros l' Hl'. unfold deref. cbn. rewrite lookup_insert_ne; [done|]. by intros ->. }
  split_and!; [done| | |done|set_solver|].
  - destruct (dict st !! sid) as [l0|] eqn:E; cbn; [|set_solver].
    apply Hdom in E. set_solver.
  - destruct (dict st !! sid) as [l0|] eqn:E; cbn.
    + apply Hkeep. by apply (Hdom sid).
    + unfold deref. cbn. by rewrite lookup_insert_eq.
  - by destruct (dict st !! sid).
Qed.

(** Line 130 allocates, and changes nothing the dict can reach. *)
Lemma contents_py_get sid st : separated st → contents (py_get sid st).2 = contents st.
Proof.
  intros Hsep. pose proof (py_get_spec sid st Hsep) as (Hdict & _ & _ & Hkeep & _).
  apply map_eq. intros s. rewrite !contents_lookup, Hdict.
  destruct (dict st !! s) as [l|] eqn:Hs; [cbn|done]. f_equal.
  by apply Hkeep, (proj2 Hsep s).
Qed.

Lemma py_get_separated sid st : separated st → separated (py_get sid st).2.
Proof.
  intros Hsep. pose proof (py_get_spec sid st Hsep) as (Hdict & _ & _ & _ & Hsub & _).
  destruct Hsep as [Hinj Hdom]. split; rewrite Hdict; [done|].
  intros s l Hs. by apply Hsub, (Hdom s).
Qed.

(** The reference [chat] appends to is not the list of any other session. *)
Lemma py_get_other sid st s l' :
  separated st → s ≠ sid → dict st !! s = Some l' → l' ≠ (py_get sid st).1.
Proof.
  intros Hsep Hne Hs. pose proof (py_get_spec sid st Hsep) as (_ & _ & _ & _ & _ & Hl).
  destruct Hsep as [Hinj Hdom]. intros ->.
  destruct (dict st !! sid) as [l0|] eqn:E.
  - rewrite Hl in Hs. by apply Hne, (Hinj s sid l0).
  - apply Hl. by apply (Hdom s).
Qed.

Lemma py_exchange_unfold sid msg reply st :
  py_exchange sid msg reply st =
  dict_set sid (py_get sid st).1
    (list_append (py_get sid st).1 (model_entry reply)
       (list_append (py_get sid st).1 (user_entry msg) (py_get sid st).2)).
Proof. unfold py_exchange. by destruct (py_get sid st). Qed.

(** The list behind a reference after the two appends of [chat]. *)
Lemma deref_py_exchange sid msg reply st l' :
  separated st → l' ∈ dom (heap (py_get sid st).2) →
  deref l' (py_exchange sid msg reply st) =
  if decide (l' = (py_get sid st).1)
  then histories_get sid (contents st) ++ [user_entry msg; model_entry reply]
  else deref l' (py_get sid st).2.
Proof.
  intros Hsep Hl'. pose proof (py_get_spec sid st Hsep) as (_ & Hin & Hd & _).
  rewrite py_exchange_unfold. set (l := (py_get sid st).1) in *.
  set (st1 := (py_get sid st).2) in *.
  change (deref l' (dict_set sid l ?x)) with (deref l' x).
  case_decide as Hl; [subst l'|].
  - rewrite !deref_list_append_eq, Hd, <-(assoc_L (++)); [done..|].
    by rewrite dom_list_append.
  - by rewrite !deref_list_append_ne.
Qed.

(** What the dict holds for a session after lines 130 and 149-151: the
    exchange appended for the session served, the same list for every other. *)
Lemma contents_py_exchange_lookup sid msg reply st s :
  separated st →
  contents (py_exchange sid msg reply st) !! s =
  store_exchange sid msg reply (contents st) !! s.
Proof.
  intros Hsep. pose proof (py_get_spec sid st Hsep) as (Hdict & Hin & _ & Hkeep & Hsub & _).
  rewrite contents_lookup.
  replace (dict (py_exchange sid msg reply st)) with (<[sid := (py_get sid st).1]> (dict st))
    by by rewrite py_exchange_unfold, <-Hdict.
  unfold store_exchange, histories_set. destruct (decide (s = sid)) as [->|Hne].
  - rewrite !lookup_insert_eq. cbn. rewrite deref_py_exchange, decide_True by done.
    by rewrite append_exchange_eq.
  - rewrite !lookup_insert_ne, contents_lookup by done.
    destruct (dict st !! s) as [l'|] eqn:Hs; [cbn|done]. f_equal.
    assert (l' ∈ dom (heap st)) by by apply (proj2 Hsep s).
    rewrite deref_py_exchange, decide_False by
      (done || set_solver || by eapply py_get_other).
    by apply Hkeep.
Qed.

(** C25. The statements of lines 130 and 149-151, run on the dict of references
    and the heap of list objects, change what the dict holds exactly as the
    functional store update does, provided no two sessions share a list
    object. *)
Theorem py_exchange_refines sid msg reply st :
  separated st →
  contents (py_exchange sid msg reply st) = store_exchange sid msg reply (contents st).
Proof. intros Hsep. apply map_eq. intros s. by apply contents_py_exchange_lookup. Qed.

(** The program never makes two sessions share a list object: the store
    update of [chat] keeps the references of different sessions different and
    inside the heap. *)
Theorem py_exchange_separated sid msg reply st :
  separated st → separated (py_exchange sid msg reply st).
Proof.
  intros Hsep. pose proof (py_get_spec sid st Hsep) as (Hdict & Hin & _ & _ & Hsub & _).
  rewrite py_exchange_unfold. unfold separated, dict_set. cbn [dict heap].
  rewrite !dict_list_append, !dom_list_append, Hdict. split.
  - intros s1 s2 l. rewrite !lookup_insert.
    destruct (decide (sid = s1)) as [<-|H1], (decide (sid = s2)) as [<-|H2]; [done| | |].
    + intros [= <-] Hs2. by destruct (py_get_other sid st s2 _ Hsep (not_eq_sym H2) Hs2).
    + intros Hs1 [= <-]. by destruct (py_get_other sid st s1 _ Hsep (not_eq_sym H1) Hs1).
    + apply (proj1 Hsep).
  - intros s l. rewrite lookup_insert. case_decide; [by intros [= <-]|].
    intros Hs. apply Hsub. by apply (proj2 Hsep s).
Qed.

Lemma separated_init : separated py_init.
Proof. split; intros *; cbn; by rewrite lookup_empty. Qed.

Lemma py_reachable_separated st : py_reachable st → separated st.
Proof.
  induction 1; [apply separated_init|by apply py_exchange_separated].
Qed.

(** ** Well-formed list objects *)

Lemma heap_wf_init : heap_wf py_init.
Proof. intros l h. cbn. by rewrite lookup_empty. Qed.

Lemma heap_wf_deref st l : heap_wf st → wf_history (deref l st).
Proof.
  intros Hwf. unfold deref. destruct (heap st !! l) as [h|] eqn:E; cbn.
  - by apply (Hwf l).
  - apply wf_history_nil.
Qed.

(** What the dict holds is well formed when every list object is. *)
Lemma heap_wf_contents st : heap_wf st → wf_store (contents st).
Proof.
  intros Hwf sid h. rewrite contents_lookup.
  destruct (dict st !! sid) as [l|]; intros [= <-]. by apply heap_wf_deref.
Qed.

Lemma heap_wf_py_get sid st : heap_wf st → heap_wf (py_get sid st).2.
Proof.
  intros Hwf l h. unfold py_get, alloc_list. cbn. rewrite lookup_insert.
  case_decide; [intros [= <-]; apply wf_history_nil|apply Hwf].
Qed.

(** The two appends of lines 149-150 on one list object. *)
Lemma heap_list_append2 l msg reply st :
  heap (list_append l (model_entry reply) (list_append l (user_entry msg) st)) =
  alter (λ h, append_exchange h msg reply) l (heap st).
Proof. unfold list_append. cbn. by rewrite alter_alter_eq. Qed.

Lemma heap_wf_list_append2 l msg reply st :
  heap_wf st →
  heap_wf (list_append l (model_entry reply) (list_append l (user_entry msg) st)).
Proof.
  intros Hwf l' h. rewrite heap_list_append2.
  destruct (decide (l = l')) as [<-|Hne].
  - rewrite lookup_alter_eq. destruct (heap st !! l) as [h0|] eqn:E; intros [= <-].
    apply wf_history_append_exchange. by apply (Hwf l).
  - rewrite lookup_alter_ne by done. apply Hwf.
Qed.

(** An exchange in a known session appends to the list object the dict
    already refers to: the binding of line 151 changes nothing. *)
Lemma py_exchange_known sid msg reply st l :
  separated st → dict st !! sid = Some l →
  dict (py_exchange sid msg reply st) = dict st.
Proof.
  intros Hsep Hl. pose proof (py_get_spec sid st Hsep) as (Hdict & _ & _ & _ & _ & Hg).
  rewrite Hl in Hg. rewrite py_exchange_unfold. unfold dict_set. cbn [dict].
  by rewrite !dict_list_append, Hdict, Hg, insert_id.
Qed.

(** What the functional view hides: in a known session the user entry is in
    the store as soon as line 149 has run, before the reply is appended and
    before line 151. *)
Lemma list_append_visible sid msg st l :
  separated st → dict st !! sid = Some l →
  histories_get sid (contents (list_append (py_get sid st).1 (user_entry msg) (py_get sid st).2)) =
  histories_get sid (contents st) ++ [user_entry msg].
Proof.
  intros Hsep Hl. pose proof (py_get_spec sid st Hsep) as (Hdict & Hin & Hd & _ & _ & Hg).
  rewrite Hl in Hg. unfold histories_get at 1. rewrite contents_lookup.
  rewrite dict_list_append, Hdict, Hl. cbn [fmap option_fmap option_map default].
  by rewrite <-Hg, deref_list_append_eq, Hd.
Qed.

End heap.

Lemma py_exchange_refines_witness :
  contents (py_exchange "s1" "I have chest pain" "Rest." py_init) =
  store_exchange "s1" "I have chest pain" "Rest." (contents py_init).
Proof. apply py_exchange_refines, separated_init. Defined.

Lemma py_exchange_separated_witness :
  separated (py_exchange "s1" "I have chest pain" "Rest." py_init).
Proof. apply py_exchange_separated, separated_init. Defined.

(** Without the invariant the functional view is wrong: when two ids refer to
    one list object, an exchange under one id changes the transcript of the
    other. *)
Example aliasing_breaks_frame :
  let st := {| dict := {[ "a" := 1%positive; "b" := 1%positive ]};
               heap := {[ 1%positive := [] ]} |} in
  histories_get "b" (contents (py_exchange "a" "hi" "hello" st)) =
    [user_entry "hi"; model_entry "hello"] ∧
  histories_get "b" (store_exchange "a" "hi" "hello" (contents st)) = [].
Proof. by vm_compute. Qed.
