(* ===== verification/Prompt.v ===== *)
(** * The prompt composer

    [chat] renders the stored transcript and the new message into the text
    sent to the model (src/main.py lines 133-138): each entry becomes a line
    ["User: <text>"] or ["Doctor: <text>"], the lines are joined by newlines,
    and the result is placed between the fixed preamble [SYSTEM_PROMPT]
    (lines 57-65) and the new message with its cue.

    [entry['parts'][0]] raises [IndexError] on an entry without parts, so
    rendering returns a sum; on a well-formed transcript it never raises
    ([render_history_wf]).  The keys ["role"] and ["parts"] are fields of the
    record [Entry], so a [KeyError] cannot arise in the model: every dict the
    program stores has both keys. *)

From S2P Require Import Prelude PyString Http Store.

(** Lines 57-65: the triple-quoted literal, line by line.  It starts and ends
    with a newline, and four of its lines end in two spaces. *)
Definition SYSTEM_PROMPT_lines : list string :=
  [
    "";
    "You are a compassionate and knowledgeable doctor specializing in heart health. Keep responses **short, clear, and informative** while maintaining a professional tone.  ";
    "";
    "- **Acknowledge the concern.**  ";
    "- **Provide a brief, evidence-based explanation.**  ";
    "- **Give simple, actionable advice.**  ";
    "";
    "Keep it **under 3-4 sentences if requried add more but should be easy to understand by the patient**, avoiding unnecessary details. Always remind users that they should consult a doctor for medical advice.";
    ""
  ].

Definition SYSTEM_PROMPT : string := join nl SYSTEM_PROMPT_lines.

(** [entry['parts'][0]] (line 134). *)
Definition first_part (entry : Entry) : Exn + string :=
  match parts entry !! 0 with
  | Some t => inr t
  | None => inl (Exception "IndexError" "list index out of range")
  end.

(** The label chosen by the conditional expression of line 134: ["User"] for
    the role ["user"], ["Doctor"] for every other role. *)
Definition label (entry : Entry) : string :=
  if decide (role entry = "user") then "User: " else "Doctor: ".

(** Line 134, one element of the comprehension. *)
Definition render_entry (entry : Entry) : Exn + string :=
  match first_part entry with
  | inr t => inr (label entry +:+ t)
  | inl e => inl e
  end.

(** Line 134, the list comprehension: the entries in order, stopping at the
    first that raises. *)
Fixpoint render_history (history : list Entry) : Exn + list string :=
  match history with
  | [] => inr []
  | entry :: history' =>
      match render_entry entry with
      | inl e => inl e
      | inr line =>
          match render_history history' with
          | inl e => inl e
          | inr lines => inr (line :: lines)
          end
      end
  end.

(** Lines 133-135: [conversation_history]. *)
Definition conversation_history (history : list Entry) : Exn + string :=
  match render_history history with
  | inl e => inl e
  | inr lines => inr (join nl lines)
  end.

(** The last line of the prompt. *)
Definition cue : string := "Doctor (keep it brief and direct):".

(** Line 138: the f-string. *)
Definition compose_prompt (conversation_history user_message : string) : string :=
  SYSTEM_PROMPT +:+ nl +:+ nl +:+ conversation_history +:+ nl
  +:+ "User: " +:+ user_message +:+ nl +:+ cue.

(** Lines 133-138: the prompt for a transcript and a new message. *)
Definition build_prompt (history : list Entry) (user_message : string) : Exn + string :=
  match conversation_history history with
  | inl e => inl e
  | inr ch => inr (compose_prompt ch user_message)
  end.

(** The two lines an exchange is rendered as. *)
Definition exchange_lines (x : string * string) : list string :=
  ["User: " +:+ x.1; "Doctor: " +:+ x.2].

(** * Properties *)

Section prompt.
Implicit Types (e : Entry) (h : list Entry) (msg reply ch : string).
Implicit Types (xs : list (string * string)).

(** The literal of the source has 504 characters, the first and the last a
    newline. *)
Lemma SYSTEM_PROMPT_length : String.length SYSTEM_PROMPT = 504.
Proof. by vm_compute. Qed.

Lemma SYSTEM_PROMPT_edges :
  head (chars SYSTEM_PROMPT) = Some nl_char ∧ last (chars SYSTEM_PROMPT) = Some nl_char.
Proof. by vm_compute. Qed.

(** ** Rendering one entry *)

Lemma first_part_inr e t : first_part e = inr t ↔ head (parts e) = Some t.
Proof.
  unfold first_part. rewrite <-head_lookup. destruct (head (parts e)); naive_solver.
Qed.

Lemma render_entry_user msg : render_entry (user_entry msg) = inr ("User: " +:+ msg).
Proof. done. Qed.

Lemma render_entry_model reply : render_entry (model_entry reply) = inr ("Doctor: " +:+ reply).
Proof. done. Qed.

(** An entry renders unless it has no part; the error is an [IndexError]. *)
Lemma render_entry_inl e x :
  render_entry e = inl x ↔
  parts e = [] ∧ x = Exception "IndexError" "list index out of range".
Proof.
  unfold render_entry, first_part. destruct (parts e) as [|t ts]; cbn.
  - split; [by intros [= <-]|by intros [_ ->]].
  - split; [done|by intros [? _]].
Qed.

(** Every role but ["user"] is rendered as the doctor. *)
Lemma render_entry_other_role e t :
  role e ≠ "user" → head (parts e) = Some t → render_entry e = inr ("Doctor: " +:+ t).
Proof.
  intros Hr Ht. unfold render_entry, label.
  rewrite (proj2 (first_part_inr e t) Ht). by rewrite decide_False.
Qed.

(** ** Rendering a transcript *)

Lemma render_history_app h1 h2 ls1 ls2 :
  render_history h1 = inr ls1 → render_history h2 = inr ls2 →
  render_history (h1 ++ h2) = inr (ls1 ++ ls2).
Proof.
  revert ls1. induction h1 as [|e h1 IH]; intros ls1; cbn.
  - by intros [= <-].
  - destruct (render_entry e) as [|l]; [done|].
    destruct (render_history h1) as [|ls]; [done|].
    intros [= <-] H2. by rewrite (IH ls eq_refl H2).
Qed.

Lemma render_history_exchanges xs :
  render_history (of_exchanges xs) = inr (xs ≫= exchange_lines).
Proof.
  induction xs as [|[m r] xs IH]; [done|].
  cbn [of_exchanges render_history]. fold (user_entry m) (model_entry r).
  by rewrite render_entry_user, render_entry_model, IH.
Qed.

(** C29. Rendering a well-formed transcript never raises, and yields one line
    per entry. *)
Theorem render_history_wf h :
  wf_history h → ∃ lines, render_history h = inr lines ∧ length lines = length h.
Proof.
  intros [xs ->]. exists (xs ≫= exchange_lines).
  split; [apply render_history_exchanges|].
  rewrite of_exchanges_length. induction xs as [|x xs IH]; [done|].
  cbn. rewrite IH. lia.
Qed.

Lemma render_history_wf_witness :
  ∃ lines, render_history (of_exchanges [("I have chest pain", "Rest.")]) = inr lines ∧
           length lines = 2.
Proof. apply render_history_wf. by eexists. Defined.

(** A transcript fails to render exactly when one of its entries has no part. *)
Lemma render_history_inl h x :
  render_history h = inl x →
  x = Exception "IndexError" "list index out of range" ∧ ∃ e, e ∈ h ∧ parts e = [].
Proof.
  induction h as [|e h IH]; [done|]. cbn.
  destruct (render_entry e) as [y|l] eqn:He.
  - intros [= ->]. apply render_entry_inl in He as [? ->]. split; [done|].
    exists e. split; [by left|done].
  - destruct (render_history h) as [y|ls]; [|done]. intros [= ->].
    destruct (IH eq_refl) as [-> (e' & ? & ?)]. split; [done|].
    exists e'. split; [by right|done].
Qed.

Lemma conversation_history_nil : conversation_history [] = inr "".
Proof. done. Qed.

Lemma conversation_history_exchanges xs :
  conversation_history (of_exchanges xs) = inr (join nl (xs ≫= exchange_lines)).
Proof. unfold conversation_history. by rewrite render_history_exchanges. Qed.

Lemma build_prompt_exchanges xs msg :
  build_prompt (of_exchanges xs) msg =
  inr (compose_prompt (join nl (xs ≫= exchange_lines)) msg).
Proof. unfold build_prompt. by rewrite conversation_history_exchanges. Qed.

(** ** The composed prompt *)

Lemma exchange_lines_bind_ne xs : xs ≠ [] → xs ≫= exchange_lines ≠ [].
Proof. by destruct xs as [|[??]?]. Qed.

(** What one successful exchange adds to the rendered history of a
    non-empty transcript: a newline, the user line, a newline, the doctor
    line, after everything that was there. *)
Theorem conversation_history_extend xs msg reply ch :
  xs ≠ [] →
  conversation_history (of_exchanges xs) = inr ch →
  conversation_history (append_exchange (of_exchanges xs) msg reply) =
    inr (ch +:+ nl +:+ "User: " +:+ msg +:+ nl +:+ "Doctor: " +:+ reply).
Proof.
  intros Hxs. rewrite conversation_history_exchanges. intros [= <-].
  rewrite append_exchange_eq, <-of_exchanges_app, conversation_history_exchanges.
  rewrite bind_app, join_app by (done || by apply exchange_lines_bind_ne).
  cbn. by rewrite !string_app_assoc.
Qed.

Lemma conversation_history_extend_witness :
  conversation_history
    (append_exchange (of_exchanges [("I have chest pain", "Rest.")]) "Is it serious?" "See a doctor.") =
  inr (("User: I have chest pain" +:+ nl +:+ "Doctor: Rest.") +:+ nl
       +:+ "User: " +:+ "Is it serious?" +:+ nl +:+ "Doctor: " +:+ "See a doctor.").
Proof. by apply (conversation_history_extend [(_, _)]). Defined.

(** The first exchange of a session: there is nothing before it. *)
Lemma conversation_history_first msg reply :
  conversation_history (append_exchange [] msg reply) =
    inr ("User: " +:+ msg +:+ nl +:+ "Doctor: " +:+ reply).
Proof. done. Qed.

Lemma compose_prompt_length ch msg :
  String.length (compose_prompt ch msg) = 548 + String.length ch + String.length msg.
Proof.
  unfold compose_prompt. rewrite !string_length_app, SYSTEM_PROMPT_length. cbn. lia.
Qed.

(** For a given history, different messages give different prompts. *)
Lemma compose_prompt_inj ch : Inj (=) (=) (compose_prompt ch).
Proof.
  intros m1 m2 H. unfold compose_prompt in H.
  do 6 apply (inj (String.app _)) in H. by apply string_app_inv_r in H.
Qed.

(** C24. The rendering does not separate the new message from the transcript:
    when the transcript has at least one exchange before its last one
    [(m, r)], the prompt for it and the message [msg] is also the prompt for
    the transcript without that exchange and the message [m], a newline,
    ["Doctor: " r], a newline, ["User: " msg].  A message can therefore carry
    text that the model reads as earlier turns.  (With no exchange before
    [(m, r)] the two prompts differ: [build_prompt_forge_first].) *)
Theorem build_prompt_forge xs m r msg :
  xs ≠ [] →
  build_prompt (of_exchanges (xs ++ [(m, r)])) msg =
  build_prompt (of_exchanges xs) (m +:+ nl +:+ "Doctor: " +:+ r +:+ nl +:+ "User: " +:+ msg).
Proof.
  intros Hxs. rewrite !build_prompt_exchanges. f_equal. unfold compose_prompt.
  rewrite bind_app, join_app by (done || by apply exchange_lines_bind_ne).
  cbn. by rewrite !string_app_assoc.
Qed.

(** With nothing before the exchange the two prompts differ: after the
    preamble the second has the newline that follows the empty rendered
    history where the first has the user line. *)
Lemma build_prompt_forge_first m r msg :
  build_prompt (of_exchanges [(m, r)]) msg ≠
  build_prompt [] (m +:+ nl +:+ "Doctor: " +:+ r +:+ nl +:+ "User: " +:+ msg).
Proof. rewrite build_prompt_exchanges. by intros [=]. Qed.

Lemma build_prompt_forge_witness :
  build_prompt (of_exchanges ([("a", "b")] ++ [("c", "d")])) "e" =
  build_prompt (of_exchanges [("a", "b")])
    ("c" +:+ nl +:+ "Doctor: " +:+ "d" +:+ nl +:+ "User: " +:+ "e").
Proof. by apply build_prompt_forge. Defined.

End prompt.
