(* ===== verification/World.v ===== *)
(** * The state of the process and its environment

    [WorldOf S] is what a request can change: the dict [chat_histories], the
    log written through [logger] (src/main.py lines 16-17), and the record of
    the calls made to code outside the program ([uuid.uuid4],
    [genai.configure], [generate_content]).  The type [S] is the
    representation of the dict: [World] takes the map of [Store.v], the model
    of Python's objects takes the store of [Heap.v]; logging and the calls
    are the same for both.  [Config] is what is fixed at import time: the API
    key read from the environment (line 23).  [Env] is what the outside world
    answers during one request.

    [startup] is the module body (lines 15-27 and 78). *)

From S2P Require Import Prelude PyString Monad Http Store.

(** ** Logging *)

Inductive Level : Type := INFO | ERROR.

#[export] Instance Level_eq_dec : EqDecision Level.
Proof. solve_decision. Defined.

(** A record written by [logger.info] or [logger.error]. *)
Abbreviation LogRecord := (Level * string)%type.

(** ** Calls that leave the program *)

Inductive ExtCall : Type :=
  | CallUuid4
  | CallConfigure (api_key : option string)
  | CallGenerate (model_name : string) (prompt : string).

#[export] Instance ExtCall_eq_dec : EqDecision ExtCall.
Proof. solve_decision. Defined.

(** ** The state *)

Record WorldOf (S : Type) : Type := {
  chat_histories : S;
  log : list LogRecord;
  calls : list ExtCall;
}.
Arguments chat_histories {S} _.
Arguments log {S} _.
Arguments calls {S} _.

(** The state with the dict as a map to values. *)
Abbreviation World := (WorldOf Histories).

Definition set_chat_histories {S T} (f : S → T) (w : WorldOf S) : WorldOf T :=
  {| chat_histories := f (chat_histories w); log := log w; calls := calls w |}.

Definition add_log {S} (r : LogRecord) (w : WorldOf S) : WorldOf S :=
  {| chat_histories := chat_histories w; log := log w ++ [r]; calls := calls w |}.

Definition add_call {S} (c : ExtCall) (w : WorldOf S) : WorldOf S :=
  {| chat_histories := chat_histories w; log := log w; calls := calls w ++ [c] |}.

(** Line 23: [GOOGLE_API_KEY = os.getenv("GOOGLE_API_KEY")], [None] when unset. *)
Record Config : Type := {
  GOOGLE_API_KEY : option string;
}.

(** ** The environment of one request *)

(** The object [generate_content] returns; reading [response.text] raises
    when the reply carries no text. *)
Record GenerateContentResponse : Type := {
  text : Exn + string;
}.

Record Env : Type := {
  (** [str(uuid.uuid4())] *)
  uuid4 : string;
  (** [genai.configure(api_key=k)]: the exception it raises, if any *)
  configure : option string → option Exn;
  (** [genai.GenerativeModel(name).generate_content(prompt)] *)
  generate_content : string → string → Exn + GenerateContentResponse;
}.

(** ** Operations on the state, in the handler monad *)

Abbreviation HOf S := (M (WorldOf S) Exn).
Abbreviation H := (HOf Histories).

(** [logger.info(msg)]. *)
Definition logger_info {S} (msg : string) : HOf S unit := modify (add_log (INFO, msg)).

(** [logger.error(msg)]. *)
Definition logger_error {S} (msg : string) : HOf S unit := modify (add_log (ERROR, msg)).

(** Record a call that leaves the program. *)
Definition call {S} (c : ExtCall) : HOf S unit := modify (add_call c).

(** Lines 15-27 and 78: the module body.  It logs whether a key was found and
    starts with the empty dict [init]. *)
Definition startup_with {S} (init : S) (cfg : Config) : WorldOf S :=
  {| chat_histories := init;
     log := [(INFO, "API Key loaded: " +:+ (if truthy (GOOGLE_API_KEY cfg) then "Yes" else "No"))]
            ++ (if negb (truthy (GOOGLE_API_KEY cfg))
                then [(ERROR, "No Google API Key found. Make sure to set GOOGLE_API_KEY in your .env file.")]
                else []);
     calls := [] |}.

(** The module body, with the dict as a map to values. *)
Definition startup (cfg : Config) : World := startup_with chat_histories_init cfg.

(** * Properties *)

Section world.
Context {S : Type}.
Implicit Types (w : WorldOf S) (msg : string).

Lemma run_logger_info msg w : logger_info msg w = (Return tt, add_log (INFO, msg) w).
Proof. done. Qed.

Lemma run_logger_error msg w : logger_error msg w = (Return tt, add_log (ERROR, msg) w).
Proof. done. Qed.

Lemma run_call c w : call c w = (Return tt, add_call c w).
Proof. done. Qed.

Lemma chat_histories_add_log r w : chat_histories (add_log r w) = chat_histories w.
Proof. done. Qed.

Lemma chat_histories_add_call c w : chat_histories (add_call c w) = chat_histories w.
Proof. done. Qed.

Lemma chat_histories_set {T} (f : S → T) w :
  chat_histories (set_chat_histories f w) = f (chat_histories w).
Proof. done. Qed.

Lemma calls_add_log r w : calls (add_log r w) = calls w.
Proof. done. Qed.

Lemma calls_set_chat_histories {T} (f : S → T) w : calls (set_chat_histories f w) = calls w.
Proof. done. Qed.

Lemma calls_add_call c w : calls (add_call c w) = calls w ++ [c].
Proof. done. Qed.

Lemma log_add_log r w : log (add_log r w) = log w ++ [r].
Proof. done. Qed.

Lemma log_add_call c w : log (add_call c w) = log w.
Proof. done. Qed.

Lemma log_set_chat_histories {T} (f : S → T) w : log (set_chat_histories f w) = log w.
Proof. done. Qed.

(** The process starts with no session, and has called nothing. *)
Lemma startup_store cfg : chat_histories (startup cfg) = ∅ ∧ calls (startup cfg) = [].
Proof. done. Qed.

(** A missing or empty key is reported at start-up, and only then. *)
Lemma startup_log_error (init : S) cfg :
  (ERROR, "No Google API Key found. Make sure to set GOOGLE_API_KEY in your .env file.")
    ∈ log (startup_with init cfg) ↔ truthy (GOOGLE_API_KEY cfg) = false.
Proof.
  unfold startup_with. cbn [log]. destruct (truthy _); cbn; split; try done.
  - intros [?|[]%elem_of_nil]%elem_of_cons. done.
  - intros _. set_solver.
Qed.

End world.

Create Rewrite HintDb world.
#[export] Hint Rewrite @run_logger_info @run_logger_error @run_call : run.
#[export] Hint Rewrite @chat_histories_add_log @chat_histories_add_call @chat_histories_set
  @calls_add_log @calls_set_chat_histories @calls_add_call
  @log_add_log @log_add_call @log_set_chat_histories : world.
