(* ===== verification/Genai.v ===== *)
(** * The generation client

    The calls of src/main.py into [uuid] and [google.generativeai]:
    [str(uuid.uuid4())] (line 123), [configure_genai] (lines 81-87), and
    [genai.GenerativeModel(name).generate_content(prompt)] followed by
    [response.text] (lines 142-146 and 172-177).  Each call is recorded in the
    state and answered by the request's environment [Env]. *)

From S2P Require Import Prelude PyString Monad Http Store World.

(** The model both handlers name (lines 142 and 172). *)
Definition MODEL_NAME : string := "gemini-1.5-pro".

(** [str(uuid.uuid4())]. *)
Definition uuid4_str {S} (env : Env) : HOf S string :=
  call CallUuid4;; mret (uuid4 env).

(** [genai.configure(api_key=key)]. *)
Definition genai_configure {S} (env : Env) (key : option string) : HOf S unit :=
  call (CallConfigure key);;
  match configure env key with
  | Some e => raise e
  | None => mret tt
  end.

(** Lines 81-87: configure, log, and re-raise what [configure] raised. *)
Definition configure_genai {S} (cfg : Config) (env : Env) : HOf S unit :=
  catch
    (genai_configure env (GOOGLE_API_KEY cfg);;
     logger_info "Gemini API configured successfully")
    (λ e, logger_error ("Error configuring Gemini API: " +:+ exn_str e);;
          raise e).

(** [genai.GenerativeModel(name).generate_content(prompt)]. *)
Definition generate {S} (env : Env) (name prompt : string) : HOf S GenerateContentResponse :=
  call (CallGenerate name prompt);;
  lift_sum (generate_content env name prompt).

(** [genai.GenerativeModel(name).generate_content(prompt).text]. *)
Definition generate_text {S} (env : Env) (name prompt : string) : HOf S string :=
  response ← generate env name prompt;
  lift_sum (text response).

(** What the service answers to a prompt, as one sum: the text, or the
    exception raised by the call or by reading [.text]. *)
Definition reply_of (env : Env) (name prompt : string) : Exn + string :=
  match generate_content env name prompt with
  | inl e => inl e
  | inr response => text response
  end.

(** * Properties *)

Section genai.
Context {S : Type}.
Implicit Types (env : Env) (cfg : Config) (w : WorldOf S).

Lemma run_uuid4_str env w : uuid4_str env w = (Return (uuid4 env), add_call CallUuid4 w).
Proof. done. Qed.

Lemma run_genai_configure env key w :
  genai_configure env key w =
  (match configure env key with Some e => Raise e | None => Return tt end,
   add_call (CallConfigure key) w).
Proof. unfold genai_configure. run_monad. by destruct (configure env key). Qed.

(** [configure_genai] when [genai.configure] returns: one call, one INFO record. *)
Lemma run_configure_genai_ok cfg env w :
  configure env (GOOGLE_API_KEY cfg) = None →
  configure_genai cfg env w =
  (Return tt, add_log (INFO, "Gemini API configured successfully")
                (add_call (CallConfigure (GOOGLE_API_KEY cfg)) w)).
Proof. intros E. unfold configure_genai, genai_configure. run_monad. by rewrite E. Qed.

(** [configure_genai] when [genai.configure] raises: the same exception leaves
    the function, after one ERROR record. *)
Lemma run_configure_genai_raise cfg env w e :
  configure env (GOOGLE_API_KEY cfg) = Some e →
  configure_genai cfg env w =
  (Raise e, add_log (ERROR, "Error configuring Gemini API: " +:+ exn_str e)
              (add_call (CallConfigure (GOOGLE_API_KEY cfg)) w)).
Proof. intros E. unfold configure_genai, genai_configure. run_monad. by rewrite E. Qed.

Lemma run_generate_text env name prompt w :
  generate_text env name prompt w =
  (match reply_of env name prompt with inl e => Raise e | inr t => Return t end,
   add_call (CallGenerate name prompt) w).
Proof.
  unfold generate_text, generate, reply_of. run_monad.
  destruct (generate_content env name prompt) as [e|r]; [done|]. cbn.
  by destruct (text r).
Qed.

End genai.

#[export] Hint Rewrite @run_uuid4_str @run_genai_configure @run_generate_text : run.
