(* ===== verification/Chat.v ===== *)
(** * The chat handler

    [POST /api/chat] (src/main.py lines 68-75 and 117-159).  [chat] is the
    whole handler as one computation in the handler monad: the two log
    records, the session id ([session_id or str(uuid.uuid4())]), the call of
    [configure_genai], the read of the store, the prompt, and the [try] block
    (generation, [strip], the two appends and the store update, the log
    record, the response) with its [except] clause (a log record and
    [HTTPException(500, str(e))]).

    The statements before [try] are outside it: what they raise leaves the
    handler as it is.  The theorems give the outcome and the final state on
    each branch. *)

From S2P Require Import Prelude PyString Monad Http Store Prompt World Genai.

(** Lines 68-71.  [history] is accepted and never read; its values are
    modelled as flat JSON objects. *)
Record ChatRequest : Type := {
  req_message : string;
  req_session_id : option string;
  req_history : option (list json);
}.

(** Lines 73-75. *)
Record ChatResponse : Type := {
  response : string;
  session_id : string;
}.

(** Line 123: [chat_request.session_id or str(uuid.uuid4())]; [uuid4] is
    called only when the field is [None] or empty. *)
Definition resolve_session_id {S} (env : Env) (sid : option string) : HOf S string :=
  match sid with
  | Some s => if truthy_str s then mret s else uuid4_str env
  | None => uuid4_str env
  end.

(** Lines 141-155: the body of the [try] block. *)
Definition chat_try (env : Env) (session_id : string) (history : list Entry)
    (user_message prompt : string) : H ChatResponse :=
  text ← generate_text env MODEL_NAME prompt;
  let response_text := strip text in
  modify (set_chat_histories
            (histories_set session_id (append_exchange history user_message response_text)));;
  logger_info ("Generated response: " +:+ slice_to 30 response_text +:+ "...");;
  mret {| response := response_text; session_id := session_id |}.

(** Lines 157-159: the [except] clause. *)
Definition chat_except {S} (e : Exn) : HOf S ChatResponse :=
  logger_error ("Error processing chat: " +:+ exn_str e);;
  raise (HTTPException 500 (exn_str e)).

(** Lines 117-159. *)
Definition chat (cfg : Config) (env : Env) (chat_request : ChatRequest) : H ChatResponse :=
  let user_message := req_message chat_request in
  logger_info ("Received message: " +:+ slice_to 30 user_message +:+ "...");;
  session_id ← resolve_session_id env (req_session_id chat_request);
  logger_info ("Using session: " +:+ session_id);;
  configure_genai cfg env;;
  history ← gets (λ w, histories_get session_id (chat_histories w));
  conversation_history ← lift_sum (conversation_history history);
  let prompt := compose_prompt conversation_history user_message in
  catch (chat_try env session_id history user_message prompt) chat_except.

(** The session id a request is served under. *)
Definition session_of (env : Env) (chat_request : ChatRequest) : string :=
  py_or (req_session_id chat_request) (uuid4 env).

(** The prompt a request is answered from, in a given store. *)
Definition prompt_of (env : Env) (chat_request : ChatRequest) (hs : Histories) : Exn + string :=
  build_prompt (histories_get (session_of env chat_request) hs) (req_message chat_request).

(** * Evaluation of the handler *)

Section run.
Context (cfg : Config) (env : Env) (chat_request : ChatRequest).
Implicit Types (w : World) (e : Exn) (t p : string).

Let sid := session_of env chat_request.
Let msg := req_message chat_request.
Let key := GOOGLE_API_KEY cfg.

(** The state after lines 119-124: two log records, and the [uuid4] call when
    the request names no session. *)
Definition after_resolve {S} (w : WorldOf S) : WorldOf S :=
  add_log (INFO, "Using session: " +:+ sid)
    ((if truthy (req_session_id chat_request) then id else add_call CallUuid4)
       (add_log (INFO, "Received message: " +:+ slice_to 30 msg +:+ "...") w)).

(** The state after line 127 when [genai.configure] returned. *)
Definition after_configure {S} (w : WorldOf S) : WorldOf S :=
  add_log (INFO, "Gemini API configured successfully")
    (add_call (CallConfigure key) (after_resolve w)).

(** The state after line 145, whatever the service answered. *)
Definition after_generate {S} (p : string) (w : WorldOf S) : WorldOf S :=
  add_call (CallGenerate MODEL_NAME p) (after_configure w).

Lemma chat_histories_after_resolve {S} (w : WorldOf S) :
  chat_histories (after_resolve w) = chat_histories w.
Proof. unfold after_resolve. cbn. by destruct (truthy _). Qed.

Lemma chat_histories_after_configure {S} (w : WorldOf S) :
  chat_histories (after_configure w) = chat_histories w.
Proof. apply chat_histories_after_resolve. Qed.

Lemma chat_histories_after_generate {S} p (w : WorldOf S) :
  chat_histories (after_generate p w) = chat_histories w.
Proof. apply chat_histories_after_resolve. Qed.

(** The statements before the [try] block do not depend on the dict. *)
Lemma set_after_resolve {S T} (f : S → T) (w : WorldOf S) :
  set_chat_histories f (after_resolve w) = after_resolve (set_chat_histories f w).
Proof. unfold after_resolve. by destruct (truthy _). Qed.

Lemma set_after_configure {S T} (f : S → T) (w : WorldOf S) :
  set_chat_histories f (after_configure w) = after_configure (set_chat_histories f w).
Proof. unfold after_configure. by rewrite <-set_after_resolve. Qed.

Lemma set_after_generate {S T} (f : S → T) p (w : WorldOf S) :
  set_chat_histories f (after_generate p w) = after_generate p (set_chat_histories f w).
Proof. unfold after_generate. by rewrite <-set_after_configure. Qed.

Lemma run_resolve_session_id {S} (w : WorldOf S) :
  resolve_session_id env (req_session_id chat_request) w =
  (Return sid, (if truthy (req_session_id chat_request) then id else add_call CallUuid4) w).
Proof.
  subst sid. unfold resolve_session_id, session_of.
  destruct (req_session_id chat_request) as [s|]; cbn; [|done].
  by destruct (truthy_str s).
Qed.

Lemma run_chat_try history p w :
  chat_try env sid history msg p w =
  match reply_of env MODEL_NAME p with
  | inl e => (Raise e, add_call (CallGenerate MODEL_NAME p) w)
  | inr t =>
      (Return {| response := strip t; session_id := sid |},
       add_log (INFO, "Generated response: " +:+ slice_to 30 (strip t) +:+ "...")
         (set_chat_histories (histories_set sid (append_exchange history msg (strip t)))
            (add_call (CallGenerate MODEL_NAME p) w)))
  end.
Proof.
  unfold chat_try. cbv [mbind M_bind]. unfold bind at 1.
  rewrite run_generate_text. by destruct (reply_of env MODEL_NAME p).
Qed.

Lemma run_chat_except {S} e (w : WorldOf S) :
  chat_except e w =
  (Raise (HTTPException 500 (exn_str e)),
   add_log (ERROR, "Error processing chat: " +:+ exn_str e) w).
Proof. done. Qed.

(** Lines 119-127, followed by any continuation [k] of the session id: the
    exception of [genai.configure] leaves at once, otherwise [k] runs on the
    state after line 127. *)
Lemma run_chat_prologue {S A} (k : string → HOf S A) (w : WorldOf S) :
  (logger_info ("Received message: " +:+ slice_to 30 msg +:+ "...");;
   session_id ← resolve_session_id env (req_session_id chat_request);
   logger_info ("Using session: " +:+ session_id);;
   configure_genai cfg env;;
   k session_id) w =
  match configure env key with
  | Some e =>
      (Raise e, add_log (ERROR, "Error configuring Gemini API: " +:+ exn_str e)
                  (add_call (CallConfigure key) (after_resolve w)))
  | None => k sid (after_configure w)
  end.
Proof.
  cbv [mbind M_bind]. unfold bind at 1. rewrite run_logger_info.
  unfold bind at 1. rewrite run_resolve_session_id. fold sid.
  unfold bind at 1. rewrite run_logger_info. fold (after_resolve w).
  unfold bind at 1. destruct (configure env key) as [e|] eqn:Ek.
  - by rewrite (run_configure_genai_raise _ _ _ e).
  - by rewrite run_configure_genai_ok.
Qed.

(** The handler on any state, by cases on what the environment answers. *)
Lemma run_chat w :
  chat cfg env chat_request w =
  match configure env key with
  | Some e =>
      (Raise e, add_log (ERROR, "Error configuring Gemini API: " +:+ exn_str e)
                  (add_call (CallConfigure key) (after_resolve w)))
  | None =>
      match prompt_of env chat_request (chat_histories w) with
      | inl e => (Raise e, after_configure w)
      | inr p =>
          match reply_of env MODEL_NAME p with
          | inl e =>
              (Raise (HTTPException 500 (exn_str e)),
               add_log (ERROR, "Error processing chat: " +:+ exn_str e) (after_generate p w))
          | inr t =>
              (Return {| response := strip t; session_id := sid |},
               add_log (INFO, "Generated response: " +:+ slice_to 30 (strip t) +:+ "...")
                 (set_chat_histories
                    (histories_set sid
                       (append_exchange (histories_get sid (chat_histories w)) msg (strip t)))
                    (after_generate p w)))
          end
      end
  end.
Proof.
  unfold chat. cbv zeta. fold msg. rewrite run_chat_prologue.
  destruct (configure env key) as [e|]; [done|].
  cbv [mbind M_bind]. unfold bind at 1. rewrite run_gets, chat_histories_after_configure.
  unfold bind at 1. unfold prompt_of, build_prompt. fold sid msg.
  destruct (conversation_history _) as [e|ch]; [done|]. cbn [lift_sum ret].
  unfold catch. rewrite run_chat_try. fold (after_generate (compose_prompt ch msg) w).
  by destruct (reply_of _ _ _).
Qed.

End run.

(** * Properties *)

Section chat.
Context (cfg : Config) (env : Env).
Implicit Types (req : ChatRequest) (w : World) (e : Exn) (t p : string).

(** The store after [chat], by cases on the outcome: the exchange is stored
    when the handler returns, and nothing is when it raises. *)
Lemma chat_store req w :
  chat_histories (chat cfg env req w).2 =
  match (chat cfg env req w).1 with
  | Return r =>
      store_exchange (session_id r) (req_message req) (response r) (chat_histories w)
  | Raise _ => chat_histories w
  end.
Proof.
  rewrite run_chat. destruct (configure env _) as [e|].
  { cbn [fst snd]. by rewrite chat_histories_add_log, chat_histories_add_call,
      chat_histories_after_resolve. }
  destruct (prompt_of env req _) as [e|p]; [apply chat_histories_after_configure|].
  destruct (reply_of env MODEL_NAME p) as [e|t]; cbn [fst snd session_id response];
    by rewrite chat_histories_add_log, ?chat_histories_set, chat_histories_after_generate.
Qed.

(** The calls that leave the program during [chat], in order: [uuid4] when the
    request names no session, [genai.configure], and [generate_content] when
    the configuration returned and the transcript was rendered. *)
Lemma chat_trace req w :
  calls (chat cfg env req w).2 =
  calls w ++ (if truthy (req_session_id req) then [] else [CallUuid4])
          ++ CallConfigure (GOOGLE_API_KEY cfg) ::
             match configure env (GOOGLE_API_KEY cfg), prompt_of env req (chat_histories w) with
             | None, inr p => [CallGenerate MODEL_NAME p]
             | _, _ => []
             end.
Proof.
  rewrite run_chat. unfold after_generate, after_configure, after_resolve.
  destruct (configure env _); [|destruct (prompt_of env req _); [|destruct (reply_of _ _ _)]];
    destruct (truthy _); cbn; by rewrite <-?(assoc_L (++)).
Qed.

(** C1. When configuration succeeds and the service answers the prompt with
    text [t], [chat] returns [t.strip()] under the request's session id, and
    the store afterwards is the store before with the user entry and the
    model entry appended to that session's transcript. *)
Theorem chat_success req w p t :
  configure env (GOOGLE_API_KEY cfg) = None →
  prompt_of env req (chat_histories w) = inr p →
  reply_of env MODEL_NAME p = inr t →
  (chat cfg env req w).1 =
    Return {| response := strip t; session_id := session_of env req |} ∧
  chat_histories (chat cfg env req w).2 =
    store_exchange (session_of env req) (req_message req) (strip t) (chat_histories w).
Proof.
  intros Hc Hp Hr. rewrite run_chat, Hc, Hp, Hr. split; [done|]. cbn [snd].
  by rewrite chat_histories_add_log, chat_histories_set, chat_histories_after_generate.
Qed.

(** C2. A call of [chat] that raises leaves [chat_histories] as it was: no
    user entry is stored without its reply. *)
Theorem chat_failure_keeps_store req w e w' :
  chat cfg env req w = (Raise e, w') → chat_histories w' = chat_histories w.
Proof. intros E. pose proof (chat_store req w) as Hs. by rewrite E in Hs. Qed.

(** C17. When the service call or reading its text raises [e], [chat] logs the
    error and raises [HTTPException(500, str(e))]. *)
Theorem chat_generation_failure req w p e :
  configure env (GOOGLE_API_KEY cfg) = None →
  prompt_of env req (chat_histories w) = inr p →
  reply_of env MODEL_NAME p = inl e →
  (chat cfg env req w).1 = Raise (HTTPException 500 (exn_str e)) ∧
  last (log (chat cfg env req w).2) = Some (ERROR, "Error processing chat: " +:+ exn_str e).
Proof.
  intros Hc Hp Hr. rewrite run_chat, Hc, Hp, Hr. split; [done|].
  cbn [snd]. by rewrite log_add_log, last_snoc.
Qed.

(** C18. When [genai.configure] raises [e], that exception leaves [chat]
    unchanged (the call is outside the [try] block), and the calls made are
    [uuid4], when the request names no session, and [genai.configure]: the
    service is not asked to generate anything. *)
Theorem chat_configure_failure req w e :
  configure env (GOOGLE_API_KEY cfg) = Some e →
  (chat cfg env req w).1 = Raise e ∧
  calls (chat cfg env req w).2 =
    calls w ++ (if truthy (req_session_id req) then [] else [CallUuid4])
            ++ [CallConfigure (GOOGLE_API_KEY cfg)].
Proof. intros Hc. rewrite chat_trace, run_chat, Hc. done. Qed.

(** The converse of [chat_success]: [chat] returns only through the success
    branch. *)
Lemma chat_Return_inv req w r w' :
  chat cfg env req w = (Return r, w') →
  ∃ p t, configure env (GOOGLE_API_KEY cfg) = None ∧
         prompt_of env req (chat_histories w) = inr p ∧
         reply_of env MODEL_NAME p = inr t ∧
         r = {| response := strip t; session_id := session_of env req |} ∧
         chat_histories w' =
           store_exchange (session_of env req) (req_message req) (strip t) (chat_histories w).
Proof.
  rewrite run_chat. destruct (configure env _); [done|].
  destruct (prompt_of env req _) as [|p]; [done|].
  destruct (reply_of env MODEL_NAME p) as [|t] eqn:Hr; [done|].
  intros [= <- <-]. exists p, t. split_and!; [done..|].
  by rewrite chat_histories_add_log, chat_histories_set, chat_histories_after_generate.
Qed.

(** Every way [chat] can raise: the exception of [genai.configure], an
    [IndexError] from rendering the transcript, or the [HTTPException] of the
    [except] clause. *)
Lemma chat_Raise_inv req w e w' :
  chat cfg env req w = (Raise e, w') →
  configure env (GOOGLE_API_KEY cfg) = Some e ∨
  e = Exception "IndexError" "list index out of range" ∨
  ∃ e', e = HTTPException 500 (exn_str e').
Proof.
  rewrite run_chat. destruct (configure env _) as [e'|]; [intros [= <- _]; by left|].
  destruct (prompt_of env req _) as [x|p] eqn:Hp.
  - intros [= <- _]. right; left. unfold prompt_of, build_prompt, conversation_history in Hp.
    destruct (render_history _) as [y|ls] eqn:Hh; [|done].
    injection Hp as <-. by apply render_history_inl in Hh as [-> _].
  - destruct (reply_of env MODEL_NAME p); intros [= <- _]; eauto.
Qed.

(** C20. Every exception that leaves [chat] on a well-formed store is the one
    [genai.configure] raised or an [HTTPException] with status 500: rendering
    the transcript cannot fail. *)
Theorem chat_raises_only req w e w' :
  wf_store (chat_histories w) →
  chat cfg env req w = (Raise e, w') →
  configure env (GOOGLE_API_KEY cfg) = Some e ∨ ∃ detail, e = HTTPException 500 detail.
Proof.
  intros Hwf E. destruct (chat_Raise_inv _ _ _ _ E) as [?|[->|[e' ->]]]; [by left| |by eauto].
  revert E. rewrite run_chat. destruct (configure env _); [intros [= <- _]; by left|].
  destruct (prompt_of env req _) as [x|p] eqn:Hp.
  - unfold prompt_of, build_prompt, conversation_history in Hp.
    destruct (wf_store_get _ (session_of env req) Hwf) as [xs Hxs].
    by rewrite Hxs, render_history_exchanges in Hp.
  - by destruct (reply_of env MODEL_NAME p).
Qed.

(** [chat] keeps every transcript of the store well formed, whatever the
    environment answers. *)
Theorem chat_preserves_wf req w :
  wf_store (chat_histories w) → wf_store (chat_histories (chat cfg env req w).2).
Proof.
  intros Hwf. rewrite chat_store. destruct (chat cfg env req w).1; [|done].
  by apply store_exchange_wf.
Qed.

(** C19. [chat] reads and writes only the transcript of the session it serves:
    every other session's transcript is untouched. *)
Theorem chat_frame req w sid' :
  sid' ≠ session_of env req →
  chat_histories (chat cfg env req w).2 !! sid' = chat_histories w !! sid'.
Proof.
  intros Hne. rewrite chat_store. destruct (chat cfg env req w) as [[r|e] w'] eqn:E; [|done].
  apply chat_Return_inv in E as (p & t & _ & _ & _ & -> & _).
  by apply store_exchange_lookup_ne.
Qed.

(** C26. The [history] field of the request has no effect: the stored
    transcript is the only one used. *)
Theorem chat_ignores_history req h w :
  chat cfg env {| req_message := req_message req; req_session_id := req_session_id req;
                  req_history := h |} w =
  chat cfg env req w.
Proof. by rewrite !run_chat. Qed.

(** ** The session id *)

(** C27. A request that names a session is served under that name, whether or
    not the store knows it: the response carries the name, the exchange is
    appended to the transcript under that name (created if it was missing),
    and the calls made are [genai.configure] and one [generate_content]:
    [uuid4] is not called. *)
Theorem chat_given_session req w s r w' :
  req_session_id req = Some s → s ≠ "" →
  chat cfg env req w = (Return r, w') →
  session_id r = s ∧
  histories_get s (chat_histories w') =
    histories_get s (chat_histories w) ++ [user_entry (req_message req); model_entry (response r)] ∧
  ∃ p, calls w' = calls w ++ [CallConfigure (GOOGLE_API_KEY cfg); CallGenerate MODEL_NAME p].
Proof.
  intros Hs Hne E.
  assert (session_of env req = s) as Hsid.
  { unfold session_of. by rewrite Hs, py_or_Some. }
  pose proof E as (p & t & Hc & Hp & _ & -> & Hst)%chat_Return_inv.
  rewrite Hst, Hsid, store_exchange_get. split_and!; [done..|]. exists p.
  pose proof (chat_trace req w) as Ht. rewrite E, Hc, Hp, Hs in Ht. cbn [snd truthy] in Ht.
  by rewrite (proj2 (truthy_str_true s) Hne) in Ht.
Qed.

(** C40. A request without a session id, or with the empty string as id, is
    served under the UUID drawn for it: [uuid4] is the first call [chat]
    makes and is called once, and a response carries what it returned. *)
Theorem chat_minted_session req w :
  truthy (req_session_id req) = false →
  (∃ cs, calls (chat cfg env req w).2 = calls w ++ CallUuid4 :: cs ∧ CallUuid4 ∉ cs) ∧
  ∀ r w', chat cfg env req w = (Return r, w') → session_id r = uuid4 env.
Proof.
  intros Hf. split.
  - rewrite chat_trace, Hf. eexists. split; [done|]. repeat case_match; set_solver.
  - intros r w' (p & t & _ & _ & _ & -> & _)%chat_Return_inv.
    by apply py_or_falsy.
Qed.

(** The session id of a response is never empty when UUIDs are not. *)
Lemma session_of_nonempty req : uuid4 env ≠ "" → session_of env req ≠ "".
Proof. apply py_or_nonempty. Qed.

(** ** The reply *)

(** C35. The text [chat] returns has no whitespace at either end, and differs
    from the model's text only by whitespace removed at the ends. *)
Theorem chat_response_trimmed req w r w' :
  chat cfg env req w = (Return r, w') →
  trimmed (chars (response r)) ∧
  ∃ p t, prompt_of env req (chat_histories w) = inr p ∧
         reply_of env MODEL_NAME p = inr t ∧ response r = strip t.
Proof.
  intros (p & t & _ & Hp & Hr & -> & _)%chat_Return_inv. cbn [response].
  destruct (strip_spec t) as (? & ? & _ & _ & _ & Ht). eauto 10.
Qed.

(** C39. A reply that is all whitespace is not an error: [chat] returns the
    empty string and stores it as the model's entry. *)
Theorem chat_blank_reply req w p t :
  configure env (GOOGLE_API_KEY cfg) = None →
  prompt_of env req (chat_histories w) = inr p →
  reply_of env MODEL_NAME p = inr t → blank (chars t) →
  (chat cfg env req w).1 = Return {| response := ""; session_id := session_of env req |} ∧
  last (histories_get (session_of env req) (chat_histories (chat cfg env req w).2)) =
    Some (model_entry "").
Proof.
  intros Hc Hp Hr Hb. rewrite chat_store, run_chat, Hc, Hp, Hr. cbn [fst session_id response].
  rewrite (strip_blank t Hb). split; [done|].
  by rewrite store_exchange_get, last_app.
Qed.

(** ** The calls that leave the program *)

(** C28. A call of [chat] that gets as far as the service makes exactly these
    calls, in this order: [uuid4] when the request names no session, then
    [genai.configure] with the key, then one [generate_content] on the model
    ["gemini-1.5-pro"] with the composed prompt. *)
Theorem chat_calls req w p :
  configure env (GOOGLE_API_KEY cfg) = None →
  prompt_of env req (chat_histories w) = inr p →
  calls (chat cfg env req w).2 =
    calls w ++ (if truthy (req_session_id req) then [] else [CallUuid4])
            ++ [CallConfigure (GOOGLE_API_KEY cfg); CallGenerate "gemini-1.5-pro" p].
Proof.
  intros Hc Hp. rewrite run_chat, Hc, Hp.
  unfold after_generate, after_configure, after_resolve.
  destruct (reply_of env MODEL_NAME p); destruct (truthy _); cbn;
    by rewrite <-?(assoc_L (++)).
Qed.

End chat.

(** * A concrete run

    A process started with a key, a service that answers " Rest. " with
    surrounding blanks, one that is down, and a library that refuses the key:
    the inputs the theorems above are instantiated at. *)

Definition cfg_ex : Config := {| GOOGLE_API_KEY := Some "key" |}.

Definition env_ok : Env :=
  {| uuid4 := "8c5d7a52-0f0e-4b7e-9a56-0c1d2e3f4a5b";
     configure := λ _, None;
     generate_content := λ _ _, inr {| text := inr " Rest. " |} |}.

Definition env_down : Env :=
  {| uuid4 := "8c5d7a52-0f0e-4b7e-9a56-0c1d2e3f4a5b";
     configure := λ _, None;
     generate_content := λ _ _, inl (Exception "ServiceUnavailable" "503 service unavailable") |}.

Definition env_badkey : Env :=
  {| uuid4 := "8c5d7a52-0f0e-4b7e-9a56-0c1d2e3f4a5b";
     configure := λ _, Some (Exception "ValueError" "bad key");
     generate_content := λ _ _, inr {| text := inr "unused" |} |}.

Definition req_first : ChatRequest :=
  {| req_message := "I have chest pain"; req_session_id := None; req_history := None |}.

Definition req_second : ChatRequest :=
  {| req_message := "Is it serious?";
     req_session_id := Some "8c5d7a52-0f0e-4b7e-9a56-0c1d2e3f4a5b";
     req_history := None |}.

Definition w_start : World := startup cfg_ex.

Lemma chat_success_witness :
  (chat cfg_ex env_ok req_first w_start).1 =
    Return {| response := strip " Rest. "; session_id := session_of env_ok req_first |} ∧
  chat_histories (chat cfg_ex env_ok req_first w_start).2 =
    store_exchange (session_of env_ok req_first) (req_message req_first) (strip " Rest. ")
      (chat_histories w_start).
Proof. by eapply chat_success. Defined.

Lemma chat_failure_keeps_store_witness :
  chat_histories (chat cfg_ex env_down req_first w_start).2 = chat_histories w_start.
Proof.
  eapply (chat_failure_keeps_store cfg_ex env_down req_first w_start
            (HTTPException 500 "503 service unavailable")).
  by vm_compute.
Defined.

Lemma chat_generation_failure_witness :
  (chat cfg_ex env_down req_first w_start).1 =
    Raise (HTTPException 500 "503 service unavailable") ∧
  last (log (chat cfg_ex env_down req_first w_start).2) =
    Some (ERROR, "Error processing chat: " +:+ "503 service unavailable").
Proof.
  by eapply (chat_generation_failure cfg_ex env_down req_first w_start _
               (Exception "ServiceUnavailable" "503 service unavailable")).
Defined.

Lemma chat_configure_failure_witness :
  (chat cfg_ex env_badkey req_first w_start).1 = Raise (Exception "ValueError" "bad key") ∧
  calls (chat cfg_ex env_badkey req_first w_start).2 =
    calls w_start ++ (if truthy (req_session_id req_first) then [] else [CallUuid4])
                  ++ [CallConfigure (GOOGLE_API_KEY cfg_ex)].
Proof. by apply chat_configure_failure. Defined.

Lemma chat_raises_only_witness :
  configure env_down (GOOGLE_API_KEY cfg_ex) = Some (HTTPException 500 "503 service unavailable")
  ∨ ∃ detail, HTTPException 500 "503 service unavailable" = HTTPException 500 detail.
Proof.
  eapply (chat_raises_only cfg_ex env_down req_first w_start);
    [apply wf_store_init|by vm_compute].
Defined.

Lemma chat_preserves_wf_witness :
  wf_store (chat_histories (chat cfg_ex env_ok req_first w_start).2).
Proof. apply chat_preserves_wf, wf_store_init. Defined.

Lemma chat_frame_witness :
  chat_histories (chat cfg_ex env_ok req_first w_start).2 !! "other" =
  chat_histories w_start !! "other".
Proof. by apply chat_frame. Defined.

Lemma chat_given_session_witness :
  "8c5d7a52-0f0e-4b7e-9a56-0c1d2e3f4a5b" = "8c5d7a52-0f0e-4b7e-9a56-0c1d2e3f4a5b" ∧
  histories_get "8c5d7a52-0f0e-4b7e-9a56-0c1d2e3f4a5b"
    (chat_histories (chat cfg_ex env_ok req_second w_start).2) =
    histories_get "8c5d7a52-0f0e-4b7e-9a56-0c1d2e3f4a5b" (chat_histories w_start)
    ++ [user_entry "Is it serious?"; model_entry "Rest."] ∧
  ∃ p, calls (chat cfg_ex env_ok req_second w_start).2 =
         calls w_start ++ [CallConfigure (GOOGLE_API_KEY cfg_ex); CallGenerate MODEL_NAME p].
Proof.
  by apply (chat_given_session cfg_ex env_ok req_second w_start _
              {| response := "Rest."; session_id := _ |}).
Defined.

Lemma chat_minted_session_witness :
  let req := {| req_message := "hi"; req_session_id := Some ""; req_history := None |} in
  (∃ cs, calls (chat cfg_ex env_ok req w_start).2 = calls w_start ++ CallUuid4 :: cs ∧
         CallUuid4 ∉ cs) ∧
  ∀ r w', chat cfg_ex env_ok req w_start = (Return r, w') → session_id r = uuid4 env_ok.
Proof. by apply chat_minted_session. Defined.

Lemma chat_response_trimmed_witness :
  trimmed (chars "Rest.") ∧
  ∃ p t, prompt_of env_ok req_first (chat_histories w_start) = inr p ∧
         reply_of env_ok MODEL_NAME p = inr t ∧ "Rest." = strip t.
Proof.
  eapply (chat_response_trimmed cfg_ex env_ok req_first w_start
            {| response := "Rest."; session_id := uuid4 env_ok |}
            (chat cfg_ex env_ok req_first w_start).2).
  vm_compute. reflexivity.
Defined.

(** A service whose reply is a space and a newline. *)
Definition env_blank : Env :=
  {| uuid4 := "8c5d7a52-0f0e-4b7e-9a56-0c1d2e3f4a5b";
     configure := λ _, None;
     generate_content := λ _ _, inr {| text := inr (" " +:+ nl) |} |}.

Lemma chat_blank_reply_witness :
  (chat cfg_ex env_blank req_first w_start).1 =
    Return {| response := ""; session_id := session_of env_blank req_first |} ∧
  last (histories_get (session_of env_blank req_first)
          (chat_histories (chat cfg_ex env_blank req_first w_start).2)) =
    Some (model_entry "").
Proof.
  eapply chat_blank_reply; [done..|].
  repeat (apply blank_cons; [done|]). apply blank_nil.
Defined.

Lemma chat_calls_witness :
  calls (chat cfg_ex env_ok req_first w_start).2 =
    calls w_start ++ [CallUuid4]
      ++ [CallConfigure (Some "key");
          CallGenerate "gemini-1.5-pro" (compose_prompt "" "I have chest pain")].
Proof. by apply (chat_calls cfg_ex env_ok req_first w_start). Defined.

(** The scenario of the specification: a first message without a session id,
    then a second one under the id that came back.  The transcript then holds
    four entries, user, model, user, model. *)
Example two_messages :
  let w1 := (chat cfg_ex env_ok req_first w_start).2 in
  let w2 := (chat cfg_ex env_ok req_second w1).2 in
  (chat cfg_ex env_ok req_first w_start).1 =
    Return {| response := "Rest."; session_id := "8c5d7a52-0f0e-4b7e-9a56-0c1d2e3f4a5b" |} ∧
  (chat cfg_ex env_ok req_second w1).1 =
    Return {| response := "Rest."; session_id := "8c5d7a52-0f0e-4b7e-9a56-0c1d2e3f4a5b" |} ∧
  histories_get "8c5d7a52-0f0e-4b7e-9a56-0c1d2e3f4a5b" (chat_histories w2) =
    of_exchanges [("I have chest pain", "Rest."); ("Is it serious?", "Rest.")].
Proof. by vm_compute. Qed.
