(* ===== verification/TestKey.v ===== *)
(** * The key test

    [GET /api/test-key] (src/main.py lines 161-180) reports whether the
    configured key works: without a key it answers at once; otherwise it
    configures the library and asks the model a fixed question inside a [try]
    block whose [except] clause turns every exception into an error body.  The
    theorems show that the handler never raises, never touches the store, and
    when it reports success. *)

From S2P Require Import Prelude PyString Monad Http Store World Genai.

(** Line 173: the canned prompt. *)
Definition TEST_PROMPT : string := "Hello, this is a test. i have heart pain".

(** Line 165. *)
Definition no_key_body : json :=
  [("status", JStr "error"); ("message", JStr "No API key configured")].

(** Lines 174-178. *)
Definition success_body (response_text : string) : json :=
  [("status", JStr "success"); ("message", JStr "API key is valid");
   ("test_response", JStr (slice_to 50 response_text +:+ "..."))].

(** Line 180. *)
Definition error_body (e : Exn) : json :=
  [("status", JStr "error"); ("message", JStr ("Error with API key: " +:+ exn_str e))].

(** The two shapes of the answer: without and with [test_response]. *)
Definition test_key_schemas : list (list (string * jtype)) :=
  [[("status", TStr); ("message", TStr)];
   [("status", TStr); ("message", TStr); ("test_response", TStr)]].

(** Lines 167-178: the body of the [try] block. *)
Definition test_key_try {S} (cfg : Config) (env : Env) : HOf S json :=
  configure_genai cfg env;;
  response_text ← generate_text env MODEL_NAME TEST_PROMPT;
  mret (success_body response_text).

(** Lines 162-180. *)
Definition test_key {S} (cfg : Config) (env : Env) : HOf S json :=
  if negb (truthy (GOOGLE_API_KEY cfg)) then mret no_key_body
  else catch (test_key_try cfg env) (λ e, mret (error_body e)).

(** ** Around the call of the service

    The specification lets a handler yield while the service works.  The
    handler is cut at [generate_content] (line 173) as [chat] is in
    [PyChat.v]: [test_key_begin] runs until the request to the service has
    been sent and returns the body when it answers before that,
    [test_key_resume] runs from the answer of the service. *)

(** Lines 163-173, up to the call of the service. *)
Definition test_key_begin {S} (cfg : Config) (env : Env) : HOf S (option json) :=
  if negb (truthy (GOOGLE_API_KEY cfg)) then mret (Some no_key_body)
  else catch (configure_genai cfg env;;
              call (CallGenerate MODEL_NAME TEST_PROMPT);;
              mret None)
             (λ e, mret (Some (error_body e))).

(** Lines 173-180, from the answer of the service. *)
Definition test_key_resume {S} (env : Env) : HOf S json :=
  catch (response_text ← lift_sum (reply_of env MODEL_NAME TEST_PROMPT);
         mret (success_body response_text))
        (λ e, mret (error_body e)).

(** * Properties *)

Section test_key.
Context {S : Type} (cfg : Config) (env : Env).
Implicit Types (w : WorldOf S) (e : Exn) (t : string).

Let key := GOOGLE_API_KEY cfg.

(** The state after [configure_genai] returned. *)
Definition tk_after_configure (w : WorldOf S) : WorldOf S :=
  add_log (INFO, "Gemini API configured successfully") (add_call (CallConfigure key) w).

(** The handler on any state, by cases on the key and on what the environment
    answers. *)
Lemma run_test_key w :
  test_key cfg env w =
  if negb (truthy key) then (Return no_key_body, w)
  else match configure env key with
       | Some e =>
           (Return (error_body e),
            add_log (ERROR, "Error configuring Gemini API: " +:+ exn_str e)
              (add_call (CallConfigure key) w))
       | None =>
           (Return (match reply_of env MODEL_NAME TEST_PROMPT with
                    | inl e => error_body e
                    | inr t => success_body t
                    end),
            add_call (CallGenerate MODEL_NAME TEST_PROMPT) (tk_after_configure w))
       end.
Proof.
  unfold test_key. fold key. destruct (negb (truthy key)); [done|].
  unfold catch, test_key_try. cbv [mbind M_bind]. unfold bind at 1.
  destruct (configure env key) as [e|] eqn:Ek.
  { by rewrite (run_configure_genai_raise _ _ _ e). }
  rewrite run_configure_genai_ok by done. fold key. fold (tk_after_configure w).
  unfold bind. rewrite run_generate_text.
  by destruct (reply_of env MODEL_NAME TEST_PROMPT).
Qed.

(** The first half on any state. *)
Lemma run_test_key_begin w :
  test_key_begin cfg env w =
  if negb (truthy key) then (Return (Some no_key_body), w)
  else match configure env key with
       | Some e =>
           (Return (Some (error_body e)),
            add_log (ERROR, "Error configuring Gemini API: " +:+ exn_str e)
              (add_call (CallConfigure key) w))
       | None =>
           (Return None, add_call (CallGenerate MODEL_NAME TEST_PROMPT) (tk_after_configure w))
       end.
Proof.
  unfold test_key_begin. fold key. destruct (negb (truthy key)); [done|].
  unfold catch. cbv [mbind M_bind]. unfold bind at 1.
  destruct (configure env key) as [e|] eqn:Ek.
  { by rewrite (run_configure_genai_raise _ _ _ e). }
  by rewrite run_configure_genai_ok.
Qed.

(** The second half on any state: it changes nothing. *)
Lemma run_test_key_resume w :
  test_key_resume env w =
  (Return (match reply_of env MODEL_NAME TEST_PROMPT with
           | inl e => error_body e
           | inr t => success_body t
           end), w).
Proof.
  unfold test_key_resume, catch. cbv [mbind M_bind]. unfold bind.
  by destruct (reply_of env MODEL_NAME TEST_PROMPT).
Qed.

(** As the code is written, the handler is its two halves back to back. *)
Lemma test_key_split w :
  test_key cfg env w =
  match test_key_begin cfg env w with
  | (Return None, w') => test_key_resume env w'
  | (Return (Some body), w') => (Return body, w')
  | (Raise e, w') => (Raise e, w')
  end.
Proof.
  rewrite run_test_key, run_test_key_begin. destruct (negb (truthy key)); [done|].
  destruct (configure env key); [done|]. by rewrite run_test_key_resume.
Qed.

(** C33. [test_key] never raises: on every state and against every behaviour
    of the library it returns a body whose [status] is ["success"] or
    ["error"]. *)
Theorem test_key_never_raises w :
  ∃ body, (test_key cfg env w).1 = Return body ∧
          (json_get "status" body = Some (JStr "success") ∨
           json_get "status" body = Some (JStr "error")).
Proof.
  rewrite run_test_key. destruct (negb (truthy key)); [by eauto|].
  destruct (configure env key); [by eauto|].
  destruct (reply_of env MODEL_NAME TEST_PROMPT); by eauto.
Qed.

(** [test_key] leaves the session store as it was. *)
Theorem test_key_keeps_store w :
  chat_histories (test_key cfg env w).2 = chat_histories w.
Proof.
  rewrite run_test_key. destruct (negb (truthy key)); [done|].
  by destruct (configure env key).
Qed.

(** C38. Without a key ([None] or the empty string) the answer is the fixed
    error body, and nothing outside the program is called. *)
Theorem test_key_no_key w :
  truthy (GOOGLE_API_KEY cfg) = false → test_key cfg env w = (Return no_key_body, w).
Proof. intros Hk. rewrite run_test_key. fold key in Hk. by rewrite Hk. Qed.

(** C34. The answer reports success exactly when there is a key,
    [genai.configure] returns and the model's reply has a text; the body then
    carries that text cut to 50 characters and followed by three dots. *)
Theorem test_key_success_iff w body :
  (test_key cfg env w).1 = Return body →
  json_get "status" body = Some (JStr "success") ↔
  truthy (GOOGLE_API_KEY cfg) = true ∧ configure env (GOOGLE_API_KEY cfg) = None ∧
  ∃ t, reply_of env MODEL_NAME TEST_PROMPT = inr t ∧
       body = [("status", JStr "success"); ("message", JStr "API key is valid");
               ("test_response", JStr (slice_to 50 t +:+ "..."))].
Proof.
  rewrite run_test_key. fold key. destruct (truthy key); cbn [negb fst].
  - destruct (configure env key); cbn [fst].
    + intros [= <-]. split; [done|]. by intros (_ & [=] & _).
    + destruct (reply_of env MODEL_NAME TEST_PROMPT) as [e|t]; intros [= <-].
      * split; [done|]. by intros (_ & _ & t & [=] & _).
      * split; [by eauto|done].
  - intros [= <-]. split; [done|]. by intros [[=] _].
Qed.

(** The body has the fields [status] and [message], and [test_response] on
    success; all are strings. *)
Lemma test_key_schema w :
  ∃ body, (test_key cfg env w).1 = Return body ∧ schema_of body ∈ test_key_schemas.
Proof.
  rewrite run_test_key. destruct (negb (truthy key)); [eexists; split; [done|set_solver]|].
  destruct (configure env key); [eexists; split; [done|set_solver]|].
  destruct (reply_of env MODEL_NAME TEST_PROMPT); eexists; (split; [done|set_solver]).
Qed.

(** The body never has a field [session_id]. *)
Lemma test_key_no_session_id w :
  ∃ body, (test_key cfg env w).1 = Return body ∧ json_get "session_id" body = None.
Proof.
  rewrite run_test_key. destruct (negb (truthy key)); [by eauto|].
  destruct (configure env key); [by eauto|].
  destruct (reply_of env MODEL_NAME TEST_PROMPT); by eauto.
Qed.

Lemma success_body_length t :
  ∃ s, json_get "test_response" (success_body t) = Some (JStr s) ∧ String.length s ≤ 53.
Proof.
  eexists. split; [done|]. rewrite string_length_app, slice_to_length.
  change (String.length "...") with 3. lia.
Qed.

End test_key.

(** [test_key] does not depend on the dict: it commutes with every change
    of the dict's representation. *)
Lemma test_key_natural {S T} (f : S → T) cfg env (w : WorldOf S) :
  test_key cfg env (set_chat_histories f w) =
  ((test_key cfg env w).1, set_chat_histories f (test_key cfg env w).2).
Proof.
  rewrite !run_test_key. destruct (negb (truthy _)); [done|].
  by destruct (configure env _).
Qed.

Lemma test_key_no_key_witness :
  test_key {| GOOGLE_API_KEY := Some "" |}
    {| uuid4 := "u"; configure := λ _, None; generate_content := λ _ _, inr {| text := inr "hi" |} |}
    (startup {| GOOGLE_API_KEY := Some "" |}) =
  (Return no_key_body, startup {| GOOGLE_API_KEY := Some "" |}).
Proof. by apply test_key_no_key. Defined.

Lemma test_key_success_iff_witness :
  json_get "status" (success_body "hi") = Some (JStr "success") ↔
  truthy (Some "key") = true ∧ (None : option Exn) = None ∧
  ∃ t, (inr "hi" : Exn + string) = inr t ∧
       success_body "hi" = [("status", JStr "success"); ("message", JStr "API key is valid");
                            ("test_response", JStr (slice_to 50 t +:+ "..."))].
Proof.
  by apply (test_key_success_iff {| GOOGLE_API_KEY := Some "key" |}
    {| uuid4 := "u"; configure := λ _, None;
       generate_content := λ _ _, inr {| text := inr "hi" |} |}
    (startup {| GOOGLE_API_KEY := Some "key" |})).
Defined.
