(* ===== verification/App.v ===== *)
(** * The HTTP surface

    The routes of src/main.py (lines 89-107, 117-118, 161-163), the global
    exception handler (lines 109-115), and the application as a transition
    system: a request and what the environment answers during it take the
    process from one state to the next and produce a response.

    The handlers of all routes but chat do not touch the dict, and the
    application is written once for every representation of it: the class
    [ChatHandler] is what it needs of the chat route, [chat] of [Chat.v] is
    the instance for the dict as a map to values and [py_chat] of
    [PyChat.v] the one for Python's objects.

    [handle] calls the handler of a route and wraps a returned dict in a
    response with status 200, as FastAPI does.  [serve] adds the exception
    handlers: an [HTTPException] becomes a response with its status and
    [{"detail": ..}] (the framework's handler), every other exception goes to
    [global_exception_handler].  Requests that match no route, and bodies that
    pydantic rejects, never reach a handler and are not requests of the
    model. *)

From S2P Require Import Prelude PyString Monad Http Login Store Prompt World Genai Chat TestKey.

(** ** Routes *)

Inductive Request : Type :=
  | GetHome
  | GetLoginPage
  | GetChatPage
  | PostLogin (body : LoginRequest)
  | PostChat (body : ChatRequest)
  | GetTestKey.

(** Lines 89-92. *)
Definition home : Response := RedirectResponse "/login".

(** Lines 94-96. *)
Definition login_page : Response := TemplateResponse "login.html".

(** Lines 98-101: no check that a login took place. *)
Definition chat_page : Response := TemplateResponse "index.html".

(** Lines 109-115. *)
Definition global_exception_handler {S} (exc : Exn) : HOf S Response :=
  logger_error ("Global exception: " +:+ exn_str exc);;
  mret (JSONResponse 500 [("detail", JStr (exn_str exc));
                          ("type", JStr (exn_type_name exc))]).

(** The body of a [ChatResponse] ([response_model=ChatResponse], line 117). *)
Definition chat_response_body (r : ChatResponse) : json :=
  [("response", JStr (response r)); ("session_id", JStr (session_id r))].

(** What the application needs of the route [POST /api/chat]: its handler, on
    the state of the process with the dict represented by [S].  The other
    handlers do not touch the dict and are the same for every [S]. *)
Class ChatHandler (S : Type) : Type :=
  chat_handler : Config → Env → ChatRequest → HOf S ChatResponse.

(** The handler of [Chat.v], on the dict as a map to values. *)
#[export] Instance chat_map : ChatHandler Histories := chat.

(** The handler of each route; a returned dict or model is sent with status 200. *)
Definition handle {S} `{!ChatHandler S} (cfg : Config) (env : Env) (rq : Request)
    : HOf S Response :=
  match rq with
  | GetHome => mret home
  | GetLoginPage => mret login_page
  | GetChatPage => mret chat_page
  | PostLogin body => mret (JSONResponse 200 (login body))
  | PostChat body =>
      r ← chat_handler cfg env body; mret (JSONResponse 200 (chat_response_body r))
  | GetTestKey => body ← test_key cfg env; mret (JSONResponse 200 body)
  end.

(** Lines 73-75: the fields of [ChatResponse]. *)
Definition ChatResponse_fields : list (string * jtype) :=
  [("response", TStr); ("session_id", TStr)].

(** Lines 106-107: the two dicts [login] returns. *)
Definition login_schemas : list (list (string * jtype)) :=
  [[("success", TBool)]; [("success", TBool); ("message", TStr)]].

(** The bodies a route answers with status 200. *)
Definition route_schemas (rq : Request) : list (list (string * jtype)) :=
  match rq with
  | PostLogin _ => login_schemas
  | PostChat _ => [ChatResponse_fields]
  | GetTestKey => test_key_schemas
  | _ => []
  end.

(** The bodies of the exception handlers: the framework's, and lines 112-115. *)
Definition error_schemas : list (list (string * jtype)) :=
  [[("detail", TStr)]; [("detail", TStr); ("type", TStr)]].

(** A response is one its route can give: the redirect to the login page for
    [/], the template of a page route, a body of the route's shape with
    status 200, or, for chat only, a body of an exception handler. *)
Definition well_typed (rq : Request) (r : Response) : Prop :=
  match r with
  | RedirectResponse url => rq = GetHome ∧ url = "/login"
  | TemplateResponse name =>
      (rq = GetLoginPage ∧ name = "login.html") ∨ (rq = GetChatPage ∧ name = "index.html")
  | JSONResponse c body =>
      (c = 200%Z ∧ schema_of body ∈ route_schemas rq) ∨
      ((∃ b, rq = PostChat b) ∧ schema_of body ∈ error_schemas)
  end.

(** What FastAPI answers to a raised [HTTPException]. *)
Definition http_exception_response (status_code : Z) (detail : string) : Response :=
  JSONResponse status_code [("detail", JStr detail)].

(** The exception handlers: the framework's for [HTTPException], the
    program's for everything else. *)
Definition handle_exception {S} (exc : Exn) : HOf S Response :=
  match exc with
  | HTTPException c d => mret (http_exception_response c d)
  | _ => global_exception_handler exc
  end.

(** A route's handler under the exception handlers. *)
Definition app {S} `{!ChatHandler S} (cfg : Config) (env : Env) (rq : Request) : HOf S Response :=
  catch (handle cfg env rq) handle_exception.

(** What the server sends when an exception handler itself raises; the
    handlers of the program never do ([app_never_raises]). *)
Definition internal_server_error : Response := JSONResponse 500 [].

(** One request, from the state before to the response and the state after. *)
Definition serve {S} `{!ChatHandler S} (cfg : Config) (env : Env) (rq : Request) (w : WorldOf S)
    : Response * WorldOf S :=
  match app cfg env rq w with
  | (Return r, w') => (r, w')
  | (Raise _, w') => (internal_server_error, w')
  end.

(** ** Runs *)

(** What happens during one request: the request and the environment's answers. *)
Abbreviation Event := (Request * Env)%type.

(** The responses to a sequence of requests, and the final state. *)
Fixpoint run {S} `{!ChatHandler S} (cfg : Config) (evs : list Event) (w : WorldOf S)
    : list Response * WorldOf S :=
  match evs with
  | [] => ([], w)
  | (rq, env) :: evs' =>
      let '(r, w') := serve cfg env rq w in
      let '(rs, w'') := run cfg evs' w' in
      (r :: rs, w'')
  end.

(** The states the process can be in. *)
Inductive reachable (cfg : Config) : World → Prop :=
  | reachable_startup : reachable cfg (startup cfg)
  | reachable_serve w env rq :
      reachable cfg w → reachable cfg (serve cfg env rq w).2.

(** A chat request that was answered with status 200 under session [sid]. *)
Definition chat_ok_for (sid : string) (rq : Request) (r : Response) : bool :=
  match rq, r with
  | PostChat _, JSONResponse c body =>
      bool_decide (c = 200%Z) && bool_decide (json_get "session_id" body = Some (JStr sid))
  | _, _ => false
  end.

(** The number of successful chat calls under [sid] in a run. *)
Fixpoint successes (sid : string) (evs : list Event) (rs : list Response) : nat :=
  match evs, rs with
  | (rq, _) :: evs', r :: rs' =>
      (if chat_ok_for sid rq r then 1 else 0) + successes sid evs' rs'
  | _, _ => 0
  end.

(** * Properties *)

(** ** For every representation of the dict *)

Section handlers.
Context {S : Type} `{!ChatHandler S} (cfg : Config).
Implicit Types (env : Env) (rq : Request) (w : WorldOf S) (sid : string).

(** [serve] on a chat request, by cases on the outcome of the handler. *)
Lemma serve_chat_handler env body w :
  serve cfg env (PostChat body) w =
  match chat_handler cfg env body w with
  | (Return r, w') => (JSONResponse 200 (chat_response_body r), w')
  | (Raise (HTTPException c d), w') => (http_exception_response c d, w')
  | (Raise exc, w') =>
      (JSONResponse 500 [("detail", JStr (exn_str exc)); ("type", JStr (exn_type_name exc))],
       add_log (ERROR, "Global exception: " +:+ exn_str exc) w')
  end.
Proof.
  unfold serve, app, catch, handle. cbv [mbind M_bind]. unfold bind.
  by destruct (chat_handler cfg env body w) as [[r|[t m|c d]] w'].
Qed.

Lemma serve_test_key env w :
  serve cfg env GetTestKey w =
  (JSONResponse 200 (match (test_key cfg env w).1 with Return b => b | Raise _ => [] end),
   (test_key cfg env w).2).
Proof.
  destruct (test_key_no_session_id cfg env w) as (b & Hb & _).
  unfold serve, app, catch, handle. cbv [mbind M_bind]. unfold bind.
  destruct (test_key cfg env w) as [[b'|e] w']; by simplify_eq/=.
Qed.

(** A login request is answered from the request alone and leaves the state
    as it was. *)
Lemma serve_login env body w :
  serve cfg env (PostLogin body) w = (JSONResponse 200 (login body), w).
Proof. done. Qed.

(** The page routes answer without looking at the state. *)
Lemma serve_pages env w :
  serve cfg env GetHome w = (RedirectResponse "/login", w) ∧
  serve cfg env GetLoginPage w = (TemplateResponse "login.html", w) ∧
  serve cfg env GetChatPage w = (TemplateResponse "index.html", w).
Proof. done. Qed.

(** Neither exception handler raises, so no exception leaves [app] and the
    [Raise] branch of [serve] is never taken. *)
Lemma app_never_raises env rq w : ∃ r, (app cfg env rq w).1 = Return r.
Proof.
  unfold app, catch. destruct (handle cfg env rq w) as [[r|[t m|c d]] w']; by eauto.
Qed.

(** Only chat requests change the store. *)
Lemma serve_keeps_store env rq w :
  (∀ body, rq ≠ PostChat body) →
  chat_histories (serve cfg env rq w).2 = chat_histories w.
Proof.
  intros Hrq. destruct rq; try done.
  - by destruct (Hrq body).
  - rewrite serve_test_key. apply test_key_keeps_store.
Qed.

Lemma run_cons rq env evs w :
  run cfg ((rq, env) :: evs) w =
  ((serve cfg env rq w).1 :: (run cfg evs (serve cfg env rq w).2).1,
   (run cfg evs (serve cfg env rq w).2).2).
Proof. cbn. destruct (serve cfg env rq w). by destruct (run cfg evs _). Qed.

Lemma run_app evs1 evs2 w :
  run cfg (evs1 ++ evs2) w =
  ((run cfg evs1 w).1 ++ (run cfg evs2 (run cfg evs1 w).2).1,
   (run cfg evs2 (run cfg evs1 w).2).2).
Proof.
  revert w. induction evs1 as [|[rq env] evs1 IH]; intros w.
  - cbn. by destruct (run cfg evs2 w).
  - rewrite <-app_comm_cons, !run_cons, IH. done.
Qed.

Lemma run_responses_length evs w : length (run cfg evs w).1 = length evs.
Proof.
  revert w. induction evs as [|[rq env] evs IH]; intros w; [done|].
  rewrite run_cons. cbn. by rewrite IH.
Qed.

End handlers.

(** ** For the dict as a map to values *)

Section app.
Context (cfg : Config).
Implicit Types (env : Env) (rq : Request) (w : World) (sid : string).

(** [serve] on a chat request, by cases on the outcome of [chat]. *)
Lemma serve_chat env body w :
  serve cfg env (PostChat body) w =
  match chat cfg env body w with
  | (Return r, w') => (JSONResponse 200 (chat_response_body r), w')
  | (Raise (HTTPException c d), w') => (http_exception_response c d, w')
  | (Raise exc, w') =>
      (JSONResponse 500 [("detail", JStr (exn_str exc)); ("type", JStr (exn_type_name exc))],
       add_log (ERROR, "Global exception: " +:+ exn_str exc) w')
  end.
Proof. apply serve_chat_handler. Qed.

(** The store after a chat request is the store after the call of [chat]. *)
Lemma serve_chat_store env body w :
  chat_histories (serve cfg env (PostChat body) w).2 =
  chat_histories (chat cfg env body w).2.
Proof.
  rewrite serve_chat. by destruct (chat cfg env body w) as [[r|[t m|c d]] w'].
Qed.

Lemma serve_wf env rq w :
  wf_store (chat_histories w) → wf_store (chat_histories (serve cfg env rq w).2).
Proof.
  intros Hwf. destruct rq as [| | | |body|];
    try (by rewrite serve_keeps_store).
  rewrite serve_chat_store. by apply chat_preserves_wf.
Qed.

(** C4. In every state the process can reach, every stored transcript is well
    formed: complete exchanges of a user entry and a model entry. *)
Theorem reachable_wf_store w : reachable cfg w → wf_store (chat_histories w).
Proof.
  induction 1 as [|w env rq _ IH]; [apply wf_store_init|by apply serve_wf].
Qed.

(** ** The responses to a chat request *)

(** C37. A successful chat call is answered with status 200 and the two fields
    [response] and [session_id]. *)
Theorem serve_chat_success env body w p t :
  configure env (GOOGLE_API_KEY cfg) = None →
  prompt_of env body (chat_histories w) = inr p →
  reply_of env MODEL_NAME p = inr t →
  (serve cfg env (PostChat body) w).1 =
    JSONResponse 200 [("response", JStr (strip t));
                      ("session_id", JStr (session_of env body))].
Proof.
  intros Hc Hp Hr. by rewrite serve_chat, run_chat, Hc, Hp, Hr.
Qed.

(** C30. A chat call whose generation fails with [e] is answered with status
    500 and a body that has the single field [detail], holding [str(e)]:
    the type of the exception is not sent. *)
Theorem serve_chat_generation_failure env body w p e :
  configure env (GOOGLE_API_KEY cfg) = None →
  prompt_of env body (chat_histories w) = inr p →
  reply_of env MODEL_NAME p = inl e →
  (serve cfg env (PostChat body) w).1 = JSONResponse 500 [("detail", JStr (exn_str e))].
Proof.
  intros Hc Hp Hr. by rewrite serve_chat, run_chat, Hc, Hp, Hr.
Qed.

(** C31. A chat call whose configuration fails with an exception of type [ty]
    and text [m] reaches the global handler: status 500, the fields [detail]
    and [type], and an ERROR record in the log. *)
Theorem serve_chat_configure_failure env body w ty m :
  configure env (GOOGLE_API_KEY cfg) = Some (Exception ty m) →
  (serve cfg env (PostChat body) w).1 =
    JSONResponse 500 [("detail", JStr m); ("type", JStr ty)] ∧
  last (log (serve cfg env (PostChat body) w).2) = Some (ERROR, "Global exception: " +:+ m).
Proof.
  intros Hc. rewrite serve_chat, run_chat, Hc. split; [done|]. apply last_snoc.
Qed.

(** C21. Every response has the shape of its route: the page routes answer with
    their page, login and the key test always with status 200 and a body of
    their own fields, chat with the two string fields of [ChatResponse] or
    with the body of an exception handler. *)
Theorem serve_well_typed env rq w : well_typed rq (serve cfg env rq w).1.
Proof.
  destruct rq as [| | |body|body|]; cbn [well_typed]; try by (cbn; eauto).
  - rewrite serve_login. cbn. left. split; [done|]. unfold login, login_failure.
    case_match; set_solver.
  - rewrite serve_chat. destruct (chat cfg env body w) as [[r|[ty m|c d]] w']; cbn.
    + left. split; [done|]. set_solver.
    + right. split; [by eauto|]. set_solver.
    + right. split; [by eauto|]. set_solver.
  - rewrite serve_test_key. destruct (test_key_schema cfg env w) as (b & -> & Hb).
    left. by split.
Qed.

(** The status of every response is 200, 307 or 500, as long as the library
    does not raise the framework's own [HTTPException]. *)
Lemma serve_status env rq w :
  (∀ c d, configure env (GOOGLE_API_KEY cfg) ≠ Some (HTTPException c d)) →
  status_of (serve cfg env rq w).1 ∈ [200; 307; 500]%Z.
Proof.
  intros Hlib. destruct rq as [| | | |body|]; try (cbn; set_solver).
  - rewrite serve_chat. destruct (chat cfg env body w) as [[r|e] w'] eqn:E;
      [set_solver|].
    apply chat_Raise_inv in E as [Hc|[->|[e' ->]]]; [|set_solver..].
    destruct e as [ty m|c d]; [set_solver|]. by destruct (Hlib c d).
  - rewrite serve_test_key. set_solver.
Qed.

(** ** The length of a transcript *)

Lemma chat_ok_for_body sid body r :
  chat_ok_for sid (PostChat body) (JSONResponse 200 (chat_response_body r)) =
  bool_decide (session_id r = sid).
Proof.
  cbn. rewrite (bool_decide_eq_true_2 (200 = 200)%Z) by done. cbn [andb].
  apply bool_decide_ext. split; congruence.
Qed.

Lemma chat_ok_for_no_session_id sid rq c body :
  json_get "session_id" body = None → chat_ok_for sid rq (JSONResponse c body) = false.
Proof.
  intros Hb. destruct rq; try done. cbn. rewrite Hb.
  rewrite (bool_decide_eq_false_2 (None = _)) by done. apply andb_false_r.
Qed.

(** One chat request adds two entries to the transcript of [sid] when it is
    answered with status 200 under [sid], and none otherwise. *)
Lemma serve_chat_length env body w sid :
  length (histories_get sid (chat_histories (serve cfg env (PostChat body) w).2)) =
  length (histories_get sid (chat_histories w))
  + (if chat_ok_for sid (PostChat body) (serve cfg env (PostChat body) w).1 then 2 else 0).
Proof.
  rewrite serve_chat. destruct (chat cfg env body w) as [[r|exc] w'] eqn:E.
  - apply chat_Return_inv in E as (p & t & _ & _ & _ & -> & Hs).
    cbn [fst snd]. rewrite chat_ok_for_body, Hs. cbn [session_id]. case_bool_decide as Hsid.
    + subst sid. by rewrite store_exchange_get, length_app.
    + rewrite store_exchange_get_ne by done. lia.
  - pose proof (chat_store cfg env body w) as Hs. rewrite E in Hs. cbn [fst snd] in Hs.
    destruct exc as [t m|c d]; cbn [fst snd];
      rewrite ?chat_histories_add_log, Hs; unfold http_exception_response;
      rewrite chat_ok_for_no_session_id by done; lia.
Qed.

Lemma serve_length env rq w sid :
  length (histories_get sid (chat_histories (serve cfg env rq w).2)) =
  length (histories_get sid (chat_histories w))
  + (if chat_ok_for sid rq (serve cfg env rq w).1 then 2 else 0).
Proof.
  destruct rq as [| | | |body|]; try apply serve_chat_length;
    rewrite serve_keeps_store by done; cbn; lia.
Qed.

Lemma run_length evs w sid :
  length (histories_get sid (chat_histories (run cfg evs w).2)) =
  length (histories_get sid (chat_histories w)) + 2 * successes sid evs (run cfg evs w).1.
Proof.
  revert w. induction evs as [|[rq env] evs IH]; intros w; [cbn; lia|].
  rewrite run_cons. cbn [fst snd successes]. rewrite IH, serve_length.
  destruct (chat_ok_for _ _ _); lia.
Qed.

(** C3. After any sequence of requests from start-up, the transcript of a
    session holds two entries for each chat call that was answered with
    status 200 under that session id, and nothing else: failed calls, calls
    under other ids and the other routes add nothing. *)
Theorem transcript_length evs sid :
  length (histories_get sid (chat_histories (run cfg evs (startup cfg)).2)) =
  2 * successes sid evs (run cfg evs (startup cfg)).1.
Proof. by rewrite run_length. Qed.

(** Logging in carries nothing forward: a login request placed anywhere in
    a sequence of requests is answered with status 200 and the login body,
    and every other response and the final state are what they are without
    it.  In particular chat is served the same with or without a login. *)
Theorem login_carries_nothing evs1 evs2 env body w :
  run cfg (evs1 ++ (PostLogin body, env) :: evs2) w =
  (take (length evs1) (run cfg (evs1 ++ evs2) w).1
     ++ JSONResponse 200 (login body) :: drop (length evs1) (run cfg (evs1 ++ evs2) w).1,
   (run cfg (evs1 ++ evs2) w).2).
Proof.
  rewrite !run_app, run_cons, serve_login. cbn [fst snd].
  rewrite take_app_length', drop_app_length' by by rewrite run_responses_length.
  done.
Qed.

Lemma reachable_run evs : reachable cfg (run cfg evs (startup cfg)).2.
Proof.
  cut (∀ w, reachable cfg w → reachable cfg (run cfg evs w).2).
  { intros H. apply H. constructor. }
  induction evs as [|[rq env] evs IH]; intros w Hw; [done|].
  rewrite run_cons. apply IH. by constructor.
Qed.

Lemma reachable_is_run w : reachable cfg w → ∃ evs, w = (run cfg evs (startup cfg)).2.
Proof.
  induction 1 as [|w env rq _ [evs ->]]; [by exists []|].
  exists (evs ++ [(rq, env)]). generalize (startup cfg). intros w0.
  revert w0. induction evs as [|[rq' env'] evs IH]; intros w0.
  - rewrite app_nil_l, run_cons. done.
  - rewrite <-app_comm_cons, !run_cons. cbn [snd]. apply IH.
Qed.

End app.

(** * A concrete run *)

(** The state after the first chat request of [Chat.v] has been served. *)
Definition w_one : World := (serve cfg_ex env_ok (PostChat req_first) w_start).2.

Lemma reachable_wf_store_witness : wf_store (chat_histories w_one).
Proof. apply (reachable_wf_store cfg_ex). apply reachable_serve, reachable_startup. Defined.

Lemma serve_chat_success_witness :
  (serve cfg_ex env_ok (PostChat req_first) w_start).1 =
    JSONResponse 200 [("response", JStr (strip " Rest. "));
                      ("session_id", JStr (session_of env_ok req_first))].
Proof. by eapply serve_chat_success. Defined.

Lemma serve_chat_generation_failure_witness :
  (serve cfg_ex env_down (PostChat req_first) w_start).1 =
    JSONResponse 500 [("detail", JStr "503 service unavailable")].
Proof.
  by eapply (serve_chat_generation_failure cfg_ex env_down req_first w_start _
               (Exception "ServiceUnavailable" "503 service unavailable")).
Defined.

Lemma serve_chat_configure_failure_witness :
  (serve cfg_ex env_badkey (PostChat req_first) w_start).1 =
    JSONResponse 500 [("detail", JStr "bad key"); ("type", JStr "ValueError")] ∧
  last (log (serve cfg_ex env_badkey (PostChat req_first) w_start).2) =
    Some (ERROR, "Global exception: " +:+ "bad key").
Proof. by apply serve_chat_configure_failure. Defined.

(** Five requests: a page, a failed login, a chat that succeeds, one that
    fails because the service is down, and one more that succeeds under the
    session id the first returned.  The transcript has four entries. *)
Example run_example :
  let evs := [(GetHome, env_ok);
              (PostLogin {| username := "linsija"; password := "wrong" |}, env_ok);
              (PostChat req_first, env_ok);
              (PostChat req_second, env_down);
              (PostChat req_second, env_ok)] in
  status_of <$> (run cfg_ex evs w_start).1 = [307; 200; 200; 500; 200]%Z ∧
  successes "8c5d7a52-0f0e-4b7e-9a56-0c1d2e3f4a5b" evs (run cfg_ex evs w_start).1 = 2 ∧
  length (histories_get "8c5d7a52-0f0e-4b7e-9a56-0c1d2e3f4a5b"
            (chat_histories (run cfg_ex evs w_start).2)) = 4.
Proof. by vm_compute. Qed.
