(* ===== verification/Secrecy.v ===== *)
(** * Where the API key goes

    The key read at import (src/main.py line 23) is handed to
    [genai.configure] (line 84) and to nothing else: line 26 logs only
    whether there is one, and no handler puts it into a response, a log
    record or a prompt.  This file states that as noninterference.  Two
    states are alike to an observer without the key ([≡]) when they have the
    same dict, the same log and the same calls once the argument of
    [genai.configure] is hidden ([redact]); two processes that the outside
    answers alike ([key_alike]) answer every request alike from alike states
    and end in alike states.

    What the library and the service do with the key is outside the program:
    an exception of [genai.configure] that quotes the key would reach the log
    (line 87) and the response (line 159), and a service that answers
    differently to different keys would change the replies.  The hypothesis
    [key_alike] says that neither happens: it is the assumption under which
    the program itself is shown not to leak the key. *)

From S2P Require Import Prelude PyString Monad Http Login Store Prompt World Genai.
From S2P Require Import Chat TestKey App.

(** A call as an observer without the key sees it. *)
Definition redact (c : ExtCall) : ExtCall :=
  match c with
  | CallConfigure _ => CallConfigure None
  | _ => c
  end.

(** States alike to an observer without the key. *)
#[export] Instance key_equiv {S} : Equiv (WorldOf S) := λ w1 w2,
  chat_histories w1 = chat_histories w2 ∧ log w1 = log w2 ∧
  redact <$> calls w1 = redact <$> calls w2.

(** The outside answers two processes with their two keys alike during a
    request: [genai.configure] returns for both keys or raises the same
    exception, [uuid4] draws the same identifier, and the service gives the
    same answer to the same prompt. *)
Definition key_alike (cfg1 cfg2 : Config) (env1 env2 : Env) : Prop :=
  configure env1 (GOOGLE_API_KEY cfg1) = configure env2 (GOOGLE_API_KEY cfg2) ∧
  uuid4 env1 = uuid4 env2 ∧
  ∀ name prompt, generate_content env1 name prompt = generate_content env2 name prompt.

(** The same request in the two processes, answered alike by the outside. *)
Definition events_alike (cfg1 cfg2 : Config) (ev1 ev2 : Event) : Prop :=
  ev1.1 = ev2.1 ∧ key_alike cfg1 cfg2 ev1.2 ev2.2.

(** Outcomes with alike states. *)
Definition alike {S A} (x y : A * WorldOf S) : Prop := x.1 = y.1 ∧ x.2 ≡ y.2.

(** * Properties *)

Section equiv.
Context {S : Type}.
Implicit Types (w : WorldOf S) (c : ExtCall) (r : LogRecord).

#[export] Instance key_equiv_equivalence : Equivalence (≡@{WorldOf S}).
Proof.
  split.
  - done.
  - intros w1 w2 (? & ? & ?). by split_and!.
  - intros w1 w2 w3 (? & ? & ?) (? & ? & ?). split_and!; congruence.
Qed.

#[export] Instance chat_histories_proper : Proper ((≡) ==> (=)) (@chat_histories S).
Proof. by intros w1 w2 (? & _). Qed.

#[export] Instance log_proper : Proper ((≡) ==> (=)) (@log S).
Proof. by intros w1 w2 (_ & ? & _). Qed.

#[export] Instance add_log_proper r : Proper ((≡) ==> (≡)) (@add_log S r).
Proof. intros w1 w2 (Hh & Hl & Hc). split_and!; cbn [add_log chat_histories log calls]; congruence. Qed.

(** Calls that differ in the key only keep states alike. *)
Lemma add_call_alike c1 c2 w1 w2 :
  redact c1 = redact c2 → w1 ≡ w2 → add_call c1 w1 ≡ add_call c2 w2.
Proof.
  intros Hr (Hh & Hl & Hc). split_and!; cbn [add_call chat_histories log calls]; [done..|].
  rewrite !fmap_app. cbn [fmap list_fmap]. congruence.
Qed.

#[export] Instance add_call_proper c : Proper ((≡) ==> (≡)) (@add_call S c).
Proof. intros w1 w2. by apply add_call_alike. Qed.

#[export] Instance set_chat_histories_proper {T} (f : S → T) :
  Proper ((≡) ==> (≡)) (set_chat_histories f).
Proof. intros w1 w2 (Hh & Hl & Hc). split_and!; cbn [set_chat_histories chat_histories log calls]; congruence. Qed.

(** The module body logs whether there is a key, not the key. *)
Lemma startup_with_alike (init : S) cfg1 cfg2 :
  truthy (GOOGLE_API_KEY cfg1) = truthy (GOOGLE_API_KEY cfg2) →
  startup_with init cfg1 = startup_with init cfg2.
Proof. unfold startup_with. by intros ->. Qed.

End equiv.

Section secrecy.
Context (cfg1 cfg2 : Config) (env1 env2 : Env).
Context (Htruthy : truthy (GOOGLE_API_KEY cfg1) = truthy (GOOGLE_API_KEY cfg2)).
Context (Halike : key_alike cfg1 cfg2 env1 env2).
Implicit Types (w : World) (rq : Request) (req : ChatRequest).

Lemma session_of_alike req : session_of env1 req = session_of env2 req.
Proof. unfold session_of. by rewrite (proj1 (proj2 Halike)). Qed.

Lemma reply_of_alike name p : reply_of env1 name p = reply_of env2 name p.
Proof. unfold reply_of. by rewrite (proj2 (proj2 Halike)). Qed.

Lemma after_resolve_alike {S} req (w1 w2 : WorldOf S) :
  w1 ≡ w2 → after_resolve env1 req w1 ≡ after_resolve env2 req w2.
Proof.
  intros Hw. unfold after_resolve. rewrite session_of_alike.
  destruct (truthy (req_session_id req)); cbn [id]; by repeat f_equiv.
Qed.

(** The state after line 127 shows the key only in the call. *)
Lemma after_configure_alike {S} req (w1 w2 : WorldOf S) :
  w1 ≡ w2 → after_configure cfg1 env1 req w1 ≡ after_configure cfg2 env2 req w2.
Proof.
  intros Hw. unfold after_configure. f_equiv.
  apply add_call_alike; [done|by apply after_resolve_alike].
Qed.

Lemma after_generate_alike {S} req p (w1 w2 : WorldOf S) :
  w1 ≡ w2 → after_generate cfg1 env1 req p w1 ≡ after_generate cfg2 env2 req p w2.
Proof. intros Hw. unfold after_generate. f_equiv. by apply after_configure_alike. Qed.

(** [chat] in the two processes. *)
Lemma chat_alike req w1 w2 :
  w1 ≡ w2 → alike (chat cfg1 env1 req w1) (chat cfg2 env2 req w2).
Proof.
  intros Hw. rewrite !run_chat, (proj1 Halike), (chat_histories_proper _ _ Hw).
  unfold prompt_of. rewrite session_of_alike.
  destruct (configure env2 (GOOGLE_API_KEY cfg2)) as [e|].
  { split; [done|]. cbn [snd]. f_equiv.
    apply add_call_alike; [done|by apply after_resolve_alike]. }
  destruct (build_prompt _ _) as [e|p]; [split; [done|by apply after_configure_alike]|].
  rewrite reply_of_alike.
  destruct (reply_of env2 MODEL_NAME p) as [e|t]; (split; [done|]); cbn [snd];
    repeat f_equiv; by apply after_generate_alike.
Qed.

(** [test_key] in the two processes. *)
Lemma test_key_alike w1 w2 :
  w1 ≡ w2 → alike (test_key cfg1 env1 w1) (test_key cfg2 env2 w2).
Proof.
  intros Hw. rewrite !run_test_key, Htruthy, (proj1 Halike), reply_of_alike.
  destruct (negb (truthy (GOOGLE_API_KEY cfg2))); [done|].
  destruct (configure env2 (GOOGLE_API_KEY cfg2)) as [e|]; (split; [done|]); cbn [snd];
    unfold tk_after_configure; f_equiv; [|f_equiv]; by apply add_call_alike.
Qed.

(** One request: the same response, and alike states. *)
Lemma serve_alike rq w1 w2 :
  w1 ≡ w2 → alike (serve cfg1 env1 rq w1) (serve cfg2 env2 rq w2).
Proof.
  intros Hw. destruct rq as [| | | |body|]; try done.
  - rewrite !serve_chat. destruct (chat_alike body w1 w2 Hw) as [Hr Hs].
    destruct (chat cfg1 env1 body w1) as [o1 w1'], (chat cfg2 env2 body w2) as [o2 w2'].
    cbn in Hr, Hs. subst o2. destruct o1 as [r|[ty m|c d]]; (split; [done|]); cbn [snd];
      by repeat f_equiv.
  - rewrite !serve_test_key. destruct (test_key_alike w1 w2 Hw) as [Hr Hs].
    split; cbn [fst snd]; [by rewrite Hr|done].
Qed.

End secrecy.

Section runs.
Context (cfg1 cfg2 : Config).
Context (Htruthy : truthy (GOOGLE_API_KEY cfg1) = truthy (GOOGLE_API_KEY cfg2)).
Implicit Types (w : World) (evs : list Event).

Lemma run_alike evs1 evs2 w1 w2 :
  Forall2 (events_alike cfg1 cfg2) evs1 evs2 → w1 ≡ w2 →
  alike (run cfg1 evs1 w1) (run cfg2 evs2 w2).
Proof.
  intros Hevs. revert w1 w2.
  induction Hevs as [|[rq env1] [rq2 env2] evs1 evs2 [Hrq Hk] _ IH]; intros w1 w2 Hw; [done|].
  cbn in Hrq. subst rq2. rewrite !run_cons.
  destruct (serve_alike cfg1 cfg2 env1 env2 Htruthy Hk rq w1 w2 Hw) as [Hr Hs].
  destruct (IH _ _ Hs) as [Hrs Hss]. split; cbn [fst snd]; [by rewrite Hr, Hrs|done].
Qed.

End runs.

Section key.
Context (cfg1 cfg2 : Config).
Implicit Types (evs : list Event).

(** C16. Noninterference for the key.  Two processes started with two keys send
    the same responses to the same requests, and end with the same dict, the
    same log, and the same calls up to the argument of [genai.configure],
    provided the outside answers them alike: the key reaches no response, no
    log record and no prompt. *)
Theorem run_key_independent evs1 evs2 :
  truthy (GOOGLE_API_KEY cfg1) = truthy (GOOGLE_API_KEY cfg2) →
  Forall2 (events_alike cfg1 cfg2) evs1 evs2 →
  (run cfg1 evs1 (startup cfg1)).1 = (run cfg2 evs2 (startup cfg2)).1 ∧
  (run cfg1 evs1 (startup cfg1)).2 ≡ (run cfg2 evs2 (startup cfg2)).2.
Proof.
  intros Ht Hevs. apply run_alike; [done..|].
  unfold startup. by rewrite (startup_with_alike _ cfg1 cfg2).
Qed.

(** The exception handlers call nothing. *)
Lemma calls_serve_chat cfg env body (w : World) :
  calls (serve cfg env (PostChat body) w).2 = calls (chat cfg env body w).2.
Proof. rewrite serve_chat. by destruct (chat cfg env body w) as [[r|[ty m|c d]] w']. Qed.

(** The key does reach the library: the calls themselves differ. *)
Lemma run_key_reaches_configure req env :
  GOOGLE_API_KEY cfg1 ≠ GOOGLE_API_KEY cfg2 →
  calls (run cfg1 [(PostChat req, env)] (startup cfg1)).2 ≠
  calls (run cfg2 [(PostChat req, env)] (startup cfg2)).2.
Proof.
  intros Hne Hc. apply Hne. rewrite !run_cons in Hc. cbn [run snd] in Hc.
  rewrite !calls_serve_chat, !chat_trace in Hc. do 2 apply app_inv_head in Hc.
  by injection Hc.
Qed.

End key.

(** A library that accepts the key [k] and no other, with the answers of
    [env_ok]. *)
Definition env_for (k : string) : Env :=
  {| uuid4 := uuid4 env_ok;
     configure := λ k', if decide (k' = Some k) then None
                        else Some (Exception "ValueError" "bad key");
     generate_content := generate_content env_ok |}.

(** Two processes with different keys, each accepted by its library. *)
Lemma run_key_independent_witness :
  let cfg1 := {| GOOGLE_API_KEY := Some "key" |} in
  let cfg2 := {| GOOGLE_API_KEY := Some "another key" |} in
  let evs1 := [(PostChat req_first, env_for "key"); (GetTestKey, env_for "key")] in
  let evs2 := [(PostChat req_first, env_for "another key");
               (GetTestKey, env_for "another key")] in
  (run cfg1 evs1 (startup cfg1)).1 = (run cfg2 evs2 (startup cfg2)).1 ∧
  (run cfg1 evs1 (startup cfg1)).2 ≡ (run cfg2 evs2 (startup cfg2)).2.
Proof.
  intros cfg1 cfg2 evs1 evs2. apply (run_key_independent cfg1 cfg2 evs1 evs2); [done|].
  by repeat constructor.
Defined.
