(* ===== verification/PyChat.v ===== *)
(** * The chat handler on Python's objects

    [chat] (src/main.py lines 117-159) once more, this time with the dict
    [chat_histories] as Python keeps it ([Heap.v]): [history] is a reference
    to a list object, the prompt is rendered from the list behind it, and the
    two appends change that object in place before line 151 binds the
    reference.  Everything else, the log records, the session id, the calls
    of the library and the [except] clause, is the code of [Chat.v] and
    [Genai.v], which does not depend on how the dict is represented.

    The handler is also given in two halves, cut at the call of
    [generate_content] (line 145): [chat_begin] runs up to the point where
    the request to the service has been sent, [chat_resume] runs from its
    answer.  As the code is written the two halves always run back to back
    ([py_chat_split]); [Concurrent.v] lets other requests run in between.

    The theorems show that the handler on Python's objects and the handler of
    [Chat.v] answer alike and keep the same transcripts, as long as no two
    sessions share a list object, and that the application built on either
    gives the same responses to every sequence of requests. *)

From S2P Require Import Prelude PyString Monad Http Login Store Heap Prompt World Genai.
From S2P Require Import Chat TestKey App.

(** The state of the process with the dict as references to list objects. *)
Abbreviation PyWorld := (WorldOf PyStore).

(** Run a statement on the dict and the heap. *)
Definition on_store {A} (f : PyStore → A * PyStore) : HOf PyStore A :=
  λ w, let '(a, st) := f (chat_histories w) in
       (Return a, set_chat_histories (λ _, st) w).

(** Lines 146-155: the [try] block from the answer of the service on. *)
Definition py_chat_store (session_id : string) (history : loc)
    (user_message text : string) : HOf PyStore ChatResponse :=
  let response_text := strip text in
  modify (set_chat_histories (list_append history (user_entry user_message)));;
  modify (set_chat_histories (list_append history (model_entry response_text)));;
  modify (set_chat_histories (dict_set session_id history));;
  logger_info ("Generated response: " +:+ slice_to 30 response_text +:+ "...");;
  mret {| response := response_text; session_id := session_id |}.

(** Lines 141-155: the body of the [try] block. *)
Definition py_chat_try (env : Env) (session_id : string) (history : loc)
    (user_message prompt : string) : HOf PyStore ChatResponse :=
  text ← generate_text env MODEL_NAME prompt;
  py_chat_store session_id history user_message text.

(** Lines 117-159. *)
Definition py_chat (cfg : Config) (env : Env) (chat_request : ChatRequest)
    : HOf PyStore ChatResponse :=
  let user_message := req_message chat_request in
  logger_info ("Received message: " +:+ slice_to 30 user_message +:+ "...");;
  session_id ← resolve_session_id env (req_session_id chat_request);
  logger_info ("Using session: " +:+ session_id);;
  configure_genai cfg env;;
  history ← on_store (py_get session_id);
  entries ← gets (λ w, deref history (chat_histories w));
  conversation_history ← lift_sum (conversation_history entries);
  let prompt := compose_prompt conversation_history user_message in
  catch (py_chat_try env session_id history user_message prompt) chat_except.

#[export] Instance chat_py : ChatHandler PyStore := py_chat.

(** ** The handler in two halves *)

(** What a handler holds while it waits for the service: its local variables
    [session_id], [history] (a reference), [user_message] and [prompt]. *)
Record Pending : Type := {
  p_session_id : string;
  p_history : loc;
  p_user_message : string;
  p_prompt : string;
}.

(** Lines 119-145, up to the request to the service. *)
Definition chat_begin (cfg : Config) (env : Env) (chat_request : ChatRequest)
    : HOf PyStore Pending :=
  let user_message := req_message chat_request in
  logger_info ("Received message: " +:+ slice_to 30 user_message +:+ "...");;
  session_id ← resolve_session_id env (req_session_id chat_request);
  logger_info ("Using session: " +:+ session_id);;
  configure_genai cfg env;;
  history ← on_store (py_get session_id);
  entries ← gets (λ w, deref history (chat_histories w));
  conversation_history ← lift_sum (conversation_history entries);
  let prompt := compose_prompt conversation_history user_message in
  call (CallGenerate MODEL_NAME prompt);;
  mret {| p_session_id := session_id; p_history := history;
          p_user_message := user_message; p_prompt := prompt |}.

(** Lines 145-159, from the answer of the service. *)
Definition chat_resume (env : Env) (p : Pending) : HOf PyStore ChatResponse :=
  catch
    (text ← lift_sum (reply_of env MODEL_NAME (p_prompt p));
     py_chat_store (p_session_id p) (p_history p) (p_user_message p) text)
    chat_except.

(** ** From Python's objects to values *)

(** The state of the process with every reference of the dict replaced by the
    list behind it. *)
Definition lower (w : PyWorld) : World := set_chat_histories contents w.

(** Lines 15-27 and 78: the module body. *)
Definition py_startup (cfg : Config) : PyWorld := startup_with py_init cfg.

(** The states the process can be in. *)
Inductive py_app_reachable (cfg : Config) : PyWorld → Prop :=
  | py_app_reachable_startup : py_app_reachable cfg (py_startup cfg)
  | py_app_reachable_serve w env rq :
      py_app_reachable cfg w → py_app_reachable cfg (serve cfg env rq w).2.

(** * Evaluation of the handler *)

Section lower.
Implicit Types (w : PyWorld) (st : PyStore).

Lemma lower_add_log r w : lower (add_log r w) = add_log r (lower w).
Proof. done. Qed.

Lemma lower_add_call c w : lower (add_call c w) = add_call c (lower w).
Proof. done. Qed.

Lemma lower_set st w :
  lower (set_chat_histories (λ _, st) w) = set_chat_histories (λ _, contents st) (lower w).
Proof. done. Qed.

Lemma chat_histories_lower w : chat_histories (lower w) = contents (chat_histories w).
Proof. done. Qed.

Lemma lower_startup cfg : lower (py_startup cfg) = startup cfg.
Proof. unfold lower, py_startup, startup, startup_with, set_chat_histories. cbn. f_equal. Qed.

Lemma run_on_store {A} (f : PyStore → A * PyStore) w :
  on_store f w = (Return (f (chat_histories w)).1,
                  set_chat_histories (λ _, (f (chat_histories w)).2) w).
Proof. unfold on_store. by destruct (f (chat_histories w)). Qed.

End lower.

#[export] Hint Rewrite lower_add_log lower_add_call lower_set chat_histories_lower : world.
#[export] Hint Rewrite @run_on_store : run.

Section run.
Context (cfg : Config) (env : Env) (chat_request : ChatRequest).
Implicit Types (w : PyWorld) (st : PyStore) (l : loc) (e : Exn) (t p : string).

Let sid := session_of env chat_request.
Let msg := req_message chat_request.
Let key := GOOGLE_API_KEY cfg.

(** The store after the three statements of lines 149-151. *)
Definition stored (session_id : string) (l : loc) (user_message response_text : string)
    (st : PyStore) : PyStore :=
  dict_set session_id l
    (list_append l (model_entry response_text)
       (list_append l (user_entry user_message) st)).

(** The state when the handler waits for the service: line 130 has run. *)
Definition waiting (p : string) (w : PyWorld) : PyWorld :=
  after_generate cfg env chat_request p
    (set_chat_histories (λ st, (py_get sid st).2) w).

(** What the handler holds then. *)
Definition pending_of (p : string) (st : PyStore) : Pending :=
  {| p_session_id := sid; p_history := (py_get sid st).1;
     p_user_message := msg; p_prompt := p |}.

(** The prompt a request is answered from, in a given store of objects. *)
Definition py_prompt_of (st : PyStore) : Exn + string :=
  build_prompt (deref (py_get sid st).1 (py_get sid st).2) msg.

Lemma run_py_chat_store session_id l user_message t w :
  py_chat_store session_id l user_message t w =
  (Return {| response := strip t; session_id := session_id |},
   add_log (INFO, "Generated response: " +:+ slice_to 30 (strip t) +:+ "...")
     (set_chat_histories (stored session_id l user_message (strip t)) w)).
Proof. done. Qed.

(** Lines 130-135, followed by any continuation [k] of the reference and the
    rendered transcript: an exception from rendering leaves at once. *)
Lemma run_py_history {A} (k : loc → string → HOf PyStore A) w :
  (history ← on_store (py_get sid);
   entries ← gets (λ w, deref history (chat_histories w));
   conversation_history ← lift_sum (conversation_history entries);
   k history conversation_history) w =
  match conversation_history (deref (py_get sid (chat_histories w)).1
                                    (py_get sid (chat_histories w)).2) with
  | inl e => (Raise e, set_chat_histories (λ st, (py_get sid st).2) w)
  | inr ch => k (py_get sid (chat_histories w)).1 ch
                (set_chat_histories (λ st, (py_get sid st).2) w)
  end.
Proof.
  cbv [mbind M_bind]. unfold bind at 1. rewrite run_on_store.
  unfold bind at 1. rewrite run_gets. cbn [chat_histories set_chat_histories].
  unfold bind at 1. by destruct (conversation_history _).
Qed.

(** The first half on any state, by cases on what the environment answers. *)
Lemma run_chat_begin w :
  chat_begin cfg env chat_request w =
  match configure env key with
  | Some e =>
      (Raise e, add_log (ERROR, "Error configuring Gemini API: " +:+ exn_str e)
                  (add_call (CallConfigure key) (after_resolve env chat_request w)))
  | None =>
      match py_prompt_of (chat_histories w) with
      | inl e => (Raise e, after_configure cfg env chat_request
                             (set_chat_histories (λ st, (py_get sid st).2) w))
      | inr p => (Return (pending_of p (chat_histories w)), waiting p w)
      end
  end.
Proof.
  unfold chat_begin. cbv zeta. rewrite run_chat_prologue. fold key sid msg.
  destruct (configure env key); [done|]. rewrite run_py_history.
  unfold py_prompt_of, build_prompt, waiting, after_generate.
  rewrite chat_histories_after_configure, set_after_configure.
  by destruct (conversation_history _).
Qed.

(** The second half on any state. *)
Lemma run_chat_resume (pd : Pending) w :
  chat_resume env pd w =
  match reply_of env MODEL_NAME (p_prompt pd) with
  | inl e =>
      (Raise (HTTPException 500 (exn_str e)),
       add_log (ERROR, "Error processing chat: " +:+ exn_str e) w)
  | inr t =>
      (Return {| response := strip t; session_id := p_session_id pd |},
       add_log (INFO, "Generated response: " +:+ slice_to 30 (strip t) +:+ "...")
         (set_chat_histories
            (stored (p_session_id pd) (p_history pd) (p_user_message pd) (strip t)) w))
  end.
Proof.
  unfold chat_resume, catch. cbv [mbind M_bind]. unfold bind.
  by destruct (reply_of env MODEL_NAME (p_prompt pd)).
Qed.

(** The whole handler on any state: the first half, then the second. *)
Lemma run_py_chat w :
  py_chat cfg env chat_request w =
  match chat_begin cfg env chat_request w with
  | (Return pd, w') => chat_resume env pd w'
  | (Raise e, w') => (Raise e, w')
  end.
Proof.
  rewrite run_chat_begin. unfold py_chat. cbv zeta. rewrite run_chat_prologue.
  fold key sid msg. destruct (configure env key); [done|]. rewrite run_py_history.
  unfold py_prompt_of, build_prompt, waiting, after_generate.
  rewrite chat_histories_after_configure, set_after_configure.
  destruct (conversation_history _) as [e|ch]; [done|]. rewrite run_chat_resume.
  unfold catch, py_chat_try. cbv [mbind M_bind]. unfold bind.
  rewrite run_generate_text. cbn [pending_of p_prompt].
  by destruct (reply_of env MODEL_NAME _).
Qed.

(** As the code is written, the handler is its two halves back to back. *)
Lemma py_chat_split :
  py_chat cfg env chat_request ≡ chat_begin cfg env chat_request ≫= chat_resume env.
Proof. intros w. rewrite run_py_chat. cbv [mbind M_bind]. by unfold bind. Qed.

End run.

(** * Properties *)

Section refine.
Context (cfg : Config) (env : Env).
Implicit Types (req : ChatRequest) (w : PyWorld) (st : PyStore) (e : Exn) (t p : string).

Lemma set_set {S T U} (f : S → T) (g : T → U) (w : WorldOf S) :
  set_chat_histories g (set_chat_histories f w) = set_chat_histories (g ∘ f) w.
Proof. done. Qed.

(** The state is the same whether line 130 has run or not, seen as values. *)
Lemma lower_py_get sid w :
  separated (chat_histories w) →
  lower (set_chat_histories (λ st, (py_get sid st).2) w) = lower w.
Proof.
  intros Hsep. unfold lower. rewrite set_set. unfold set_chat_histories. cbn.
  by rewrite contents_py_get.
Qed.

(** The prompt is rendered from the transcript the functional store holds. *)
Lemma py_prompt_of_contents req st :
  separated st → py_prompt_of env req st = prompt_of env req (contents st).
Proof.
  intros Hsep. pose proof (py_get_spec (session_of env req) st Hsep) as (_ & _ & Hd & _).
  unfold py_prompt_of, prompt_of. by rewrite Hd.
Qed.

(** What the second half stores is the exchange of [Heap.v]. *)
Lemma stored_py_get sid msg t st :
  stored sid (py_get sid st).1 msg t (py_get sid st).2 = py_exchange sid msg t st.
Proof. by rewrite py_exchange_unfold. Qed.

(** The handler on any state, by cases on what the environment answers. *)
Lemma run_py_chat_cases req w :
  py_chat cfg env req w =
  match configure env (GOOGLE_API_KEY cfg) with
  | Some e =>
      (Raise e, add_log (ERROR, "Error configuring Gemini API: " +:+ exn_str e)
                  (add_call (CallConfigure (GOOGLE_API_KEY cfg)) (after_resolve env req w)))
  | None =>
      match py_prompt_of env req (chat_histories w) with
      | inl e => (Raise e, after_configure cfg env req
                             (set_chat_histories (λ st, (py_get (session_of env req) st).2) w))
      | inr p =>
          match reply_of env MODEL_NAME p with
          | inl e =>
              (Raise (HTTPException 500 (exn_str e)),
               add_log (ERROR, "Error processing chat: " +:+ exn_str e)
                 (waiting cfg env req p w))
          | inr t =>
              (Return {| response := strip t; session_id := session_of env req |},
               add_log (INFO, "Generated response: " +:+ slice_to 30 (strip t) +:+ "...")
                 (after_generate cfg env req p
                    (set_chat_histories
                       (py_exchange (session_of env req) (req_message req) (strip t)) w)))
          end
      end
  end.
Proof.
  rewrite run_py_chat, run_chat_begin. destruct (configure env _); [done|].
  destruct (py_prompt_of env req _) as [e|p]; [done|]. rewrite run_chat_resume.
  cbn [pending_of p_prompt p_session_id p_history p_user_message].
  destruct (reply_of env MODEL_NAME p) as [e|t]; [done|].
  unfold waiting. by rewrite set_after_generate, set_set.
Qed.

Lemma lower_after_resolve req w :
  lower (after_resolve env req w) = after_resolve env req (lower w).
Proof. apply set_after_resolve. Qed.

Lemma lower_after_configure req w :
  lower (after_configure cfg env req w) = after_configure cfg env req (lower w).
Proof. apply set_after_configure. Qed.

Lemma lower_after_generate req p w :
  lower (after_generate cfg env req p w) = after_generate cfg env req p (lower w).
Proof. apply set_after_generate. Qed.

Lemma lower_waiting req p w :
  separated (chat_histories w) →
  lower (waiting cfg env req p w) = after_generate cfg env req p (lower w).
Proof. intros. unfold waiting. by rewrite lower_after_generate, lower_py_get. Qed.

Lemma lower_py_exchange sid msg t w :
  separated (chat_histories w) →
  lower (set_chat_histories (py_exchange sid msg t) w) =
  set_chat_histories (store_exchange sid msg t) (lower w).
Proof.
  intros Hsep. unfold lower. rewrite !set_set. unfold set_chat_histories. cbn. f_equal.
  apply map_eq. intros s. by apply contents_py_exchange_lookup.
Qed.

(** The handler on Python's objects and the handler of [Chat.v] on the
    values behind the references: the same outcome and the same state. *)
Lemma py_chat_lower req w :
  separated (chat_histories w) →
  (py_chat cfg env req w).1 = (chat cfg env req (lower w)).1 ∧
  lower (py_chat cfg env req w).2 = (chat cfg env req (lower w)).2.
Proof.
  intros Hsep. rewrite run_py_chat_cases, run_chat, chat_histories_lower.
  rewrite py_prompt_of_contents by done.
  destruct (configure env _) as [e|]; cbn [fst snd].
  { by rewrite lower_add_log, lower_add_call, lower_after_resolve. }
  destruct (prompt_of env req _) as [e|p]; cbn [fst snd].
  { by rewrite lower_after_configure, lower_py_get. }
  destruct (reply_of env MODEL_NAME p) as [e|t]; cbn [fst snd].
  { by rewrite lower_add_log, lower_waiting. }
  rewrite lower_add_log, lower_after_generate, lower_py_exchange by done.
  split; [done|]. by rewrite set_after_generate.
Qed.

(** The handler never makes two sessions share a list object. *)
Lemma py_chat_separated req w :
  separated (chat_histories w) → separated (chat_histories (py_chat cfg env req w).2).
Proof.
  intros Hsep. rewrite run_py_chat_cases. unfold waiting.
  repeat case_match; cbn [snd];
    rewrite ?chat_histories_add_log, ?chat_histories_add_call,
      ?chat_histories_after_generate, ?chat_histories_after_configure,
      ?chat_histories_after_resolve, ?chat_histories_set;
    auto using py_get_separated, py_exchange_separated.
Qed.

(** C15. The handler on Python's objects answers as the handler of [Chat.v] does
    on the values behind the references, leaves the same log, the same calls
    and the same transcripts, and keeps the sessions apart, provided no two
    sessions share a list object before. *)
Theorem py_chat_refines req w :
  separated (chat_histories w) →
  (py_chat cfg env req w).1 = (chat cfg env req (lower w)).1 ∧
  lower (py_chat cfg env req w).2 = (chat cfg env req (lower w)).2 ∧
  separated (chat_histories (py_chat cfg env req w).2).
Proof.
  intros Hsep. destruct (py_chat_lower req w Hsep). auto using py_chat_separated.
Qed.

End refine.

Section app.
Context (cfg : Config).
Implicit Types (env : Env) (rq : Request) (w : PyWorld) (evs : list Event).

(** One request on Python's objects and on values: the same response, the
    same state behind the references, and still no shared list object. *)
Lemma py_serve_refines env rq w :
  separated (chat_histories w) →
  (serve cfg env rq w).1 = (serve cfg env rq (lower w)).1 ∧
  lower (serve cfg env rq w).2 = (serve cfg env rq (lower w)).2 ∧
  separated (chat_histories (serve cfg env rq w).2).
Proof.
  intros Hsep. destruct rq as [| | | |body|]; try done.
  - rewrite serve_chat, serve_chat_handler.
    destruct (py_chat_lower cfg env body w Hsep) as [H1 H2].
    pose proof (py_chat_separated cfg env body w Hsep) as H3.
    change (chat_handler cfg env body w) with (py_chat cfg env body w).
    destruct (py_chat cfg env body w) as [[r|[ty m|c d]] w'],
      (chat cfg env body (lower w)) as [[r'|e'] w'']; by simplify_eq/=.
  - rewrite !serve_test_key. unfold lower. rewrite test_key_natural.
    cbn [fst snd]. by rewrite test_key_keeps_store.
Qed.

Lemma py_run_sim evs w :
  separated (chat_histories w) →
  (run cfg evs w).1 = (run cfg evs (lower w)).1 ∧
  lower (run cfg evs w).2 = (run cfg evs (lower w)).2 ∧
  separated (chat_histories (run cfg evs w).2).
Proof.
  revert w. induction evs as [|[rq env] evs IH]; intros w Hsep; [done|].
  rewrite !run_cons. cbn [fst snd].
  destruct (py_serve_refines env rq w Hsep) as (-> & <- & Hsep').
  by destruct (IH _ Hsep') as (-> & -> & ?).
Qed.

Lemma py_app_reachable_separated w :
  py_app_reachable cfg w → separated (chat_histories w).
Proof.
  induction 1 as [|w env rq _ IH]; [apply separated_init|].
  by apply py_serve_refines.
Qed.

(** Every state of the application on Python's objects is, behind the
    references, a state of the application on values. *)
Lemma py_app_reachable_lower w : py_app_reachable cfg w → reachable cfg (lower w).
Proof.
  induction 1 as [|w env rq Hw IH].
  - rewrite lower_startup. constructor.
  - apply py_app_reachable_separated in Hw.
    destruct (py_serve_refines env rq w Hw) as (_ & -> & _). by constructor.
Qed.

(** C6. From start-up, every sequence of requests gets the same responses from
    the application on Python's objects as from the application on values,
    leads to the same log, calls and transcripts, and never makes two
    sessions share a list object. *)
Theorem py_run_refines evs :
  (run cfg evs (py_startup cfg)).1 = (run cfg evs (startup cfg)).1 ∧
  lower (run cfg evs (py_startup cfg)).2 = (run cfg evs (startup cfg)).2 ∧
  separated (chat_histories (run cfg evs (py_startup cfg)).2).
Proof. rewrite <-lower_startup. apply py_run_sim, separated_init. Qed.

End app.

Lemma py_chat_refines_witness :
  (py_chat cfg_ex env_ok req_first (py_startup cfg_ex)).1 =
    (chat cfg_ex env_ok req_first (lower (py_startup cfg_ex))).1 ∧
  lower (py_chat cfg_ex env_ok req_first (py_startup cfg_ex)).2 =
    (chat cfg_ex env_ok req_first (lower (py_startup cfg_ex))).2 ∧
  separated (chat_histories (py_chat cfg_ex env_ok req_first (py_startup cfg_ex)).2).
Proof. apply py_chat_refines, separated_init. Defined.

(** The two messages of the end-to-end scenario on Python's objects: one list
    object holds the four entries, and the dict refers to it under the session
    id drawn for the first request. *)
Example two_messages_py :
  let evs := [(PostChat req_first, env_ok); (PostChat req_second, env_ok)] in
  let st := chat_histories (run cfg_ex evs (py_startup cfg_ex)).2 in
  histories_get (uuid4 env_ok) (contents st) =
    [user_entry "I have chest pain"; model_entry "Rest.";
     user_entry "Is it serious?"; model_entry "Rest."] ∧
  size (dict st) = 1 ∧ size (heap st) = 2.
Proof. by vm_compute. Qed.
