(* ===== verification/Concurrent.v ===== *)
(** * Requests in flight together

    The specification describes the server as cooperative: handlers run
    without preemption between suspension points, the call of the service is
    the only suspension point, and while one handler of [chat] waits for the
    service others may run.  This file gives that model: a server holds the
    state of the process and the handlers that wait ([Task]), a request that
    arrives runs to its end or, for [chat] and for the key test, to the call
    of the service ([chat_begin] of [PyChat.v], [test_key_begin] of
    [TestKey.v]), and a waiting handler resumes with the answer and runs to
    its end ([chat_resume], [test_key_resume]).  The state is the one of
    Python's objects, because what a waiting handler holds is a reference to
    a list object, and what two handlers of one session do to each other
    depends on whether they hold the same object.

    [src/main.py] itself calls [model.generate_content(prompt)] without
    [await] (line 145): as written, a handler never yields and the server
    runs one request at a time, which is the schedule [one_at_a_time].  The
    theorems show that on this schedule the server is the application of
    [App.v]; that under every schedule transcripts stay well formed and
    sessions stay apart; that a transcript can be shorter than the
    specification promises when two first requests of one session overlap;
    and that nothing is lost once the dict knows the session and the waiting
    handlers hold its list object ([settled]). *)

From S2P Require Import Prelude PyString Monad Http Login Store Heap Prompt World Genai.
From S2P Require Import Chat TestKey App PyChat.

(** A handler that waits for the service: the handler of [chat] with what it
    holds, or the handler of the key test, which holds nothing; and what the
    world answers to its request. *)
Inductive Task : Type :=
  | ChatTask (env : Env) (pd : Pending)
  | KeyTask (env : Env).

(** The server: the state of the process, the handlers that wait, by the
    number of their request, the number of requests received, and the
    responses sent so far, oldest first. *)
Record Server : Type := {
  world : PyWorld;
  tasks : gmap nat Task;
  received : nat;
  answered : list (nat * Response);
}.

(** What the scheduler does next: take a request, or resume the handler of
    request [i]. *)
Inductive Label : Type :=
  | Arrive (rq : Request) (env : Env)
  | Resume (i : nat).

(** Line 117 and the exception handlers: the response to what the handler of
    [chat] returned or raised. *)
Definition finish (m : HOf PyStore ChatResponse) (w : PyWorld) : Response * PyWorld :=
  match catch (r ← m; mret (JSONResponse 200 (chat_response_body r))) handle_exception w with
  | (Return r, w') => (r, w')
  | (Raise _, w') => (internal_server_error, w')
  end.

(** Line 162 and the exception handlers: the response to what the handler of
    the key test returned or raised. *)
Definition finish_key (m : HOf PyStore json) (w : PyWorld) : Response * PyWorld :=
  match catch (body ← m; mret (JSONResponse 200 body)) handle_exception w with
  | (Return r, w') => (r, w')
  | (Raise _, w') => (internal_server_error, w')
  end.

(** Request [i] is answered. *)
Definition answer (i : nat) (rw : Response * PyWorld) (s : Server) : Server :=
  {| world := rw.2; tasks := delete i (tasks s); received := received s;
     answered := answered s ++ [(i, rw.1)] |}.

(** Request [i] waits for the service. *)
Definition suspend (i : nat) (t : Task) (w : PyWorld) (s : Server) : Server :=
  {| world := w; tasks := <[i := t]> (tasks s); received := received s;
     answered := answered s |}.

(** One more request has been received. *)
Definition count_request (s : Server) : Server :=
  {| world := world s; tasks := tasks s; received := S (received s);
     answered := answered s |}.

(** A request arrives: its handler runs to its end, or to the call of the
    service. *)
Definition arrive (cfg : Config) (rq : Request) (env : Env) (s : Server) : Server :=
  let i := received s in
  match rq with
  | PostChat body =>
      match chat_begin cfg env body (world s) with
      | (Return pd, w') => suspend i (ChatTask env pd) w' (count_request s)
      | (Raise e, w') => answer i (finish (raise e) w') (count_request s)
      end
  | GetTestKey =>
      match test_key_begin cfg env (world s) with
      | (Return None, w') => suspend i (KeyTask env) w' (count_request s)
      | (Return (Some body), w') => answer i (finish_key (mret body) w') (count_request s)
      | (Raise e, w') => answer i (finish_key (raise e) w') (count_request s)
      end
  | _ => answer i (serve cfg env rq (world s)) (count_request s)
  end.

(** The handler of request [i] resumes with the answer of the service; a
    request that does not wait cannot resume. *)
Definition resume (i : nat) (s : Server) : Server :=
  match tasks s !! i with
  | Some (ChatTask env pd) => answer i (finish (chat_resume env pd) (world s)) s
  | Some (KeyTask env) => answer i (finish_key (test_key_resume env) (world s)) s
  | None => s
  end.

Definition exec (cfg : Config) (l : Label) (s : Server) : Server :=
  match l with
  | Arrive rq env => arrive cfg rq env s
  | Resume i => resume i s
  end.

(** A schedule, run from left to right. *)
Definition exec_all (cfg : Config) (ls : list Label) (s : Server) : Server :=
  foldl (λ s l, exec cfg l s) s ls.

(** The server after the module body has run. *)
Definition server_init (cfg : Config) : Server :=
  {| world := py_startup cfg; tasks := ∅; received := 0; answered := [] |}.

(** The states of the server under all schedules. *)
Inductive sreachable (cfg : Config) : Server → Prop :=
  | sreachable_init : sreachable cfg (server_init cfg)
  | sreachable_exec s l : sreachable cfg s → sreachable cfg (exec cfg l s).

(** The schedule of the code as written: every request is taken and, when its
    handler calls the service, resumed before the next request is taken.
    [n] is the number of requests received before. *)
Fixpoint one_at_a_time (n : nat) (evs : list Event) : list Label :=
  match evs with
  | [] => []
  | (rq, env) :: evs' => Arrive rq env :: Resume n :: one_at_a_time (S n) evs'
  end.

(** The responses in the order of the requests. *)
Definition responses (s : Server) : list Response := (answered s).*2.

(** The dict and the heap of the server. *)
Definition store (s : Server) : PyStore := chat_histories (world s).

(** ** What a session can reach *)

(** Session [sid] refers to the list object [l]: through the dict, or through
    the variable [history] of a handler that waits. *)
Definition refers (s : Server) (sid : string) (l : loc) : Prop :=
  dict (store s) !! sid = Some l ∨
  ∃ i env pd, tasks s !! i = Some (ChatTask env pd) ∧ p_session_id pd = sid
              ∧ p_history pd = l.

(** Every list object a session refers to exists, and no list object is
    referred to by two sessions. *)
Definition owned (s : Server) : Prop :=
  (∀ sid l, refers s sid l → l ∈ dom (heap (store s))) ∧
  (∀ sid1 sid2 l, refers s sid1 l → refers s sid2 l → sid1 = sid2).

(** A response with status 200 that names session [sid]. *)
Definition ok_for (sid : string) (r : Response) : bool :=
  match r with
  | JSONResponse c body =>
      bool_decide (c = 200%Z) && bool_decide (json_get "session_id" body = Some (JStr sid))
  | _ => false
  end.

(** The number of chat calls answered with status 200 under [sid]. *)
Definition ok_count (sid : string) (s : Server) : nat :=
  length (filter (λ ir, ok_for sid ir.2 = true) (answered s)).

(** What a step does to the dict, to the handlers that wait and to the
    responses: nothing; a response that names no session, with at most a
    fresh list object allocated; a handler of [chat] that starts to wait,
    holding the reference of line 130; a handler of the key test that starts
    to wait; or the two appends and the binding of lines 149-151 by a handler
    that waited, with the response that names its session. *)
Inductive effect (s s' : Server) : Prop :=
  | effect_skip : s' = s → effect s s'
  | effect_answer i r :
      store s' = store s ∨ (∃ sid, store s' = (py_get sid (store s)).2) →
      tasks s' = delete i (tasks s) →
      answered s' = answered s ++ [(i, r)] →
      (∀ sid, ok_for sid r = false) →
      (i ∈ dom (tasks s) ∧ received s' = received s) ∨
        (i = received s ∧ received s' = S (received s)) →
      effect s s'
  | effect_suspend env pd :
      store s' = (py_get (p_session_id pd) (store s)).2 →
      p_history pd = (py_get (p_session_id pd) (store s)).1 →
      tasks s' = <[received s := ChatTask env pd]> (tasks s) →
      answered s' = answered s →
      received s' = S (received s) →
      effect s s'
  | effect_wait env :
      store s' = store s →
      tasks s' = <[received s := KeyTask env]> (tasks s) →
      answered s' = answered s →
      received s' = S (received s) →
      effect s s'
  | effect_store i env pd text :
      tasks s !! i = Some (ChatTask env pd) →
      store s' = stored (p_session_id pd) (p_history pd) (p_user_message pd) text (store s) →
      tasks s' = delete i (tasks s) →
      answered s' = answered s ++
        [(i, JSONResponse 200 (chat_response_body
               {| response := text; session_id := p_session_id pd |}))] →
      received s' = received s →
      effect s s'.

(** No list object a session refers to holds more than two entries for each
    chat call answered with status 200 under that session. *)
Definition bounded (s : Server) : Prop :=
  ∀ sid l, refers s sid l → length (deref l (store s)) ≤ 2 * ok_count sid s.

(** The transcript of a session, as the dict holds it. *)
Definition transcript (sid : string) (s : Server) : list Entry :=
  histories_get sid (contents (store s)).

(** The dict knows the session, and every waiting handler of the session
    holds the list object the dict refers to. *)
Definition settled (sid : string) (s : Server) : Prop :=
  ∃ l, dict (store s) !! sid = Some l ∧
       ∀ i env pd, tasks s !! i = Some (ChatTask env pd) → p_session_id pd = sid →
                   p_history pd = l.

(** * Properties *)

(** ** The code as written: one request at a time *)

Section sequential.
Context (cfg : Config).
Implicit Types (s : Server) (w : PyWorld) (env : Env) (rq : Request) (evs : list Event).

Lemma finish_ext (m1 m2 : HOf PyStore ChatResponse) w :
  m1 w = m2 w → finish m1 w = finish m2 w.
Proof. unfold finish, catch. cbv [mbind M_bind]. unfold bind. by intros ->. Qed.

(** The response to a chat request is the response to its handler. *)
Lemma serve_finish env body w :
  serve cfg env (PostChat body) w = finish (py_chat cfg env body) w.
Proof. done. Qed.

(** The response to a chat request, through the two halves of its handler. *)
Lemma finish_split env body w :
  finish (py_chat cfg env body) w =
  match chat_begin cfg env body w with
  | (Return pd, w') => finish (chat_resume env pd) w'
  | (Raise e, w') => finish (raise e) w'
  end.
Proof.
  rewrite (finish_ext _ _ _ (py_chat_split cfg env body w)).
  unfold finish, catch. cbv [mbind M_bind]. unfold bind.
  by destruct (chat_begin cfg env body w) as [[pd|e] w'].
Qed.

(** The same for the key test. *)
Lemma serve_finish_key env w :
  serve cfg env GetTestKey w = finish_key (test_key cfg env) w.
Proof. done. Qed.

Lemma finish_key_split env w :
  finish_key (test_key cfg env) w =
  match test_key_begin cfg env w with
  | (Return None, w') => finish_key (test_key_resume env) w'
  | (Return (Some body), w') => finish_key (mret body) w'
  | (Raise e, w') => finish_key (raise e) w'
  end.
Proof.
  unfold finish_key, catch. cbv [mbind M_bind]. unfold bind. rewrite test_key_split.
  by destruct (test_key_begin cfg env w) as [[[body|]|e] w'].
Qed.

(** A handler resumed as soon as it waits. *)
Lemma resume_suspend i t w s :
  resume i (suspend i t w s) =
  match t with
  | ChatTask env pd => answer i (finish (chat_resume env pd) w) s
  | KeyTask env => answer i (finish_key (test_key_resume env) w) s
  end.
Proof.
  unfold resume. cbn [tasks suspend]. rewrite lookup_insert_eq.
  destruct t; unfold answer; cbn; by rewrite delete_insert_eq.
Qed.

(** A request that has been answered does not resume. *)
Lemma resume_answer i rw s : resume i (answer i rw s) = answer i rw s.
Proof. unfold resume. cbn [tasks answer]. by rewrite lookup_delete_eq. Qed.

(** A request that is resumed as soon as it has arrived is served as the
    application serves it. *)
Lemma resume_arrive rq env s :
  resume (received s) (arrive cfg rq env s) =
  answer (received s) (serve cfg env rq (world s)) (count_request s).
Proof.
  unfold arrive. destruct rq as [| | | |body|]; try apply resume_answer.
  - rewrite serve_finish, finish_split.
    destruct (chat_begin cfg env body (world s)) as [[pd|e] w'];
      [apply (resume_suspend _ (ChatTask env pd))|apply resume_answer].
  - rewrite serve_finish_key, finish_key_split.
    destruct (test_key_begin cfg env (world s)) as [[[b|]|e] w'];
      [apply resume_answer|apply (resume_suspend _ (KeyTask env))|apply resume_answer].
Qed.

Lemma exec_all_cons l ls s : exec_all cfg (l :: ls) s = exec_all cfg ls (exec cfg l s).
Proof. done. Qed.

(** The server on the schedule of the code as written: the state and the
    responses of [run]. *)
Lemma exec_one_at_a_time evs s :
  tasks s = ∅ →
  exec_all cfg (one_at_a_time (received s) evs) s =
  {| world := (run cfg evs (world s)).2; tasks := ∅;
     received := received s + length evs;
     answered := answered s ++ zip (seq (received s) (length evs)) (run cfg evs (world s)).1 |}.
Proof.
  revert s. induction evs as [|[rq env] evs IH]; intros s Ht.
  - destruct s. cbn in *. rewrite Ht, (right_id_L [] (++)). f_equal. lia.
  - cbn [one_at_a_time]. rewrite !exec_all_cons. cbn [exec]. rewrite resume_arrive.
    change (S (received s)) with (received (answer (received s)
      (serve cfg env rq (world s)) (count_request s))).
    rewrite IH by (cbn; by rewrite Ht, delete_empty).
    rewrite run_cons. cbn. rewrite <-(assoc_L (++)). f_equal. lia.
Qed.

End sequential.

(** ** What a step does *)

Section effect.
Context (cfg : Config).
Implicit Types (s : Server) (w : PyWorld) (env : Env) (rq : Request) (sid : string).

(** The exception handlers do not touch the dict. *)
Lemma finish_store m w : chat_histories (finish m w).2 = chat_histories (m w).2.
Proof.
  unfold finish, catch. cbv [mbind M_bind]. unfold bind.
  by destruct (m w) as [[r|[ty msg|c d]] w'].
Qed.

(** The response to a handler that raises names no session. *)
Lemma finish_Raise m w e w' sid : m w = (Raise e, w') → ok_for sid (finish m w).1 = false.
Proof.
  unfold finish, catch. cbv [mbind M_bind]. unfold bind. intros ->.
  destruct e as [ty msg|c d]; cbn; apply andb_false_r.
Qed.

Lemma finish_Return m w r w' :
  m w = (Return r, w') → (finish m w).1 = JSONResponse 200 (chat_response_body r).
Proof. unfold finish, catch. cbv [mbind M_bind]. unfold bind. by intros ->. Qed.

(** The routes other than chat answer without naming a session. *)
Lemma serve_not_ok env rq w sid :
  (∀ body, rq ≠ PostChat body) → ok_for sid (serve cfg env rq w).1 = false.
Proof.
  intros Hrq. destruct rq as [| | |body|body|]; try done.
  - cbn. unfold login, login_failure. case_match; cbn; apply andb_false_r.
  - by destruct (Hrq body).
  - rewrite serve_test_key. destruct (test_key_no_session_id cfg env w) as (b & -> & Hb).
    cbn. rewrite Hb. apply andb_false_r.
Qed.

(** A response without a field [session_id] names no session. *)
Lemma ok_for_no_session sid c body :
  json_get "session_id" body = None → ok_for sid (JSONResponse c body) = false.
Proof. intros H. cbn. rewrite H. apply andb_false_r. Qed.

Lemma finish_key_resume env w :
  finish_key (test_key_resume env) w =
  (JSONResponse 200 (match reply_of env MODEL_NAME TEST_PROMPT with
                     | inl e => error_body e
                     | inr t => success_body t
                     end), w).
Proof.
  unfold finish_key, catch. cbv [mbind M_bind]. unfold bind.
  by rewrite run_test_key_resume.
Qed.

(** The request just received is answered without a session being named. *)
Lemma effect_arrive_answer s (rw : Response * PyWorld) :
  chat_histories rw.2 = store s ∨ (∃ sid, chat_histories rw.2 = (py_get sid (store s)).2) →
  (∀ sid, ok_for sid rw.1 = false) →
  effect s (answer (received s) rw (count_request s)).
Proof. intros Hst Hno. by eapply (effect_answer _ _ (received s)); [..|right]. Qed.

(** A request that waited is answered without a session being named. *)
Lemma effect_resume_answer s i t (rw : Response * PyWorld) :
  tasks s !! i = Some t → chat_histories rw.2 = store s →
  (∀ sid, ok_for sid rw.1 = false) → effect s (answer i rw s).
Proof.
  intros Ht%elem_of_dom_2 Hst Hno. by eapply (effect_answer _ _ i); [left|..|left].
Qed.

Lemma arrive_chat_effect body env s : effect s (arrive cfg (PostChat body) env s).
Proof.
  unfold arrive. rewrite run_chat_begin. destruct (configure env _) as [e|].
  { apply effect_arrive_answer; [left|intros sid; by eapply finish_Raise].
    rewrite finish_store. cbn [raise snd].
    by rewrite chat_histories_add_log, chat_histories_add_call, chat_histories_after_resolve. }
  destruct (py_prompt_of env body _) as [e|p].
  - apply effect_arrive_answer; [right|intros sid; by eapply finish_Raise].
    exists (session_of env body). rewrite finish_store. cbn [raise snd].
    by rewrite chat_histories_after_configure.
  - eapply effect_suspend; cbn [tasks suspend count_request answered received]; try done.
    all: unfold store, waiting; cbn [suspend world pending_of p_session_id p_history];
      by rewrite ?chat_histories_after_generate.
Qed.

Lemma arrive_key_effect env s : effect s (arrive cfg GetTestKey env s).
Proof.
  unfold arrive. rewrite run_test_key_begin.
  destruct (negb (truthy _)); [|destruct (configure env _) as [e|]].
  - apply effect_arrive_answer; [by left|intros sid; by apply ok_for_no_session].
  - apply effect_arrive_answer; [by left|intros sid; by apply ok_for_no_session].
  - by eapply effect_wait.
Qed.

Lemma arrive_effect rq env s : effect s (arrive cfg rq env s).
Proof.
  destruct rq as [| | | |body|];
    [..|apply arrive_chat_effect|apply arrive_key_effect];
    (apply effect_arrive_answer;
      [left; by apply serve_keeps_store|intros sid; by apply serve_not_ok]).
Qed.

(** A handler of [chat] that resumes with a reply: lines 146-155. *)
Lemma resume_chat_ok i env pd t s :
  tasks s !! i = Some (ChatTask env pd) → reply_of env MODEL_NAME (p_prompt pd) = inr t →
  store (resume i s) =
    stored (p_session_id pd) (p_history pd) (p_user_message pd) (strip t) (store s) ∧
  answered (resume i s) = answered s ++
    [(i, JSONResponse 200 (chat_response_body
           {| response := strip t; session_id := p_session_id pd |}))].
Proof.
  intros Ht Hr. unfold resume. rewrite Ht.
  pose proof (run_chat_resume env pd (world s)) as Hrun. rewrite Hr in Hrun. split.
  - unfold store. cbn. by rewrite finish_store, Hrun.
  - cbn. by erewrite finish_Return.
Qed.

Lemma resume_effect i s : effect s (resume i s).
Proof.
  destruct (tasks s !! i) as [[env pd|env]|] eqn:Ht;
    [destruct (reply_of env MODEL_NAME (p_prompt pd)) as [e|t] eqn:Hr|..].
  - unfold resume. rewrite Ht. pose proof (run_chat_resume env pd (world s)) as Hrun.
    rewrite Hr in Hrun.
    eapply effect_resume_answer; [done| |intros sid; by eapply finish_Raise].
    by rewrite finish_store, Hrun.
  - destruct (resume_chat_ok i env pd t s Ht Hr) as [Hst Ha].
    eapply (effect_store _ _ i env pd (strip t)); [done..| |done|];
      unfold resume; by rewrite Ht.
  - unfold resume. rewrite Ht, finish_key_resume. eapply effect_resume_answer; [done..|].
    intros sid. apply ok_for_no_session. by destruct (reply_of env _ _).
  - unfold resume. rewrite Ht. by constructor.
Qed.

(** Whether or not request [i] waits, it does not wait after [resume i]. *)
Lemma tasks_resume i s : tasks (resume i s) = delete i (tasks s).
Proof.
  unfold resume. destruct (tasks s !! i) as [[]|] eqn:E; [done..|]. by rewrite delete_id.
Qed.

Lemma exec_effect l s : effect s (exec cfg l s).
Proof. destruct l; [apply arrive_effect|apply resume_effect]. Qed.

End effect.

(** ** Under every schedule *)

Section invariants.
Context (cfg : Config).
Implicit Types (s : Server) (sid : string) (l : loc) (i : nat).

Lemma heap_stored sid l msg t st :
  heap (stored sid l msg t st) = alter (λ h, append_exchange h msg t) l (heap st).
Proof. apply heap_list_append2. Qed.

Lemma dict_stored sid l msg t st : dict (stored sid l msg t st) = <[sid := l]> (dict st).
Proof. done. Qed.

Lemma effect_heap_wf s s' : effect s s' → heap_wf (store s) → heap_wf (store s').
Proof.
  intros [->|i r [->|[sid ->]] _ _ _ _|env pd -> _ _ _ _|env -> _ _ _
          |i env pd text _ -> _ _ _] Hwf; auto using heap_wf_py_get.
  by apply heap_wf_list_append2.
Qed.

(** No step frees a list object. *)
Lemma effect_heap_dom s s' :
  effect s s' → separated (store s) → dom (heap (store s)) ⊆ dom (heap (store s')).
Proof.
  intros [->|i r [->|[sid ->]] _ _ _ _|env pd -> _ _ _ _|env -> _ _ _
          |i env pd text _ -> _ _ _] Hsep; try done.
  1,2: by apply py_get_spec.
  by rewrite heap_stored, dom_alter_L.
Qed.

Lemma sreachable_ind_effect (P : Server → Prop) :
  P (server_init cfg) → (∀ s s', effect s s' → P s → P s') →
  ∀ s, sreachable cfg s → P s.
Proof. intros H0 HS s. induction 1; eauto using exec_effect. Qed.

Lemma sreachable_heap_wf s : sreachable cfg s → heap_wf (store s).
Proof.
  revert s. apply (sreachable_ind_effect (λ s, heap_wf (store s)));
    [apply heap_wf_init|apply effect_heap_wf].
Qed.

(** *** Sessions stay apart *)

Lemma owned_separated s : owned s → separated (store s).
Proof.
  intros [Hdom Hown]. split.
  - intros s1 s2 l H1 H2. apply (Hown s1 s2 l); by left.
  - intros sid l H. apply (Hdom sid). by left.
Qed.

Lemma owned_init : owned (server_init cfg).
Proof.
  assert (∀ sid l, ¬ refers (server_init cfg) sid l) as Hno.
  { intros sid l [H|(i & env & pd & H & _)]; cbn in H; by rewrite lookup_empty in H. }
  split; intros *; by intros ?%Hno.
Qed.

(** A step that creates no reference keeps the invariant. *)
Lemma owned_mono s s' :
  (∀ sid l, refers s' sid l → refers s sid l) →
  dom (heap (store s)) ⊆ dom (heap (store s')) → owned s → owned s'.
Proof.
  intros Hsub Hdom [H1 H2]. split.
  - intros sid l ?%Hsub. by eapply Hdom, H1.
  - intros sid1 sid2 l ?%Hsub ?%Hsub. by eapply H2.
Qed.

Lemma refers_sub s s' sid l :
  (∀ sid l, dict (store s') !! sid = Some l → refers s sid l) →
  tasks s' ⊆ tasks s → refers s' sid l → refers s sid l.
Proof.
  intros Hd Ht [H|(i & env & pd & H & <- & <-)]; [by apply Hd|].
  right. exists i, env, pd. split; [|done]. by eapply lookup_weaken.
Qed.

(** The reference line 130 gives a session is one the session refers to
    already, or a fresh one. *)
Lemma py_get_refers s sid :
  owned s →
  refers s sid (py_get sid (store s)).1 ∨ (py_get sid (store s)).1 ∉ dom (heap (store s)).
Proof.
  intros Hsep%owned_separated.
  pose proof (py_get_spec sid (store s) Hsep) as (_ & _ & _ & _ & _ & Hl).
  destruct (dict (store s) !! sid) as [l0|] eqn:E; [left; left; congruence|by right].
Qed.

(** Only the session itself can refer to it already. *)
Lemma py_get_owner s sid sid' :
  owned s → refers s sid' (py_get sid (store s)).1 → sid' = sid.
Proof.
  intros Hown Hr. destruct (py_get_refers s sid Hown) as [Hr'|Hf].
  - by eapply (proj2 Hown).
  - by destruct Hf; eapply (proj1 Hown).
Qed.

(** Answering a request creates no reference. *)
Lemma refers_answer s s' i sid l :
  owned s →
  store s' = store s ∨ (∃ sid, store s' = (py_get sid (store s)).2) →
  tasks s' = delete i (tasks s) → refers s' sid l → refers s sid l.
Proof.
  intros Hsep%owned_separated Hst Ht. apply refers_sub; [|rewrite Ht; apply delete_subseteq].
  intros sid' l' H. left. destruct Hst as [Hst|[sid0 Hst]]; rewrite Hst in H; [done|].
  by rewrite (proj1 (py_get_spec sid0 _ Hsep)) in H.
Qed.

(** A handler of [chat] that starts to wait creates the reference it holds. *)
Lemma refers_suspend s s' env pd sid l :
  owned s →
  store s' = (py_get (p_session_id pd) (store s)).2 →
  tasks s' = <[received s := ChatTask env pd]> (tasks s) →
  refers s' sid l →
  refers s sid l ∨ sid = p_session_id pd ∧ l = p_history pd.
Proof.
  intros Hsep%owned_separated Hst Ht [H|(j & env' & pd' & H & <- & <-)].
  - left; left. by rewrite Hst, (proj1 (py_get_spec _ _ Hsep)) in H.
  - rewrite Ht, lookup_insert in H. case_decide; [right; by simplify_eq|].
    left; right. by exists j, env', pd'.
Qed.

(** A handler of the key test that starts to wait creates none. *)
Lemma refers_wait s s' env sid l :
  store s' = store s → tasks s' = <[received s := KeyTask env]> (tasks s) →
  refers s' sid l → refers s sid l.
Proof.
  intros Hst Ht [H|(j & env' & pd' & H & <- & <-)]; [left; by rewrite <-Hst|].
  rewrite Ht, lookup_insert in H. case_decide; [done|]. right. by exists j, env', pd'.
Qed.

(** The binding of line 151 is a reference the handler held. *)
Lemma refers_store s s' i env pd text sid l :
  tasks s !! i = Some (ChatTask env pd) →
  store s' = stored (p_session_id pd) (p_history pd) (p_user_message pd) text (store s) →
  tasks s' = delete i (tasks s) → refers s' sid l → refers s sid l.
Proof.
  intros Hi Hst Ht. apply refers_sub; [|rewrite Ht; apply delete_subseteq].
  intros sid' l'. rewrite Hst, dict_stored, lookup_insert. case_decide as Hs.
  - intros [= <-]. subst sid'. right. by exists i, env, pd.
  - by left.
Qed.

Lemma effect_owned s s' : effect s s' → owned s → owned s'.
Proof.
  intros Heff Hown. pose proof (owned_separated s Hown) as Hsep.
  destruct Heff as [->|i r Hst Ht _ _ _|env pd Hst Hl Ht _ _|env Hst Ht _ _
                   |i env pd text Hi Hst Ht _ _]; [done|..].
  - apply (owned_mono s); [by eauto using refers_answer| |done].
    destruct Hst as [->|[sid ->]]; [done|by apply py_get_spec].
  - pose proof (py_get_spec (p_session_id pd) (store s) Hsep)
      as (_ & Hin & _ & _ & Hsub & _).
    pose proof (λ sid l, refers_suspend s s' env pd sid l Hown Hst Ht) as Hnew. split.
    + intros sid l [H|[-> ->]]%Hnew; rewrite Hst; [|by rewrite Hl].
      by eapply Hsub, (proj1 Hown).
    + intros sid1 sid2 l [Ha|[-> ->]]%Hnew [Hb|[-> Hb]]%Hnew;
        [by eapply (proj2 Hown)|..|done]; subst; rewrite Hl in *;
        [|symmetry]; by eapply py_get_owner.
  - apply (owned_mono s); [by eauto using refers_wait|by rewrite Hst|done].
  - apply (owned_mono s); [by eauto using refers_store| |done].
    by rewrite Hst, heap_stored, dom_alter_L.
Qed.

Lemma sreachable_owned s : sreachable cfg s → owned s.
Proof.
  revert s. apply (sreachable_ind_effect owned); [apply owned_init|apply effect_owned].
Qed.

(** *** No transcript is longer than its answers *)

Lemma ok_count_snoc s s' i r sid :
  answered s' = answered s ++ [(i, r)] →
  ok_count sid s' = ok_count sid s + (if ok_for sid r then 1 else 0).
Proof.
  intros Ha. unfold ok_count. rewrite Ha, filter_app, length_app, filter_cons. cbn [snd].
  by destruct (ok_for sid r).
Qed.

Lemma ok_count_same s s' sid : answered s' = answered s → ok_count sid s' = ok_count sid s.
Proof. unfold ok_count. by intros ->. Qed.

Lemma ok_for_chat_response sid r :
  ok_for sid (JSONResponse 200 (chat_response_body r)) = bool_decide (session_id r = sid).
Proof.
  cbn. rewrite (bool_decide_eq_true_2 (200 = 200)%Z) by done. cbn [andb].
  apply bool_decide_ext. split; congruence.
Qed.

(** The list objects after lines 149-151. *)
Lemma deref_stored sid l msg t st l' :
  l ∈ dom (heap st) →
  deref l' (stored sid l msg t st) =
  if decide (l' = l) then append_exchange (deref l st) msg t else deref l' st.
Proof.
  intros [h Hh]%elem_of_dom. unfold deref. rewrite heap_stored, lookup_alter.
  case_decide; case_decide; simplify_eq; [|done]. by rewrite Hh.
Qed.

Lemma effect_bounded s s' : effect s s' → owned s → bounded s → bounded s'.
Proof.
  intros Heff Hown Hb. pose proof (owned_separated s Hown) as Hsep.
  destruct Heff as [->|i r Hst Ht Ha Hno _|env pd Hst Hl Ht Ha _|env Hst Ht Ha _
                   |i env pd text Hi Hst Ht Ha _];
    [done|intros sid l Hr..].
  - apply (refers_answer s s' i) in Hr; [|done..].
    rewrite (ok_count_snoc s s' i r) by done. rewrite Hno, Nat.add_0_r.
    destruct Hst as [->|[sid0 ->]]; [by apply Hb|].
    rewrite (proj1 (proj2 (proj2 (proj2 (py_get_spec sid0 _ Hsep))))); [by apply Hb|].
    by eapply (proj1 Hown).
  - pose proof (py_get_spec (p_session_id pd) (store s) Hsep)
      as (_ & _ & Hd & Hkeep & _ & Hg).
    rewrite (ok_count_same s s' sid Ha), Hst.
    apply (refers_suspend s s' env pd) in Hr as [Hr|[-> ->]]; [| |done..].
    + rewrite Hkeep; [by apply Hb|by eapply (proj1 Hown)].
    + rewrite Hl, Hd. unfold histories_get. rewrite contents_lookup.
      destruct (dict (store s) !! _) as [l0|] eqn:E; cbn; [|lia]. apply Hb. by left.
  - apply (refers_wait s s' env) in Hr; [|done..].
    rewrite (ok_count_same s s' sid Ha), Hst. by apply Hb.
  - apply (refers_store s s' i env pd text) in Hr; [|done..].
    assert (refers s (p_session_id pd) (p_history pd)) as Hrt.
    { right. by exists i, env, pd. }
    rewrite (ok_count_snoc s s' i _ sid Ha), ok_for_chat_response, Hst. cbn [session_id].
    rewrite deref_stored by by eapply (proj1 Hown).
    case_decide as Hl; [subst l|].
    + rewrite (proj2 Hown _ _ _ Hr Hrt), bool_decide_eq_true_2 by done.
      rewrite append_exchange_length. specialize (Hb _ _ Hrt). lia.
    + specialize (Hb _ _ Hr). lia.
Qed.

Lemma bounded_init : bounded (server_init cfg).
Proof. intros sid l [H|(i & env & pd & H & _)]; cbn in H; by rewrite lookup_empty in H. Qed.

Lemma sreachable_bounded s : sreachable cfg s → bounded s.
Proof.
  intros Hs. cut (owned s ∧ bounded s); [by intros [_ ?]|]. revert s Hs.
  apply (sreachable_ind_effect (λ s, owned s ∧ bounded s)).
  - split; [apply owned_init|apply bounded_init].
  - intros s s' Heff [? ?]. split; [by eapply effect_owned|by eapply effect_bounded].
Qed.

(** *** Sessions the dict knows lose nothing *)

Lemma transcript_lookup sid s :
  transcript sid s =
  match dict (store s) !! sid with Some l => deref l (store s) | None => [] end.
Proof.
  unfold transcript, histories_get. rewrite contents_lookup. by destruct (dict _ !! _).
Qed.

Lemma transcript_dict sid s l :
  dict (store s) !! sid = Some l → transcript sid s = deref l (store s).
Proof. intros H. by rewrite transcript_lookup, H. Qed.

(** The transcripts after lines 149-151, when no other session refers to the
    list object. *)
Lemma transcript_stored s s' sid l msg t sid' :
  store s' = stored sid l msg t (store s) → l ∈ dom (heap (store s)) →
  (∀ l', dict (store s) !! sid' = Some l' → sid' ≠ sid → l' ≠ l) →
  transcript sid' s' =
  if decide (sid' = sid) then append_exchange (deref l (store s)) msg t
  else transcript sid' s.
Proof.
  intros Hst Hin Hne. rewrite !transcript_lookup, Hst, dict_stored, lookup_insert.
  case_decide as Hs; [subst sid'; by rewrite deref_stored, !decide_True|].
  rewrite decide_False by done.
  destruct (dict (store s) !! sid') as [l'|] eqn:E; [|done].
  rewrite deref_stored, decide_False; [done|by apply Hne|done].
Qed.

(** A session in the dict none of whose handlers waits is settled. *)
Lemma settled_quiet sid s l :
  dict (store s) !! sid = Some l →
  (∀ i env pd, tasks s !! i = Some (ChatTask env pd) → p_session_id pd ≠ sid) →
  settled sid s.
Proof.
  intros Hl Hno. exists l. split; [done|]. intros i env pd Ht Hs. by destruct (Hno i env pd).
Qed.

(** The two appends and the binding keep a settled session settled; its
    transcript grows by the exchange when the handler is one of the session. *)
Lemma settled_store s s' sid l i env pd text :
  owned s → dict (store s) !! sid = Some l →
  (∀ i env pd, tasks s !! i = Some (ChatTask env pd) → p_session_id pd = sid →
               p_history pd = l) →
  tasks s !! i = Some (ChatTask env pd) →
  store s' = stored (p_session_id pd) (p_history pd) (p_user_message pd) text (store s) →
  tasks s' = delete i (tasks s) →
  answered s' = answered s ++
    [(i, JSONResponse 200 (chat_response_body
           {| response := text; session_id := p_session_id pd |}))] →
  settled sid s' ∧
  length (transcript sid s') + 2 * ok_count sid s =
    length (deref l (store s)) + 2 * ok_count sid s'.
Proof.
  intros Hown Hl Hts Hi Hst Ht Ha.
  rewrite (ok_count_snoc s s' i _ sid Ha), ok_for_chat_response. cbn [session_id].
  assert (refers s (p_session_id pd) (p_history pd)) as Hrt.
  { right. by exists i, env, pd. }
  assert (dict (store s') !! sid = Some l) as Hl'.
  { rewrite Hst, dict_stored, lookup_insert. case_decide as Hs; [|done].
    by rewrite (Hts i env pd Hi Hs). }
  rewrite (transcript_dict sid s' l Hl'), Hst, deref_stored by by eapply (proj1 Hown).
  split.
  { exists l. split; [done|]. intros j env' pd'. rewrite Ht, lookup_delete_Some.
    intros [_ ?]. by eapply Hts. }
  case_bool_decide as Hs.
  - rewrite decide_True by (symmetry; by apply (Hts i env pd)).
    rewrite (Hts i env pd Hi Hs), append_exchange_length. lia.
  - rewrite decide_False; [lia|]. intros ->. apply Hs.
    eapply (proj2 Hown); [done|by left].
Qed.

(** A step keeps a settled session settled, and adds to its transcript two
    entries exactly when it answers a chat call of the session with status
    200. *)
Lemma effect_settled s s' sid :
  effect s s' → owned s → settled sid s →
  settled sid s' ∧
  length (transcript sid s') + 2 * ok_count sid s =
    length (transcript sid s) + 2 * ok_count sid s'.
Proof.
  intros Heff Hown (l & Hl & Hts). pose proof (owned_separated s Hown) as Hsep.
  assert (l ∈ dom (heap (store s))) as Hin by (eapply (proj1 Hown); by left).
  rewrite (transcript_dict sid s l Hl).
  destruct Heff as [->|i r Hst Ht Ha Hno _|env pd Hst Hh Ht Ha _|env Hst Ht Ha _
                   |i env pd text Hi Hst Ht Ha _].
  - split; [by exists l|]. by rewrite (transcript_dict sid s l Hl).
  - assert (dict (store s') = dict (store s) ∧ deref l (store s') = deref l (store s))
      as [Hd Hderef].
    { destruct Hst as [->|[sid0 ->]]; [done|].
      pose proof (py_get_spec sid0 _ Hsep) as (? & _ & _ & Hkeep & _). auto. }
    rewrite (transcript_dict sid s' l), Hderef, (ok_count_snoc s s' i r sid Ha), Hno
      by by rewrite Hd.
    split; [|lia]. exists l. split; [by rewrite Hd|].
    intros j env pd. rewrite Ht, lookup_delete_Some. intros [_ ?]. by eapply Hts.
  - pose proof (py_get_spec (p_session_id pd) _ Hsep) as (Hd & _ & _ & Hkeep & _ & Hg).
    rewrite (transcript_dict sid s' l), Hst, Hkeep by (by rewrite ?Hst, ?Hd).
    rewrite (ok_count_same s s' sid Ha).
    split; [|done]. exists l. split; [by rewrite Hst, Hd|].
    intros j env' pd'. rewrite Ht, lookup_insert. case_decide; [|by eapply Hts].
    intros [= <- <-] Hs. rewrite Hh, Hs. rewrite Hs, Hl in Hg. done.
  - rewrite (transcript_dict sid s' l), Hst, (ok_count_same s s' sid Ha) by by rewrite Hst.
    split; [|done]. exists l. split; [by rewrite Hst|].
    intros j env' pd'. rewrite Ht, lookup_insert. case_decide; [done|by eapply Hts].
  - by eapply settled_store.
Qed.

(** *** Requests of a session the dict does not know *)

(** A chat request of a session the dict does not know, when
    [genai.configure] returns: line 130 gives the handler a fresh, empty list
    object, the prompt is composed from the empty transcript, and the dict
    still does not know the session while the handler waits. *)
Lemma arrive_chat_unknown s env body :
  sreachable cfg s → configure env (GOOGLE_API_KEY cfg) = None →
  dict (store s) !! session_of env body = None →
  let sid := session_of env body in
  let l := (py_get sid (store s)).1 in
  let s' := arrive cfg (PostChat body) env s in
  tasks s' = <[received s := ChatTask env
                 {| p_session_id := sid; p_history := l;
                    p_user_message := req_message body;
                    p_prompt := compose_prompt "" (req_message body) |}]> (tasks s) ∧
  received s' = S (received s) ∧ answered s' = answered s ∧
  dict (store s') = dict (store s) ∧
  (l ∉ dom (heap (store s))) ∧ l ∈ dom (heap (store s')) ∧ deref l (store s') = [].
Proof.
  intros Hs Hk Hd. cbv zeta.
  pose proof (owned_separated s (sreachable_owned s Hs)) as Hsep.
  pose proof (py_get_spec (session_of env body) (store s) Hsep)
    as (Hdict & Hin & Hderef & _ & _ & Hfresh).
  rewrite Hd in Hfresh.
  assert (histories_get (session_of env body) (contents (store s)) = []) as Hnil.
  { unfold histories_get. by rewrite contents_lookup, Hd. }
  unfold arrive. rewrite run_chat_begin, Hk, py_prompt_of_contents by done.
  unfold prompt_of. fold (store s). rewrite Hnil.
  cbn [build_prompt conversation_history render_history]. set (p := compose_prompt _ _).
  assert (store (suspend (received s) (ChatTask env (pending_of env body p (store s)))
                   (waiting cfg env body p (world s)) (count_request s)) =
          (py_get (session_of env body) (store s)).2) as ->.
  { unfold store, waiting. cbn [suspend world]. by rewrite chat_histories_after_generate. }
  split_and!; try done. by rewrite <-Hnil.
Qed.

End invariants.

(** * The theorems *)

Section theorems.
Context (cfg : Config).
Implicit Types (s : Server) (sid : string) (evs : list Event) (ls : list Label).

Lemma sreachable_exec_all ls s : sreachable cfg s → sreachable cfg (exec_all cfg ls s).
Proof.
  revert s. induction ls as [|l ls IH]; intros s Hs; [done|].
  apply IH. by constructor.
Qed.

(** C7. On the schedule of the code as written, where no handler yields, the
    server sends the responses of the application of [App.v] in the order of
    the requests, ends in its state, and no handler is left waiting. *)
Theorem one_at_a_time_is_app evs :
  let s := exec_all cfg (one_at_a_time 0 evs) (server_init cfg) in
  responses s = (run cfg evs (startup cfg)).1 ∧
  lower (world s) = (run cfg evs (startup cfg)).2 ∧
  tasks s = ∅.
Proof.
  cbv zeta. change 0 with (received (server_init cfg)).
  rewrite exec_one_at_a_time by done. unfold responses. cbn [world tasks answered server_init].
  destruct (py_run_sim cfg evs (py_startup cfg) separated_init) as (Hr & Hw & _).
  rewrite lower_startup in Hr, Hw. split_and!; [|done..].
  rewrite app_nil_l, snd_zip, Hr; [done|]. by rewrite length_seq, run_responses_length.
Qed.

(** C8. Under every schedule, every stored transcript is well formed: complete
    exchanges of a user entry and a model entry.  Handlers of one session
    that overlap do not corrupt its transcript. *)
Theorem interleaved_wf s : sreachable cfg s → wf_store (contents (store s)).
Proof. intros Hs. by apply heap_wf_contents, (sreachable_heap_wf cfg). Qed.

(** C9. Under every schedule, no list object is referred to by two sessions,
    whether through the dict or through a handler that waits: a handler
    appends only to the transcript of its own session. *)
Theorem interleaved_owned s sid1 sid2 l1 l2 :
  sreachable cfg s → sid1 ≠ sid2 → refers s sid1 l1 → refers s sid2 l2 → l1 ≠ l2.
Proof.
  intros Hs Hne H1 H2 ->. by destruct Hne; eapply (sreachable_owned cfg s Hs).
Qed.

(** C10. Under every schedule, the transcript of a session holds at most two
    entries for each chat call answered with status 200 under that session. *)
Theorem interleaved_length_le s sid :
  sreachable cfg s →
  length (histories_get sid (contents (store s))) ≤ 2 * ok_count sid s.
Proof.
  intros Hb%sreachable_bounded. unfold histories_get. rewrite contents_lookup.
  destruct (dict (store s) !! sid) as [l|] eqn:E; cbn; [|lia]. apply Hb. by left.
Qed.

(** C12. From the moment the dict knows a session and all its waiting handlers
    hold the dict's list object, no exchange of the session is lost, under
    any schedule: the transcript grows by exactly two entries for each chat
    call answered with status 200 under the session. *)
Theorem settled_keeps_all s sid ls :
  sreachable cfg s → settled sid s →
  settled sid (exec_all cfg ls s) ∧
  length (transcript sid (exec_all cfg ls s)) + 2 * ok_count sid s =
    length (transcript sid s) + 2 * ok_count sid (exec_all cfg ls s).
Proof.
  revert s. induction ls as [|l ls IH]; intros s Hs Hset; [done|].
  rewrite exec_all_cons.
  destruct (effect_settled s (exec cfg l s) sid) as [Hset' Hlen];
    [apply exec_effect|by apply (sreachable_owned cfg)|done|].
  destruct (IH (exec cfg l s)) as [? ?]; [by constructor|done|]. split; [done|lia].
Qed.

(** C14. What the handler of a chat request holds when it starts to wait, on a
    state the server reaches and when [genai.configure] returns: the list
    object behind its session with the transcript as it is now, and the
    prompt composed from that transcript.  No transcript changes, and nothing
    is answered yet. *)
Theorem arrive_chat_waits s env body :
  sreachable cfg s → configure env (GOOGLE_API_KEY cfg) = None →
  let sid := session_of env body in
  let s' := arrive cfg (PostChat body) env s in
  ∃ pd, tasks s' = <[received s := ChatTask env pd]> (tasks s) ∧
        p_session_id pd = sid ∧ p_user_message pd = req_message body ∧
        inr (p_prompt pd) = build_prompt (transcript sid s) (req_message body) ∧
        deref (p_history pd) (store s') = transcript sid s ∧
        answered s' = answered s ∧
        ∀ sid', transcript sid' s' = transcript sid' s.
Proof.
  intros Hs Hk. cbv zeta.
  pose proof (owned_separated s (sreachable_owned cfg s Hs)) as Hsep.
  pose proof (py_get_spec (session_of env body) (store s) Hsep) as (_ & _ & Hd & _).
  unfold arrive. rewrite run_chat_begin, Hk, py_prompt_of_contents by done.
  unfold prompt_of. fold (store s) (transcript (session_of env body) s).
  destruct (wf_store_get (contents (store s)) (session_of env body)) as [xs Hxs];
    [by apply heap_wf_contents, (sreachable_heap_wf cfg)|].
  fold (transcript (session_of env body) s) in Hxs. rewrite Hxs, build_prompt_exchanges.
  eexists. split_and!; try done.
  - rewrite <-Hxs. unfold store, waiting. cbn [suspend world pending_of p_history].
    rewrite chat_histories_after_generate. apply Hd.
  - intros sid'. unfold transcript, store, waiting. cbn [suspend world].
    rewrite chat_histories_after_generate. cbn. by rewrite contents_py_get.
Qed.

(** C13. What a handler of [chat] does when it resumes with a reply, on a state
    the server reaches: it answers with the trimmed reply under its session,
    and the transcript of the session becomes what the handler's list object
    held, with the exchange appended.  That is the transcript of the dict
    with the exchange appended when the session is settled.  No other
    transcript changes. *)
Theorem resume_chat_success s i env pd t :
  sreachable cfg s → tasks s !! i = Some (ChatTask env pd) →
  reply_of env MODEL_NAME (p_prompt pd) = inr t →
  let sid := p_session_id pd in
  let s' := resume i s in
  answered s' = answered s ++
    [(i, JSONResponse 200 (chat_response_body {| response := strip t; session_id := sid |}))] ∧
  transcript sid s' =
    append_exchange (deref (p_history pd) (store s)) (p_user_message pd) (strip t) ∧
  (settled sid s →
   transcript sid s' = append_exchange (transcript sid s) (p_user_message pd) (strip t)) ∧
  (∀ sid', sid' ≠ sid → transcript sid' s' = transcript sid' s).
Proof.
  intros Hown%(sreachable_owned cfg) Ht Hr. cbv zeta.
  destruct (resume_chat_ok i env pd t s Ht Hr) as [Hst Ha].
  assert (refers s (p_session_id pd) (p_history pd)) as Hrt by (right; by exists i, env, pd).
  assert (∀ sid', transcript sid' (resume i s) =
    if decide (sid' = p_session_id pd)
    then append_exchange (deref (p_history pd) (store s)) (p_user_message pd) (strip t)
    else transcript sid' s) as Htr.
  { intros sid'. apply transcript_stored; [done|by eapply (proj1 Hown)|].
    intros l' Hl' Hne ->. apply Hne. eapply (proj2 Hown); [by left|done]. }
  split_and!; [done|by rewrite Htr, decide_True| |intros sid' Hne; by rewrite Htr, decide_False].
  intros (l & Hl & Hts). by rewrite Htr, decide_True, (Hts i env pd Ht), (transcript_dict _ s l).
Qed.

(** C11. If handlers yielded at the call of the service, two first requests of
    a session that overlap would lose an exchange, whatever the state, the
    messages and the replies: when both arrive before either resumes, both
    are answered with status 200 under the session, and the transcript of
    the session holds only the exchange of the one that resumed last.  Each
    got a list object of its own from [chat_histories.get(session_id, [])],
    and line 151 binds the session to the object of the last. *)
Theorem lost_update s env1 env2 body1 body2 sid t1 t2 :
  sreachable cfg s →
  session_of env1 body1 = sid → session_of env2 body2 = sid →
  dict (store s) !! sid = None →
  configure env1 (GOOGLE_API_KEY cfg) = None → configure env2 (GOOGLE_API_KEY cfg) = None →
  reply_of env1 MODEL_NAME (compose_prompt "" (req_message body1)) = inr t1 →
  reply_of env2 MODEL_NAME (compose_prompt "" (req_message body2)) = inr t2 →
  let n := received s in
  let s' := exec_all cfg [Arrive (PostChat body1) env1; Arrive (PostChat body2) env2;
                          Resume n; Resume (S n)] s in
  answered s' = answered s ++
    [(n, JSONResponse 200 (chat_response_body {| response := strip t1; session_id := sid |}));
     (S n, JSONResponse 200 (chat_response_body {| response := strip t2; session_id := sid |}))] ∧
  ok_count sid s' = ok_count sid s + 2 ∧
  transcript sid s' = [user_entry (req_message body2); model_entry (strip t2)].
Proof.
  intros Hs <- Hsid Hd Hk1 Hk2 Hr1 Hr2. cbv zeta. rewrite !exec_all_cons. cbn [exec exec_all foldl].
  destruct (arrive_chat_unknown cfg s env1 body1 Hs Hk1 Hd)
    as (Ht1 & Hn1 & Ha1 & Hd1 & _ & Hin1 & _).
  set (s1 := arrive cfg (PostChat body1) env1 s) in *.
  assert (sreachable cfg s1) as Hs1
    by exact (sreachable_exec cfg s (Arrive (PostChat body1) env1) Hs).
  rewrite <-Hsid, <-Hd1 in Hd.
  destruct (arrive_chat_unknown cfg s1 env2 body2 Hs1 Hk2 Hd)
    as (Ht2 & Hn2 & Ha2 & Hd2 & Hf2 & Hin2 & Hnil2).
  rewrite Hsid in Ht2, Hf2, Hin2, Hnil2.
  set (s2 := arrive cfg (PostChat body2) env2 s1) in *. rewrite Hn1 in *.
  assert (dom (heap (store s1)) ⊆ dom (heap (store s2))) as Hsub.
  { apply (effect_heap_dom s1 s2); [apply arrive_effect|].
    by apply owned_separated, (sreachable_owned cfg). }
  match type of Ht1 with _ = <[_ := ChatTask _ ?pd]> _ => set (pd1 := pd) in * end.
  match type of Ht2 with _ = <[_ := ChatTask _ ?pd]> _ => set (pd2 := pd) in * end.
  destruct (resume_chat_ok (received s) env1 pd1 t1 s2) as [Hst3 Ha3]; [|done|].
  { by rewrite Ht2, lookup_insert_ne, Ht1, lookup_insert_eq by lia. }
  set (s3 := resume (received s) s2) in *.
  unfold pd1 in Hst3, Ha3. cbn [p_session_id p_history p_user_message] in Hst3, Ha3.
  destruct (resume_chat_ok (S (received s)) env2 pd2 t2 s3) as [Hst4 Ha4]; [|done|].
  { unfold s3. by rewrite tasks_resume, lookup_delete_ne, Ht2, lookup_insert_eq by lia. }
  set (s4 := resume (S (received s)) s3) in *.
  unfold pd2 in Hst4, Ha4. cbn [p_session_id p_history p_user_message] in Hst4, Ha4.
  assert (deref (py_get (session_of env1 body1) (store s1)).1 (store s3) = []) as Hnil3.
  { rewrite Hst3, deref_stored by by apply Hsub. rewrite decide_False; [done|].
    intros Heq. apply Hf2. by rewrite Heq. }
  split_and!.
  - by rewrite Ha4, Ha3, Ha2, Ha1, <-(assoc_L (++)).
  - rewrite (ok_count_snoc s3 s4 _ _ _ Ha4), (ok_count_snoc s2 s3 _ _ _ Ha3),
      (ok_count_same s1 s2 _ Ha2), (ok_count_same s s1 _ Ha1), !ok_for_chat_response.
    cbn [session_id]. rewrite !bool_decide_eq_true_2 by done. lia.
  - rewrite (transcript_stored s3 s4 _ _ _ _ _ Hst4), decide_True, Hnil3; [done..| |done].
    by rewrite Hst3, heap_stored, dom_alter_L.
Qed.

End theorems.

(** * Two requests of one session that overlap *)

Definition req_a : ChatRequest :=
  {| req_message := "I have chest pain"; req_session_id := Some "s1"; req_history := None |}.

Definition req_b : ChatRequest :=
  {| req_message := "Is it serious?"; req_session_id := Some "s1"; req_history := None |}.

Definition req_c : ChatRequest :=
  {| req_message := "What should I do?"; req_session_id := Some "s1"; req_history := None |}.

Definition req_other : ChatRequest :=
  {| req_message := "Hello"; req_session_id := Some "s2"; req_history := None |}.

(** Both requests arrive before either is answered. *)
Definition overlap : list Label :=
  [Arrive (PostChat req_a) env_ok; Arrive (PostChat req_b) env_ok; Resume 0; Resume 1].

(** The two requests of [overlap]: both are answered with status 200, and
    the transcript holds the second exchange only. *)
Example lost_update_overlap :
  let s := exec_all cfg_ex overlap (server_init cfg_ex) in
  ok_count "s1" s = 2 ∧
  histories_get "s1" (contents (store s)) = [user_entry "Is it serious?"; model_entry "Rest."] ∧
  tasks s = ∅.
Proof. by vm_compute. Qed.

(** In a session the dict knows already, overlapping handlers hold the same
    list object and both exchanges are kept, in the order of the answers; but
    the prompt of the second was composed before the first was stored. *)
Example overlap_known_session :
  let s0 := exec_all cfg_ex
              [Arrive (PostChat req_a) env_ok; Resume 0;
               Arrive (PostChat req_b) env_ok; Arrive (PostChat req_c) env_ok]
              (server_init cfg_ex) in
  let s := exec_all cfg_ex [Resume 1; Resume 2] s0 in
  histories_get "s1" (contents (store s)) =
    [user_entry "I have chest pain"; model_entry "Rest.";
     user_entry "Is it serious?"; model_entry "Rest.";
     user_entry "What should I do?"; model_entry "Rest."] ∧
  match tasks s0 !! 2 with
  | Some (ChatTask _ pd) =>
      inr (p_prompt pd) =
        build_prompt [user_entry "I have chest pain"; model_entry "Rest."] "What should I do?"
  | _ => False
  end.
Proof. by vm_compute. Qed.

(** A key test in flight while a chat request is served: the chat request is
    answered first, the transcript holds its exchange, and the key test is
    answered once the service has answered it, with the reply as the service
    gave it. *)
Example key_test_in_flight :
  let s := exec_all cfg_ex
             [Arrive GetTestKey env_ok; Arrive (PostChat req_a) env_ok; Resume 1; Resume 0]
             (server_init cfg_ex) in
  (answered s).*1 = [1; 0] ∧
  transcript "s1" s = [user_entry "I have chest pain"; model_entry "Rest."] ∧
  responses s !! 1 = Some (JSONResponse 200 (success_body " Rest. ")) ∧
  tasks s = ∅.
Proof. by vm_compute. Qed.

(** Once the first exchange of session ["s1"] is stored, every schedule
    keeps two entries for each successful call. *)
Lemma settled_keeps_all_witness :
  let s := exec_all cfg_ex [Arrive (PostChat req_a) env_ok; Resume 0] (server_init cfg_ex) in
  let ls := [Arrive (PostChat req_b) env_ok; Arrive (PostChat req_c) env_ok;
             Resume 2; Resume 1] in
  settled "s1" (exec_all cfg_ex ls s) ∧
  length (transcript "s1" (exec_all cfg_ex ls s)) + 2 * ok_count "s1" s =
    length (transcript "s1" s) + 2 * ok_count "s1" (exec_all cfg_ex ls s).
Proof.
  intros s ls. apply (settled_keeps_all cfg_ex).
  - apply sreachable_exec_all, sreachable_init.
  - apply (settled_quiet "s1" s 1%positive); [by vm_compute|].
    intros i env pd Ht. by vm_compute in Ht.
Defined.

(** The second request of session ["s1"] starts to wait with the prompt
    composed from the first exchange. *)
Lemma arrive_chat_waits_witness :
  let s := exec_all cfg_ex [Arrive (PostChat req_a) env_ok; Resume 0] (server_init cfg_ex) in
  let sid := session_of env_ok req_b in
  let s' := arrive cfg_ex (PostChat req_b) env_ok s in
  ∃ pd, tasks s' = <[received s := ChatTask env_ok pd]> (tasks s) ∧
        p_session_id pd = sid ∧ p_user_message pd = req_message req_b ∧
        inr (p_prompt pd) = build_prompt (transcript sid s) (req_message req_b) ∧
        deref (p_history pd) (store s') = transcript sid s ∧
        answered s' = answered s ∧
        ∀ sid', transcript sid' s' = transcript sid' s.
Proof.
  intros s. apply (arrive_chat_waits cfg_ex s env_ok req_b); [|done].
  apply sreachable_exec_all, sreachable_init.
Defined.

(** What the handler of [req_a] holds while it waits. *)
Definition pending_a : Pending :=
  {| p_session_id := "s1"; p_history := 1%positive;
     p_user_message := "I have chest pain";
     p_prompt := compose_prompt "" "I have chest pain" |}.

(** The first request of session ["s1"] resumes with the reply [" Rest. "]. *)
Lemma resume_chat_success_witness :
  let s := exec_all cfg_ex [Arrive (PostChat req_a) env_ok] (server_init cfg_ex) in
  let s' := resume 0 s in
  answered s' = answered s ++
    [(0, JSONResponse 200 (chat_response_body {| response := strip " Rest. "; session_id := "s1" |}))] ∧
  transcript "s1" s' = append_exchange (deref 1%positive (store s)) "I have chest pain" (strip " Rest. ") ∧
  (settled "s1" s →
   transcript "s1" s' = append_exchange (transcript "s1" s) "I have chest pain" (strip " Rest. ")) ∧
  (∀ sid', sid' ≠ "s1" → transcript sid' s' = transcript sid' s).
Proof.
  intros s. apply (resume_chat_success cfg_ex s 0 env_ok pending_a " Rest. ").
  - apply sreachable_exec_all, sreachable_init.
  - vm_compute. reflexivity.
  - vm_compute. reflexivity.
Defined.

(** The two requests of [overlap], from start-up. *)
Lemma lost_update_witness :
  let s := server_init cfg_ex in
  let s' := exec_all cfg_ex overlap s in
  answered s' = answered s ++
    [(0, JSONResponse 200 (chat_response_body {| response := strip " Rest. "; session_id := "s1" |}));
     (1, JSONResponse 200 (chat_response_body {| response := strip " Rest. "; session_id := "s1" |}))] ∧
  ok_count "s1" s' = ok_count "s1" s + 2 ∧
  transcript "s1" s' = [user_entry (req_message req_b); model_entry (strip " Rest. ")].
Proof.
  apply (lost_update cfg_ex (server_init cfg_ex) env_ok env_ok req_a req_b "s1" " Rest. " " Rest. ");
    try done. apply sreachable_init.
Defined.

Lemma interleaved_wf_witness :
  wf_store (contents (store (exec_all cfg_ex overlap (server_init cfg_ex)))).
Proof. apply (interleaved_wf cfg_ex), sreachable_exec_all, sreachable_init. Defined.

Lemma interleaved_length_le_witness :
  length (histories_get "s1" (contents (store (exec_all cfg_ex overlap (server_init cfg_ex)))))
  ≤ 2 * ok_count "s1" (exec_all cfg_ex overlap (server_init cfg_ex)).
Proof. apply (interleaved_length_le cfg_ex), sreachable_exec_all, sreachable_init. Defined.

Lemma interleaved_owned_witness : (1 ≠ 2)%positive.
Proof.
  apply (interleaved_owned cfg_ex
           (exec_all cfg_ex [Arrive (PostChat req_a) env_ok; Arrive (PostChat req_other) env_ok]
              (server_init cfg_ex)) "s1" "s2").
  - apply sreachable_exec_all, sreachable_init.
  - done.
  - right. eexists 0, _, _. by vm_compute.
  - right. eexists 1, _, _. by vm_compute.
Defined.
