(* ===== verification/Refine.v ===== *)
(** * The session store of the specification, and the code as an implementation

    The specification describes sessions that own an ordered transcript of
    turns, a turn being a role ([user] or [model]) and a text, with two
    operations: look a transcript up (empty when the session is new) and
    append a turn.  [SessionStore] is that contract as a class with its laws.

    The theorems of the first section are proved for every implementation of
    the class: recording exchanges keeps transcripts alternating and adds two
    turns per exchange.  The second section gives two implementations: a map
    from session id to list of turns, and the dict of the program
    ([chat_histories] with the operations of [Store.v]), whose laws are
    proved from the lemmas of [Store.v].  The third shows that what [chat]
    does to the dict is the specification's "append the user turn, then the
    model turn", and that the application simulates the abstract machine in
    which a successful chat call records an exchange and everything else
    changes nothing. *)

From S2P Require Import Prelude PyString Monad Http Login Store Prompt World Genai Chat TestKey App.

(** ** Turns *)

Inductive Role : Type := User | Model.

#[export] Instance Role_eq_dec : EqDecision Role.
Proof. solve_decision. Defined.

Record Turn : Type := {
  turn_role : Role;
  turn_text : string;
}.

#[export] Instance Turn_eq_dec : EqDecision Turn.
Proof. solve_decision. Defined.

(** The role tag as the program writes it. *)
Definition role_tag (r : Role) : string :=
  match r with
  | User => "user"
  | Model => "model"
  end.

(** The dict the program stores for a turn. *)
Definition entry_of_turn (t : Turn) : Entry :=
  {| role := role_tag (turn_role t); parts := [turn_text t] |}.

(** The turn a stored dict stands for, when it is one. *)
Definition turn_of_entry (e : Entry) : option Turn :=
  match parts e with
  | [t] =>
      if decide (role e = "user") then Some {| turn_role := User; turn_text := t |}
      else if decide (role e = "model") then Some {| turn_role := Model; turn_text := t |}
      else None
  | _ => None
  end.

(** A transcript alternates when the turn at position [i] is the user's for
    even [i] and the model's for odd [i]. *)
Definition alternating (ts : list Turn) : Prop :=
  ∀ i t, ts !! i = Some t → turn_role t = if Nat.even i then User else Model.

(** ** The contract *)

Class SessionStore (St : Type) : Type := {
  ss_empty : St;
  ss_transcript : string → St → list Turn;
  ss_append : string → Turn → St → St;
  ss_transcript_empty sid : ss_transcript sid ss_empty = [];
  ss_transcript_append sid t s :
    ss_transcript sid (ss_append sid t s) = ss_transcript sid s ++ [t];
  ss_transcript_append_ne sid sid' t s :
    sid ≠ sid' → ss_transcript sid' (ss_append sid t s) = ss_transcript sid' s;
}.

(** ** Clients of the contract *)

Section client.
Context `{SessionStore St}.
Implicit Types (s : St) (sid msg reply : string).

(** Record one exchange: the user's turn, then the model's. *)
Definition record_exchange sid msg reply s : St :=
  ss_append sid {| turn_role := Model; turn_text := reply |}
    (ss_append sid {| turn_role := User; turn_text := msg |} s).

(** Record a sequence of exchanges, each under its session id. *)
Fixpoint record_all (xs : list (string * string * string)) s : St :=
  match xs with
  | [] => s
  | (sid, msg, reply) :: xs' => record_all xs' (record_exchange sid msg reply s)
  end.

(** Every session's transcript alternates and has even length. *)
Definition store_ok s : Prop :=
  ∀ sid, alternating (ss_transcript sid s) ∧ Nat.Even (length (ss_transcript sid s)).

Lemma record_exchange_transcript sid msg reply s :
  ss_transcript sid (record_exchange sid msg reply s) =
  ss_transcript sid s ++ [{| turn_role := User; turn_text := msg |};
                          {| turn_role := Model; turn_text := reply |}].
Proof.
  unfold record_exchange. by rewrite !ss_transcript_append, <-(assoc_L (++)).
Qed.

Lemma record_exchange_transcript_ne sid sid' msg reply s :
  sid ≠ sid' →
  ss_transcript sid' (record_exchange sid msg reply s) = ss_transcript sid' s.
Proof. intros. unfold record_exchange. by rewrite !ss_transcript_append_ne. Qed.

Lemma alternating_exchange ts msg reply :
  alternating ts → Nat.Even (length ts) →
  alternating (ts ++ [{| turn_role := User; turn_text := msg |};
                      {| turn_role := Model; turn_text := reply |}]).
Proof.
  intros Halt Hev i t. destruct (decide (i < length ts)) as [Hi|Hi].
  - rewrite lookup_app_l by done. apply Halt.
  - rewrite lookup_app_r by lia.
    replace i with (length ts + (i - length ts)) at 2 by lia.
    rewrite Nat.even_add, (proj2 (Nat.even_spec _) Hev).
    destruct (i - length ts) as [|[|?]]; by intros [= <-].
Qed.

Lemma store_ok_empty : store_ok ss_empty.
Proof.
  intros sid. rewrite ss_transcript_empty. split; [by intros ? ?|by exists 0].
Qed.

(** Recording an exchange keeps every transcript alternating and of even
    length, in every implementation of the contract. *)
Theorem record_exchange_ok sid msg reply s :
  store_ok s → store_ok (record_exchange sid msg reply s).
Proof.
  intros Hok sid'. destruct (decide (sid = sid')) as [<-|Hne].
  - rewrite record_exchange_transcript. destruct (Hok sid) as [Halt [n Hn]]. split.
    + apply alternating_exchange; [done|by exists n].
    + exists (S n). rewrite length_app, Hn. cbn. lia.
  - by rewrite record_exchange_transcript_ne.
Qed.

Lemma record_all_ok xs s : store_ok s → store_ok (record_all xs s).
Proof.
  revert s. induction xs as [|[[sid msg] reply] xs IH]; intros s Hs; [done|].
  cbn. by apply IH, record_exchange_ok.
Qed.

(** The number of exchanges recorded under [sid]. *)
Definition exchanges_under sid (xs : list (string * string * string)) : nat :=
  length (filter (λ x, x.1.1 = sid) xs).

Lemma record_all_length xs s sid :
  length (ss_transcript sid (record_all xs s)) =
  length (ss_transcript sid s) + 2 * exchanges_under sid xs.
Proof.
  revert s. induction xs as [|[[sid' msg] reply] xs IH]; intros s.
  { unfold exchanges_under. cbn. lia. }
  cbn [record_all]. rewrite IH. unfold exchanges_under.
  rewrite filter_cons. cbn [fst]. case_decide as Hs.
  - subst sid'. rewrite record_exchange_transcript, length_app. cbn. lia.
  - rewrite record_exchange_transcript_ne by done. lia.
Qed.

End client.

(** ** Two implementations *)

(** The reference implementation: a map from session id to list of turns. *)
#[export] Program Instance map_store : SessionStore (gmap string (list Turn)) := {|
  ss_empty := ∅;
  ss_transcript sid s := default [] (s !! sid);
  ss_append sid t s := <[sid := default [] (s !! sid) ++ [t]]> s;
|}.
Next Obligation. done. Qed.
Next Obligation. intros sid t s. cbn. by rewrite lookup_insert_eq. Qed.
Next Obligation. intros sid sid' t s Hne. cbn. by rewrite lookup_insert_ne. Qed.

Lemma turn_of_entry_of_turn (t : Turn) : turn_of_entry (entry_of_turn t) = Some t.
Proof. by destruct t as [[] ?]. Qed.

(** The turns of a list of stored dicts; a dict that is no turn is skipped. *)
Definition turns_of (h : list Entry) : list Turn := omap turn_of_entry h.

Lemma turns_of_app h1 h2 : turns_of (h1 ++ h2) = turns_of h1 ++ turns_of h2.
Proof. apply omap_app. Qed.

Lemma turns_of_entry_of_turn (t : Turn) : turns_of [entry_of_turn t] = [t].
Proof. by destruct t as [[] ?]. Qed.

(** The program's dict with the operations of [Store.v]. *)
#[export] Program Instance dict_store : SessionStore Histories := {|
  ss_empty := chat_histories_init;
  ss_transcript sid hs := turns_of (histories_get sid hs);
  ss_append sid t hs := histories_set sid (histories_get sid hs ++ [entry_of_turn t]) hs;
|}.
Next Obligation. done. Qed.
Next Obligation.
  intros sid t hs. cbn. by rewrite histories_get_set, turns_of_app, turns_of_entry_of_turn.
Qed.
Next Obligation. intros sid sid' t hs Hne. cbn. by rewrite histories_get_set_ne. Qed.

(** ** The code implements the specification *)

Section refinement.
Implicit Types (h : list Entry) (hs : Histories) (a : gmap string (list Turn)).
Implicit Types (w : World) (sid msg reply : string).

(** What a successful [chat] does to the dict (read with default, two
    appends, bind) is the specification's "append the user turn, then the
    model turn" on the program's store. *)
Theorem store_exchange_record sid msg reply hs :
  store_exchange sid msg reply hs = record_exchange sid msg reply hs.
Proof.
  unfold record_exchange, store_exchange, append_exchange. cbn.
  rewrite histories_get_set. unfold histories_set. by rewrite insert_insert_eq.
Qed.

(** A well-formed transcript loses nothing when read as turns: writing
    the turns back as dicts gives the transcript. *)
Theorem turns_of_wf h : wf_history h → entry_of_turn <$> turns_of h = h.
Proof.
  intros [xs ->]. induction xs as [|[m r] xs IH]; [done|].
  change (of_exchanges ((m, r) :: xs)) with
    ([entry_of_turn {| turn_role := User; turn_text := m |};
      entry_of_turn {| turn_role := Model; turn_text := r |}] ++ of_exchanges xs).
  by rewrite turns_of_app, fmap_app, IH.
Qed.

Lemma turns_of_wf_witness :
  entry_of_turn <$> turns_of (of_exchanges [("I have chest pain", "Rest.")]) =
  of_exchanges [("I have chest pain", "Rest.")].
Proof. apply turns_of_wf. by eexists. Defined.

(** The two stores hold the same transcripts. *)
Definition same_transcripts hs a : Prop :=
  ∀ sid, ss_transcript sid hs = ss_transcript sid a.

(** The exchange a request records, if any: a chat call that returns. *)
Definition exchange_of (cfg : Config) (env : Env) (rq : Request) (w : World)
    : option (string * string * string) :=
  match rq with
  | PostChat body =>
      match chat cfg env body w with
      | (Return r, _) => Some (session_id r, req_message body, response r)
      | (Raise _, _) => None
      end
  | _ => None
  end.

(** A step of the abstract machine: record the exchange, or do nothing. *)
Definition abs_step (l : option (string * string * string)) a : gmap string (list Turn) :=
  match l with
  | Some (sid, msg, reply) => record_exchange sid msg reply a
  | None => a
  end.

Lemma same_transcripts_record sid msg reply hs a :
  same_transcripts hs a →
  same_transcripts (record_exchange sid msg reply hs) (record_exchange sid msg reply a).
Proof.
  intros Hs sid'. destruct (decide (sid = sid')) as [<-|Hne].
  - by rewrite !record_exchange_transcript, Hs.
  - by rewrite !record_exchange_transcript_ne.
Qed.

(** C5. Forward simulation: every request takes related states to related
    states, the abstract machine recording an exchange exactly when the chat
    call returns and doing nothing otherwise. *)
Theorem serve_simulates cfg env rq w a :
  same_transcripts (chat_histories w) a →
  same_transcripts (chat_histories (serve cfg env rq w).2)
                   (abs_step (exchange_of cfg env rq w) a).
Proof.
  intros Hs. destruct rq as [| | | |body|]; try (by rewrite serve_keeps_store).
  rewrite serve_chat_store. unfold exchange_of.
  destruct (chat cfg env body w) as [[r|e] w'] eqn:E; cbn [snd abs_step].
  - apply chat_Return_inv in E as (p & t & _ & _ & _ & -> & ->).
    rewrite store_exchange_record. by apply same_transcripts_record.
  - pose proof (chat_store cfg env body w) as Hst. rewrite E in Hst. cbn [fst snd] in Hst.
    by rewrite Hst.
Qed.

Lemma same_transcripts_init : same_transcripts chat_histories_init ∅.
Proof. done. Qed.

End refinement.

Lemma serve_simulates_witness :
  same_transcripts (chat_histories (serve cfg_ex env_ok (PostChat req_first) w_start).2)
    (abs_step (exchange_of cfg_ex env_ok (PostChat req_first) w_start) ∅).
Proof. apply serve_simulates, same_transcripts_init. Defined.

Lemma record_exchange_ok_witness :
  store_ok (record_exchange "s" "I have chest pain" "Rest." (∅ : gmap string (list Turn))).
Proof. apply record_exchange_ok, (@store_ok_empty _ map_store). Defined.
